(** * Lazy geometric primitives of trimesh (trimesh/primitives.py)

    A shallow embedding of the primitive classes (_Primitive,
    _PrimitiveAttributes, Cylinder, Sphere, Box, Extrusion) and the
    properties of their lazily created, cached meshes.

    Conventions of the embedding.
    - A float64 is the real number it stands for: rounding, infinities and
      NaN are outside the model.
    - A Python object of a primitive class is a record [obj]: its class, its
      data store [_data], its cache [_cache] and its other attributes.
    - A method is a function from the object to an outcome: a result or a
      raised exception, the object afterwards and the log records emitted
      (the module logger is written to and never read).
    - Functions of other trimesh modules (creation, points, triangles,
      util.convert_like, Trimesh.apply_transform) are fields of the
      interface [Collaborators]; the theorems hold for every instance.
    - The data store and the cache of the base mesh, util.is_shape and
      util.cache_decorator are not in primitives.py either; primitives.py
      depends on how they behave, so they are modelled from the
      specification, each definition saying so. *)

From Stdlib Require Import Reals Lra ZArith Lia Ascii.
From stdpp Require Import base gmap strings list.

(** ** Python values *)

(** A shapely polygon, by the coordinates of its exterior ring. *)
Definition Polygon : Type := list (R * R).

(** The values that reach the data store and the cache of a primitive:
    None, scalars, float and integer arrays of one and two dimensions (a
    two-dimensional array by its rows), polygons and one-dimensional object
    arrays. *)
Inductive value : Type :=
| VNone
| VFloat (x : R)
| VInt (n : Z)
| VVec (v : list R)
| VMat (m : list (list R))
| VIVec (v : list Z)
| VIMat (m : list (list Z))
| VPoly (p : Polygon)
| VObjs (ps : list (option Polygon)).

(** ** Exceptions and log records *)

Inductive pyclass : Type :=
| Exception | ValueError | TypeError | AttributeError | LookupError
| IndexError | KeyError | RuntimeError | NotImplementedError.

(** The direct base class in Python's built-in exception hierarchy. *)
Definition base_class (c : pyclass) : option pyclass :=
  match c with
  | Exception => None
  | ValueError | TypeError | AttributeError | LookupError | RuntimeError =>
      Some Exception
  | IndexError | KeyError => Some LookupError
  | NotImplementedError => Some RuntimeError
  end.

Definition pyclass_eqb (c d : pyclass) : bool :=
  match c, d with
  | Exception, Exception | ValueError, ValueError | TypeError, TypeError
  | AttributeError, AttributeError | LookupError, LookupError
  | IndexError, IndexError | KeyError, KeyError
  | RuntimeError, RuntimeError
  | NotImplementedError, NotImplementedError => true
  | _, _ => false
  end.

(** [issubclass c d]; the hierarchy is two levels deep below Exception. *)
Definition issubclass (c d : pyclass) : bool :=
  pyclass_eqb c d
  || match base_class c with
     | Some b =>
         pyclass_eqb b d
         || match base_class b with
            | Some b' => pyclass_eqb b' d
            | None => false
            end
     | None => false
     end.

Record exn : Type := Raise { exn_class : pyclass; exn_msg : string }.

Definition isinstance (e : exn) (c : pyclass) : bool :=
  issubclass (exn_class e) c.

Inductive level : Type := DEBUG | INFO | WARNING.

Record log_record : Type := Log { log_level : level; log_msg : string }.

(** ** numpy *)

Definition width {A} (m : list (list A)) : nat :=
  match m with
  | [] => 0
  | r :: _ => length r
  end.

Definition rectangular {A} (m : list (list A)) : bool :=
  forallb (fun r => Nat.eqb (length r) (width m)) m.

(** [np.shape]. Rows of differing length do not make a two-dimensional
    array (numpy keeps them as a one-dimensional array of objects); an array
    without rows is taken to have no columns. *)
Definition np_shape (v : value) : list nat :=
  match v with
  | VNone | VFloat _ | VInt _ | VPoly _ => []
  | VVec l => [length l]
  | VIVec l => [length l]
  | VObjs l => [length l]
  | VMat m => if rectangular m then [length m; width m] else [length m]
  | VIMat m => if rectangular m then [length m; width m] else [length m]
  end.

(** Whether the object has a [shape] attribute (arrays have, None, Python
    scalars and polygons have not). *)
Definition has_shape (v : value) : bool :=
  match v with
  | VNone | VFloat _ | VInt _ | VPoly _ => false
  | _ => true
  end.

(** [np.asanyarray(values, dtype=np.float64)]: integers become floats, rows
    of differing length and polygons are refused. None would become a NaN
    array, for which the real numbers have no value: it is refused too. *)
Definition asanyarray_float64 (v : value) : exn + value :=
  match v with
  | VFloat x => inr (VFloat x)
  | VInt n => inr (VFloat (IZR n))
  | VVec l => inr (VVec l)
  | VIVec l => inr (VVec (map IZR l))
  | VMat m =>
      if rectangular m then inr (VMat m)
      else inl (Raise ValueError "setting an array element with a sequence.")
  | VIMat m =>
      if rectangular m then inr (VMat (map (map IZR) m))
      else inl (Raise ValueError "setting an array element with a sequence.")
  | VNone | VPoly _ | VObjs _ =>
      inl (Raise TypeError "float() argument must be a string or a number")
  end.

(** [float(value)] *)
Definition float (v : value) : exn + R :=
  match v with
  | VFloat x => inr x
  | VInt n => inr (IZR n)
  | VVec [x] => inr x
  | VIVec [n] => inr (IZR n)
  | VMat [[x]] => inr x
  | VIMat [[n]] => inr (IZR n)
  | _ => inl (Raise TypeError "float() argument must be a string or a number")
  end.

Definition np_eye (n : nat) : list (list R) :=
  map (fun i => map (fun j => if Nat.eqb i j then 1%R else 0%R) (seq 0 n))
      (seq 0 n).

Definition np_ones (n : nat) : list R := replicate n 1%R.

Definition np_zeros (n : nat) : list R := replicate n 0%R.

Definition dot_vec (u v : list R) : R :=
  foldr Rplus 0%R (zip_with Rmult u v).

Definition column (j : nat) (m : list (list R)) : list R :=
  map (fun r => default 0%R (r !! j)) m.

(** [np.dot] of two two-dimensional arrays (whose inner dimensions agree). *)
Definition np_dot (a b : list (list R)) : list (list R) :=
  map (fun r => map (fun j => dot_vec r (column j b)) (seq 0 (width b))) a.

(** [np.product]: the product of all the entries. *)
Definition np_product (l : list R) : R := foldl Rmult 1%R l.

(** [np.fliplr]: every row reversed. *)
Definition np_fliplr {A} (m : list (list A)) : list (list A) := map reverse m.

(** [np.allclose(a, b)] of two matrices of one shape, with numpy's default
    tolerances: every entry of [a] is within 1e-8 + 1e-5 * |b| of the entry
    of [b]. *)
Definition np_allclose (a b : list (list R)) : bool :=
  forallb
    (fun rows =>
       forallb
         (fun xy =>
            if Rle_dec (Rabs (fst xy - snd xy))
                       (1 / 100000000 + 1 / 100000 * Rabs (snd xy))
            then true else false)
         (zip (fst rows) (snd rows)))
    (zip a b).

(** [a[i]] for a Python index: a negative index counts from the end. *)
Definition py_index {A} (l : list A) (i : Z) : option A :=
  if (0 <=? i)%Z then l !! Z.to_nat i
  else if (- Z.of_nat (length l) <=? i)%Z then l !! Z.to_nat (Z.of_nat (length l) + i)
  else None.

(** ** Meshes and the functions of other modules *)

Definition vec3 : Type := R * R * R.

Definition row3 {A} (p : A * A * A) : list A :=
  let '(x, y, z) := p in [x; y; z].

(** A [Trimesh] as the primitives use one: vertices (n,3), faces (m,3) and
    face normals (m,3). *)
Record Trimesh : Type := Mesh {
  mesh_vertices : list vec3;
  mesh_faces : list (Z * Z * Z);
  mesh_face_normals : list vec3
}.

Definition vertices_array (m : Trimesh) : value :=
  VMat (map row3 (mesh_vertices m)).
Definition faces_array (m : Trimesh) : value :=
  VIMat (map row3 (mesh_faces m)).
Definition face_normals_array (m : Trimesh) : value :=
  VMat (map row3 (mesh_face_normals m)).

(** What primitives.py calls in the modules that are not part of this
    development; each is taken as it is called. *)
Class Collaborators : Type := {
  (** [util.convert_like(item, like)] *)
  convert_like : value -> value -> exn + value;
  (** [points.transform_points(points, matrix)] *)
  transform_points : list vec3 -> list (list R) -> list vec3;
  (** [triangles.windings_aligned(triangles, normals)], one answer per
      triangle *)
  windings_aligned : list (vec3 * vec3 * vec3) -> list vec3 -> list bool;
  (** [creation.icosphere(subdivisions)] *)
  creation_icosphere : Z -> Trimesh;
  (** [creation.box()] *)
  creation_box : Trimesh;
  (** [creation.cylinder(radius, height, sections)] *)
  creation_cylinder : value -> value -> value -> exn + Trimesh;
  (** [creation.extrude_polygon(polygon, height)] *)
  creation_extrude_polygon : value -> value -> exn + Trimesh;
  (** [creation.validate_polygon(value)] *)
  creation_validate_polygon : value -> exn + Polygon;
  (** [mesh.apply_transform(matrix)], by the mesh afterwards *)
  apply_transform : Trimesh -> value -> exn + Trimesh
}.

(** ** Objects and methods *)

Inductive pycls : Type :=
| Primitive_cls | Cylinder_cls | Sphere_cls | Box_cls | Extrusion_cls.

(** An attribute in the instance dictionary of a [_PrimitiveAttributes]:
    the data store of the owning primitive (a reference to it, not a copy),
    a dict, or a value. *)
Inductive attr : Type :=
| ADataStore
| ADict (d : gmap string value)
| AValue (v : value).

Record obj : Type := Obj {
  class_of : pycls;
  _data : gmap string value;
  _cache : gmap string value;
  _unit_sphere : option Trimesh;
  _unit_box : option Trimesh;
  primitive_data : option (gmap string attr)
}.

Record outcome (A : Type) : Type := Outcome {
  result : exn + A;
  after : obj;
  emitted : list log_record
}.
Arguments Outcome {A} _ _ _.
Arguments result {A} _.
Arguments after {A} _.
Arguments emitted {A} _.

Definition M (A : Type) : Type := obj -> outcome A.

Definition ret {A} (a : A) : M A := fun s => Outcome (inr a) s [].

Definition raise {A} (e : exn) : M A := fun s => Outcome (inl e) s [].

Definition bind {A B} (m : M A) (f : A -> M B) : M B :=
  fun s =>
    let o := m s in
    match result o with
    | inl e => Outcome (inl e) (after o) (emitted o)
    | inr a =>
        let o' := f a (after o) in
        Outcome (result o') (after o') (emitted o ++ emitted o')
    end.

Notation "x <- m ;; k" := (bind m (fun x => k))
  (at level 100, m at next level, right associativity).
Notation "m ;;; k" := (bind m (fun _ => k))
  (at level 100, right associativity).

Definition lift {A} (x : exn + A) : M A :=
  match x with
  | inl e => raise e
  | inr a => ret a
  end.

Definition get : M obj := fun s => Outcome (inr s) s [].

Definition modify (f : obj -> obj) : M unit := fun s => Outcome (inr tt) (f s) [].

(** [log.debug], [log.info], [log.warning]: the message as written in the
    source, its format arguments not rendered. *)
Definition log (l : level) (msg : string) : M unit :=
  fun s => Outcome (inr tt) s [Log l msg].

(** [try: m except: handler] *)
Definition try_except {A} (m : M A) (handler : M A) : M A :=
  fun s =>
    let o := m s in
    match result o with
    | inl _ =>
        let o' := handler (after o) in
        Outcome (result o') (after o') (emitted o ++ emitted o')
    | inr a => o
    end.

Definition with_data (d : gmap string value) (s : obj) : obj :=
  Obj (class_of s) d (_cache s) (_unit_sphere s) (_unit_box s) (primitive_data s).
Definition with_cache (c : gmap string value) (s : obj) : obj :=
  Obj (class_of s) (_data s) c (_unit_sphere s) (_unit_box s) (primitive_data s).
Definition with_unit_sphere (m : Trimesh) (s : obj) : obj :=
  Obj (class_of s) (_data s) (_cache s) (Some m) (_unit_box s) (primitive_data s).
Definition with_unit_box (m : Trimesh) (s : obj) : obj :=
  Obj (class_of s) (_data s) (_cache s) (_unit_sphere s) (Some m) (primitive_data s).
Definition with_primitive_data (p : gmap string attr) (s : obj) : obj :=
  Obj (class_of s) (_data s) (_cache s) (_unit_sphere s) (_unit_box s) (Some p).

(** [self._unit_sphere] and [self._unit_box] *)
Definition self_unit_sphere : M Trimesh :=
  s <- get ;;
  match _unit_sphere s with
  | Some m => ret m
  | None => raise (Raise AttributeError "object has no attribute '_unit_sphere'")
  end.

Definition self_unit_box : M Trimesh :=
  s <- get ;;
  match _unit_box s with
  | Some m => ret m
  | None => raise (Raise AttributeError "object has no attribute '_unit_box'")
  end.

(** ** The data store and the cache of the base mesh *)

(** Modelled from the spec: the array that the data store, missing from
    the sources, keeps for a value; a scalar is stored as an array of length
    one ("stored as length-1 array"), an array as it is. *)
Definition tracked_array (v : value) : value :=
  match v with
  | VNone => VObjs [None]
  | VFloat x => VVec [x]
  | VInt n => VIVec [n]
  | VPoly p => VObjs [Some p]
  | VVec _ | VMat _ | VIVec _ | VIMat _ | VObjs _ => v
  end.

(** The data store of the base mesh, [self._data]. The class is not part of
    the sources. A parameter that was never written reads as None (the
    getters test [stored is None]); a write to the store empties the cache,
    so that no cached value outlives the parameters it was computed from:
    "any attribute setter must clear the cache so the next access is treated
    as absent". *)
Module DataStore.
(** Modelled from the spec: [self._data[key]] of the data store that is
    missing from the sources; None for a key that was never written. *)
Definition __getitem__ (key : string) : M value :=
  s <- get ;; ret (default VNone (_data s !! key)).

(** Modelled from the spec: [self._data[key] = value] of the data store that
    is missing from the sources; the value is kept as an array and the cache
    is emptied. *)
Definition __setitem__ (key : string) (v : value) : M unit :=
  modify (fun s =>
    with_cache ∅ (with_data (<[key := tracked_array v]> (_data s)) s)).

(** Modelled from the spec: [self._data.clear()] of the data store that is
    missing from the sources. *)
Definition clear : M unit :=
  modify (fun s => with_cache ∅ (with_data ∅ s)).

(** Modelled from the spec: [self._data.update(values)] of the data store
    that is missing from the sources: every key of [values] is written. *)
Definition update (values : gmap string value) : M unit :=
  modify (fun s =>
    with_cache ∅ (with_data ((tracked_array <$> values) ∪ _data s) s)).
End DataStore.

(** The cache of the base mesh, [self._cache]; the class is not part of the
    sources. *)
Module Cache.
(** Modelled from the spec: [self._cache[key]] of the cache that is missing
    from the sources; None for a key that is not cached (the getters test
    the shape of what they read). *)
Definition __getitem__ (key : string) : M value :=
  s <- get ;; ret (default VNone (_cache s !! key)).

(** Modelled from the spec: [self._cache[key] = value] of the cache that is
    missing from the sources. *)
Definition __setitem__ (key : string) (v : value) : M unit :=
  modify (fun s => with_cache (<[key := v]> (_cache s)) s).

(** Modelled from the spec: [key in self._cache] of the cache that is missing
    from the sources. *)
Definition __contains__ (key : string) : M bool :=
  s <- get ;; ret (bool_decide (is_Some (_cache s !! key))).
End Cache.

Module util.
(** Modelled from the spec: [util.is_shape(obj, shape)], missing from the
    sources ("a validly shaped array"): the object is an array with as many
    dimensions as the pattern, each of the size the pattern gives, a
    negative entry of the pattern standing for any size. *)
Definition is_shape (v : value) (pattern : list Z) : bool :=
  has_shape v
  && Nat.eqb (length (np_shape v)) (length pattern)
  && forallb (fun it => ((snd it <? 0) || (Z.of_nat (fst it) =? snd it))%Z)
             (zip (np_shape v) pattern).

(** Modelled from the spec: [util.cache_decorator], missing from the
    sources ("derived, cached"): a property computed once and then read from
    the cache under the function's name. *)
Definition cache_decorator (name : string) (function : M value) : M value :=
  hit <- Cache.__contains__ name ;;
  if (hit : bool) then Cache.__getitem__ name
  else
    v <- function ;;
    Cache.__setitem__ name v ;;;
    ret v.
End util.

(** ** Python and numpy operations on values *)

(** [stored[0]] *)
Definition getitem0 (v : value) : exn + value :=
  let index_error := Raise IndexError "index 0 is out of bounds" in
  match v with
  | VVec l => match l with x :: _ => inr (VFloat x) | [] => inl index_error end
  | VIVec l => match l with n :: _ => inr (VInt n) | [] => inl index_error end
  | VMat m => match m with r :: _ => inr (VVec r) | [] => inl index_error end
  | VIMat m => match m with r :: _ => inr (VIVec r) | [] => inl index_error end
  | VObjs l =>
      match l with
      | Some p :: _ => inr (VPoly p)
      | None :: _ => inr VNone
      | [] => inl index_error
      end
  | VNone | VFloat _ | VInt _ | VPoly _ =>
      inl (Raise TypeError "object is not subscriptable")
  end.

(** [stored.copy()]: arrays have the method. *)
Definition np_copy (v : value) : exn + value :=
  if has_shape v then inr v
  else inl (Raise AttributeError "object has no attribute 'copy'").

(** Truncation towards zero. *)
Definition trunc (x : R) : Z :=
  if Rle_dec 0 x then Int_part x else (- Int_part (- x))%Z.

(** [int(value)] *)
Definition py_int (v : value) : exn + Z :=
  match v with
  | VInt n => inr n
  | VFloat x => inr (trunc x)
  | VVec [x] => inr (trunc x)
  | VIVec [n] => inr n
  | _ => inl (Raise TypeError "int() argument must be a string or a number")
  end.

(** A float expression of one numeric operand, applied to a scalar or, entry
    by entry, to an array. *)
Definition elementwise (f : R -> R) (v : value) : exn + value :=
  match v with
  | VFloat x => inr (VFloat (f x))
  | VInt n => inr (VFloat (f (IZR n)))
  | VVec l => inr (VVec (map f l))
  | VIVec l => inr (VVec (map (fun n => f (IZR n)) l))
  | VMat m => inr (VMat (map (map f) m))
  | VIMat m => inr (VMat (map (map (fun n => f (IZR n))) m))
  | VNone | VPoly _ | VObjs _ =>
      inl (Raise TypeError "unsupported operand type(s)")
  end.

(** An operand of an arithmetic operation with an (n,3) array, broadcast to
    a row of three: a scalar, an array of length one or an array of length
    three. Operands of two dimensions are outside the model and refused. *)
Definition broadcast3 (v : value) : exn + vec3 :=
  let mismatch := Raise ValueError "operands could not be broadcast together" in
  match v with
  | VFloat x => inr (x, x, x)
  | VInt n => inr (IZR n, IZR n, IZR n)
  | VVec [x] => inr (x, x, x)
  | VVec [x; y; z] => inr (x, y, z)
  | VIVec [n] => inr (IZR n, IZR n, IZR n)
  | VIVec [a; b; c] => inr (IZR a, IZR b, IZR c)
  | VVec _ | VIVec _ | VMat _ | VIMat _ => inl mismatch
  | VNone | VPoly _ | VObjs _ =>
      inl (Raise TypeError "unsupported operand type(s)")
  end.

Definition mul3 (p e : vec3) : vec3 :=
  let '(x, y, z) := p in let '(a, b, c) := e in (x * a, y * b, z * c)%R.

Definition add3 (p e : vec3) : vec3 :=
  let '(x, y, z) := p in let '(a, b, c) := e in (x + a, y + b, z + c)%R.

(** The numeric matrix of a two-dimensional array. *)
Definition as_matrix (v : value) : exn + list (list R) :=
  match v with
  | VMat m => inr m
  | VIMat m => inr (map (map IZR) m)
  | _ => inl (Raise TypeError "unsupported operand type(s)")
  end.

(** [matrix[0:3,0:3]] *)
Definition block33 (m : list (list R)) : list (list R) :=
  map (take 3) (take 3 m).

(** [matrix[0:3,3]] *)
Definition column3 (m : list (list R)) : list R :=
  map (fun r => default 0%R (r !! 3)) (take 3 m).

(** [matrix[0:3,3] = values], [values] being three numbers. *)
Definition set_column3 {A} (values : list A) (m : list (list A))
  : list (list A) :=
  zip_with (fun row x => <[3 := x]> row) (take 3 m) values ++ drop 3 m.

(** One row of [np.dot(rot, normals.T).T]: the (3,3) matrix [rot] applied to
    the normal. *)
Definition rotate3 (rot : list (list R)) (n : vec3) : vec3 :=
  (dot_vec (default [] (rot !! 0)) (row3 n),
   dot_vec (default [] (rot !! 1)) (row3 n),
   dot_vec (default [] (rot !! 2)) (row3 n)).

(** A 64-bit signed integer, as numpy wraps it. *)
Definition wrap64 (z : Z) : Z :=
  ((z + 2 ^ 63) mod 2 ^ 64 - 2 ^ 63)%Z.

(** [float(np.product(values))] *)
Definition float_product (v : value) : exn + R :=
  match v with
  | VFloat x => inr x
  | VInt n => inr (IZR n)
  | VVec l => inr (np_product l)
  | VMat m => inr (np_product (concat m))
  | VIVec l => inr (IZR (foldl (fun a b => wrap64 (a * b)) 1%Z l))
  | VIMat m => inr (IZR (foldl (fun a b => wrap64 (a * b)) 1%Z (concat m)))
  | VNone | VPoly _ | VObjs _ =>
      inl (Raise TypeError "unsupported operand type(s)")
  end.

(** [vertices[faces[:1]]]: the corners of the first face, if there is one. *)
Definition first_triangle (vertices : list vec3) (faces : list (Z * Z * Z))
  : exn + list (vec3 * vec3 * vec3) :=
  match take 1 faces with
  | [] => inr []
  | (a, b, c) :: _ =>
      match py_index vertices a, py_index vertices b, py_index vertices c with
      | Some p, Some q, Some r => inr [(p, q, r)]
      | _, _, _ => inl (Raise IndexError "index is out of bounds")
      end
  end.

(** [flags[0]] of a boolean array *)
Definition first_flag (flags : list bool) : exn + bool :=
  match flags with
  | b :: _ => inr b
  | [] => inl (Raise IndexError "index 0 is out of bounds")
  end.

(** [np.fliplr(faces)] on the faces of a mesh. *)
Definition fliplr_faces (faces : list (Z * Z * Z)) : list (Z * Z * Z) :=
  map (fun f => let '(a, b, c) := f in (c, b, a)) faces.

(** ['_' in key] *)
Fixpoint contains_underscore (key : string) : bool :=
  match key with
  | EmptyString => false
  | String c rest => Ascii.eqb c "_"%char || contains_underscore rest
  end.

(** ** class _Primitive(Trimesh) *)

Module Trimesh.
(** Modelled from the spec: the constructor of the base mesh, missing from
    the sources, leaves an empty data store and an empty cache ("never
    populated eagerly at construction"). *)
Definition __init__ : M unit :=
  modify (fun s => with_cache ∅ (with_data ∅ s)).
End Trimesh.

Module _Primitive.
(** [self._validate = False] concerns the validation of the base mesh and
    is left out. *)
Definition __init__ : M unit :=
  Trimesh.__init__ ;;;
  DataStore.clear.

(** The three properties call [self._create_mesh()], the method of the
    object's own class: it is the argument [_create_mesh] here, and bound
    to the class further down. *)
Definition faces (_create_mesh : M unit) : M value :=
  stored <- Cache.__getitem__ "faces" ;;
  if util.is_shape stored [-1; 3]%Z then ret stored
  else
    _create_mesh ;;;
    Cache.__getitem__ "faces".

Definition set_faces (values : value) : M unit :=
  log WARNING "Primitive faces are immutable! Not setting!".

Definition vertices (_create_mesh : M unit) : M value :=
  stored <- Cache.__getitem__ "vertices" ;;
  if util.is_shape stored [-1; 3]%Z then ret stored
  else
    _create_mesh ;;;
    Cache.__getitem__ "vertices".

Definition set_vertices (values : value) : M unit :=
  match values with
  | VNone => ret tt
  | _ => log WARNING "Primitive vertices are immutable! Not setting!"
  end.

Definition face_normals (_create_mesh : M unit) : M value :=
  stored <- Cache.__getitem__ "face_normals" ;;
  if util.is_shape stored [-1; 3]%Z then ret stored
  else
    _create_mesh ;;;
    Cache.__getitem__ "face_normals".

Definition set_face_normals (values : value) : M unit :=
  match values with
  | VNone => ret tt
  | _ => log WARNING "Primitive face normals are immutable! Not setting!"
  end.

(** The arguments of the [Trimesh] that [to_mesh] builds. *)
Definition to_mesh (_create_mesh : M unit) : M (value * value * value) :=
  v <- vertices _create_mesh ;;
  f <- faces _create_mesh ;;
  n <- face_normals _create_mesh ;;
  ret (v, f, n).

Definition _create_mesh : M unit :=
  raise (Raise ValueError "Primitive doesn't define mesh creation!").
End _Primitive.

(** The end of every [_create_mesh]: the three arrays go into the cache. *)
Definition cache_mesh (vertices faces face_normals : value) : M unit :=
  Cache.__setitem__ "vertices" vertices ;;;
  Cache.__setitem__ "faces" faces ;;;
  Cache.__setitem__ "face_normals" face_normals.

(** [for key, value in items: body(key, value)] *)
Fixpoint for_each {K V} (items : list (K * V)) (body : K -> V -> M unit)
  : M unit :=
  match items with
  | [] => ret tt
  | (k, v) :: rest => body k v ;;; for_each rest body
  end.

(** ** class _PrimitiveAttributes(object) *)

Module _PrimitiveAttributes.
(** The instance dictionary of [self]. *)
Definition __dict__ : M (gmap string attr) :=
  s <- get ;;
  match primitive_data s with
  | Some d => ret d
  | None => raise (Raise AttributeError "object has no attribute 'primitive_data'")
  end.

(** [object.__setattr__(self, key, value)] *)
Definition object_setattr (key : string) (a : attr) : M unit :=
  d <- __dict__ ;;
  modify (with_primitive_data (<[key := a]> d)).

(** [self._defaults], where a dict is needed ([key in self._defaults],
    [self._defaults[key]]); anything else bound to the name is refused. *)
Definition _defaults : M (gmap string value) :=
  d <- __dict__ ;;
  match d !! "_defaults" with
  | Some (ADict defaults) => ret defaults
  | Some _ => raise (Raise TypeError "argument is not a dict")
  | None => raise (Raise AttributeError "object has no attribute '_defaults'")
  end.

(** [self._data[key]] *)
Definition _data_getitem (key : string) : M value :=
  d <- __dict__ ;;
  match d !! "_data" with
  | Some ADataStore => DataStore.__getitem__ key
  | Some (ADict m) =>
      match m !! key with
      | Some v => ret v
      | None => raise (Raise KeyError key)
      end
  | Some (AValue _) => raise (Raise TypeError "object is not subscriptable")
  | None => raise (Raise AttributeError "object has no attribute '_data'")
  end.

(** [self._data[key] = value] *)
Definition _data_setitem (key : string) (v : value) : M unit :=
  d <- __dict__ ;;
  match d !! "_data" with
  | Some ADataStore => DataStore.__setitem__ key v
  | Some (ADict m) => object_setattr "_data" (ADict (<[key := v]> m))
  | Some (AValue _) =>
      raise (Raise TypeError "object does not support item assignment")
  | None => raise (Raise AttributeError "object has no attribute '_data'")
  end.

(** [self._data.update(defaults)] *)
Definition _data_update (defaults : gmap string value) : M unit :=
  d <- __dict__ ;;
  match d !! "_data" with
  | Some ADataStore => DataStore.update defaults
  | Some (ADict m) => object_setattr "_data" (ADict (defaults ∪ m))
  | Some (AValue _) => raise (Raise AttributeError "object has no attribute 'update'")
  | None => raise (Raise AttributeError "object has no attribute '_data'")
  end.

(** [value] is a value of the store when the key is one of the defaults;
    a dict or a store assigned to such a key is refused. *)
Definition __setattr__ (key : string) (value : attr) : M unit :=
  if contains_underscore key then object_setattr key value
  else
    defaults <- _defaults ;;
    if bool_decide (is_Some (defaults !! key)) then
      match value with
      | AValue v => _data_setitem key v
      | _ => raise (Raise TypeError "not a value of the data store")
      end
    else raise (Raise ValueError "Only default attributes {} can be set!").

Definition __getattr__ `{Collaborators} (key : string) : M value :=
  let no_attribute := Raise AttributeError "'super' object has no attribute '__getattr__'" in
  if contains_underscore key then raise no_attribute
  else
    defaults <- _defaults ;;
    match defaults !! key with
    | Some like =>
        stored <- _data_getitem key ;;
        lift (convert_like stored like)
    | None => raise no_attribute
    end.

(** [self.key], read: the instance dictionary first, then [__getattr__]. *)
Definition getattr `{Collaborators} (key : string) : M attr :=
  d <- __dict__ ;;
  match d !! key with
  | Some a => ret a
  | None => v <- __getattr__ key ;; ret (AValue v)
  end.

(** The new instance becomes [primitive_data] of the primitive that
    creates it; [data] is that primitive's store. *)
Definition __init__ `{Collaborators}
    (data : attr) (defaults kwargs : gmap string value) : M unit :=
  modify (with_primitive_data ∅) ;;;
  __setattr__ "_data" data ;;;
  __setattr__ "_defaults" (ADict defaults) ;;;
  _data_update defaults ;;;
  for_each (map_to_list kwargs) (fun key value =>
    match defaults !! key with
    | Some like =>
        v <- lift (convert_like value like) ;;
        _data_setitem key v
    | None => ret tt
    end).
End _PrimitiveAttributes.

(** ** class Cylinder(_Primitive) *)

Module Cylinder.
Definition defaults : gmap string value :=
  <["height" := VFloat 1%R]>
    (<["radius" := VFloat 1%R]>
       (<["transform" := VMat (np_eye 4)]>
          (<["sections" := VInt 32%Z]> ∅))).

Definition __init__ `{Collaborators} (kwargs : gmap string value) : M unit :=
  _Primitive.__init__ ;;;
  _PrimitiveAttributes.__init__ ADataStore defaults kwargs.

(** [self.primitive_data.key], where a value is needed. *)
Definition primitive_data_get `{Collaborators} (key : string) : M value :=
  a <- _PrimitiveAttributes.getattr key ;;
  match a with
  | AValue v => ret v
  | _ => raise (Raise TypeError "not a value of the data store")
  end.

Definition _create_mesh `{Collaborators} : M unit :=
  primitive_data_get "radius" ;;;
  primitive_data_get "height" ;;;
  primitive_data_get "sections" ;;;
  log INFO "Creating cylinder mesh with r=%f, h=%f and %d sections" ;;;
  radius <- primitive_data_get "radius" ;;
  height <- primitive_data_get "height" ;;
  sections <- primitive_data_get "sections" ;;
  mesh <- lift (creation_cylinder radius height sections) ;;
  transform <- primitive_data_get "transform" ;;
  mesh <- lift (apply_transform mesh transform) ;;
  cache_mesh (vertices_array mesh) (faces_array mesh) (face_normals_array mesh).
End Cylinder.

(** ** class Sphere(_Primitive) *)

Module Sphere.
Definition sphere_center : M value :=
  stored <- DataStore.__getitem__ "center" ;;
  match stored with
  | VNone => ret (VVec (np_zeros 3))
  | _ => ret stored
  end.

Definition set_sphere_center (values : value) : M unit :=
  a <- lift (asanyarray_float64 values) ;;
  DataStore.__setitem__ "center" a.

Definition sphere_radius : M value :=
  stored <- DataStore.__getitem__ "radius" ;;
  match stored with
  | VNone => ret (VFloat 1%R)
  | _ => lift (getitem0 stored)
  end.

Definition set_sphere_radius (value : value) : M unit :=
  x <- lift (float value) ;;
  DataStore.__setitem__ "radius" (VFloat x).

(** The body of [volume], before [util.cache_decorator]. *)
Definition volume_body : M value :=
  radius <- sphere_radius ;;
  lift (elementwise (fun r => 4 * PI * r ^ 3 / 3)%R radius).

Definition volume : M value := util.cache_decorator "volume" volume_body.

Definition __init__ `{Collaborators} (kwargs : gmap string value) : M unit :=
  subdivisions <-
    try_except
      (match kwargs !! "subdivisions" with
       | Some v => lift (py_int v)
       | None => raise (Raise KeyError "subdivisions")
       end)
      (ret 3%Z) ;;
  modify (with_unit_sphere (creation_icosphere subdivisions)) ;;;
  _Primitive.__init__ ;;;
  match kwargs !! "sphere_radius" with
  | Some v => set_sphere_radius v
  | None => ret tt
  end ;;;
  match kwargs !! "sphere_center" with
  | Some v => set_sphere_center v
  | None => ret tt
  end.

Definition _create_mesh : M unit :=
  ico <- self_unit_sphere ;;
  radius <- sphere_radius ;;
  scale <- lift (broadcast3 radius) ;;
  center <- sphere_center ;;
  shift <- lift (broadcast3 center) ;;
  Cache.__setitem__ "vertices"
    (VMat (map row3 (map (fun p => add3 (mul3 p scale) shift) (mesh_vertices ico)))) ;;;
  Cache.__setitem__ "faces" (faces_array ico) ;;;
  Cache.__setitem__ "face_normals" (face_normals_array ico).
End Sphere.

(** ** class Box(_Primitive) *)

Module Box.
Definition box_extents : M value :=
  stored <- DataStore.__getitem__ "box_extents" ;;
  if util.is_shape stored [3%Z] then ret stored
  else ret (VVec (np_ones 3)).

Definition set_box_extents (values : value) : M unit :=
  a <- lift (asanyarray_float64 values) ;;
  DataStore.__setitem__ "box_extents" a.

Definition box_transform : M value :=
  stored <- DataStore.__getitem__ "box_transform" ;;
  if util.is_shape stored [4; 4]%Z then ret stored
  else ret (VMat (np_eye 4)).

Definition set_box_transform (matrix : value) : M unit :=
  matrix <- lift (asanyarray_float64 matrix) ;;
  if negb (bool_decide (np_shape matrix = [4; 4])) then
    raise (Raise ValueError "Matrix must be (4,4)!")
  else DataStore.__setitem__ "box_transform" matrix.

Definition box_center : M value :=
  transform <- box_transform ;;
  match transform with
  | VMat m => ret (VVec (column3 m))
  | VIMat m => ret (VIVec (map (fun r => default 0%Z (r !! 3)) (take 3 m)))
  | _ => raise (Raise TypeError "object is not subscriptable")
  end.

(** [transform[0:3,3] = values] writes into the array the getter gave
    (an integer array keeps integers), which is then stored again. *)
Definition set_box_center (values : value) : M unit :=
  transform <- box_transform ;;
  c <- lift (broadcast3 values) ;;
  match transform with
  | VMat m =>
      DataStore.__setitem__ "box_transform" (VMat (set_column3 (row3 c) m))
  | VIMat m =>
      DataStore.__setitem__ "box_transform"
        (VIMat (set_column3 (map trunc (row3 c)) m))
  | _ => raise (Raise TypeError "object does not support item assignment")
  end.

Definition is_oriented : M bool :=
  transform <- box_transform ;;
  if util.is_shape transform [4; 4]%Z then
    transform <- box_transform ;;
    m <- lift (as_matrix transform) ;;
    ret (negb (np_allclose (block33 m) (np_eye 3)))
  else ret false.

(** The body of [volume], before [util.cache_decorator]. *)
Definition volume_body : M value :=
  extents <- box_extents ;;
  volume <- lift (float_product extents) ;;
  ret (VFloat volume).

Definition volume : M value := util.cache_decorator "volume" volume_body.

Definition __init__ `{Collaborators} (kwargs : gmap string value) : M unit :=
  modify (with_unit_box creation_box) ;;;
  _Primitive.__init__ ;;;
  match kwargs !! "box_extents" with
  | Some v => set_box_extents v
  | None => ret tt
  end ;;;
  match kwargs !! "box_transform" with
  | Some v => set_box_transform v
  | None => ret tt
  end ;;;
  match kwargs !! "box_center" with
  | Some v => set_box_center v
  | None => ret tt
  end.

Definition _create_mesh `{Collaborators} : M unit :=
  log DEBUG "Creating mesh for box _Primitive" ;;;
  box <- self_unit_box ;;
  let faces := mesh_faces box in
  extents <- box_extents ;;
  scale <- lift (broadcast3 extents) ;;
  transform <- box_transform ;;
  matrix <- lift (as_matrix transform) ;;
  let vertices :=
    transform_points (map (fun p => mul3 p scale) (mesh_vertices box)) matrix in
  transform <- box_transform ;;
  matrix <- lift (as_matrix transform) ;;
  let normals := map (rotate3 (block33 matrix)) (mesh_face_normals box) in
  triangles <- lift (first_triangle vertices faces) ;;
  aligned <- lift (first_flag (windings_aligned triangles (take 1 normals))) ;;
  let faces := if negb aligned then fliplr_faces faces else faces in
  cache_mesh (VMat (map row3 vertices)) (VIMat (map row3 faces))
             (VMat (map row3 normals)).
End Box.

(** ** class Extrusion(_Primitive) *)

Module Extrusion.
Definition extrude_transform : M value :=
  stored <- DataStore.__getitem__ "extrude_transform" ;;
  if bool_decide (np_shape stored = [4; 4]) then ret stored
  else ret (VMat (np_eye 4)).

Definition set_extrude_transform (matrix : value) : M unit :=
  matrix <- lift (asanyarray_float64 matrix) ;;
  if negb (bool_decide (np_shape matrix = [4; 4])) then
    raise (Raise ValueError "Matrix must be (4,4)!")
  else DataStore.__setitem__ "extrude_transform" matrix.

Definition extrude_height : M value :=
  stored <- DataStore.__getitem__ "extrude_height" ;;
  match stored with
  | VNone => raise (Raise ValueError "extrude height not specified!")
  | _ =>
      copy <- lift (np_copy stored) ;;
      lift (getitem0 copy)
  end.

Definition set_extrude_height (value : value) : M unit :=
  x <- lift (float value) ;;
  DataStore.__setitem__ "extrude_height" (VFloat x).

Definition extrude_polygon : M value :=
  stored <- DataStore.__getitem__ "extrude_polygon" ;;
  match stored with
  | VNone => raise (Raise ValueError "extrude polygon not specified!")
  | _ => lift (getitem0 stored)
  end.

Definition set_extrude_polygon `{Collaborators} (value : value) : M unit :=
  polygon <- lift (creation_validate_polygon value) ;;
  DataStore.__setitem__ "extrude_polygon" (VPoly polygon).

Definition extrude_direction : M value :=
  transform <- extrude_transform ;;
  m <- lift (as_matrix transform) ;;
  ret (VVec (row3 (rotate3 (block33 m) (0, 0, 1)%R))).

(** [translation = np.eye(4); translation[2,3] = distance] *)
Definition translation (distance : R) : list (list R) :=
  alter (fun row => <[3 := distance]> row) 2 (np_eye 4).

Definition slide (distance : value) : M unit :=
  distance <- lift (float distance) ;;
  transform <- extrude_transform ;;
  copy <- lift (np_copy transform) ;;
  m <- lift (as_matrix copy) ;;
  let new_transform := np_dot m (translation distance) in
  set_extrude_transform (VMat new_transform).

Definition __init__ `{Collaborators} (kwargs : gmap string value) : M unit :=
  _Primitive.__init__ ;;;
  match kwargs !! "extrude_polygon" with
  | Some v => set_extrude_polygon v
  | None => ret tt
  end ;;;
  match kwargs !! "extrude_transform" with
  | Some v => set_extrude_transform v
  | None => ret tt
  end ;;;
  match kwargs !! "extrude_height" with
  | Some v => set_extrude_height v
  | None => ret tt
  end.

Definition _create_mesh `{Collaborators} : M unit :=
  log DEBUG "Creating mesh for extrude _Primitive" ;;;
  polygon <- extrude_polygon ;;
  height <- extrude_height ;;
  mesh <- lift (creation_extrude_polygon polygon height) ;;
  transform <- extrude_transform ;;
  mesh <- lift (apply_transform mesh transform) ;;
  cache_mesh (vertices_array mesh) (faces_array mesh) (face_normals_array mesh).
End Extrusion.

(** ** Method resolution *)

(** [self._create_mesh()], resolved in the class of the object. *)
Definition _create_mesh `{Collaborators} : M unit :=
  s <- get ;;
  match class_of s with
  | Primitive_cls => _Primitive._create_mesh
  | Cylinder_cls => Cylinder._create_mesh
  | Sphere_cls => Sphere._create_mesh
  | Box_cls => Box._create_mesh
  | Extrusion_cls => Extrusion._create_mesh
  end.

(** The properties every primitive inherits from [_Primitive]. *)
Definition faces `{Collaborators} : M value := _Primitive.faces _create_mesh.
Definition vertices `{Collaborators} : M value := _Primitive.vertices _create_mesh.
Definition face_normals `{Collaborators} : M value :=
  _Primitive.face_normals _create_mesh.
Definition to_mesh `{Collaborators} : M (value * value * value) :=
  _Primitive.to_mesh _create_mesh.

(** The three cached arrays. *)
Inductive slot : Type := slot_vertices | slot_faces | slot_face_normals.

Definition slot_key (k : slot) : string :=
  match k with
  | slot_vertices => "vertices"
  | slot_faces => "faces"
  | slot_face_normals => "face_normals"
  end.

(** Reading a slot with a given mesh creation, and with the object's own. *)
Definition read_with (k : slot) (create : M unit) : M value :=
  match k with
  | slot_vertices => _Primitive.vertices create
  | slot_faces => _Primitive.faces create
  | slot_face_normals => _Primitive.face_normals create
  end.

Definition read `{Collaborators} (k : slot) : M value := read_with k _create_mesh.

(** Assigning to a slot. *)
Definition assign (k : slot) (values : value) : M unit :=
  match k with
  | slot_vertices => _Primitive.set_vertices values
  | slot_faces => _Primitive.set_faces values
  | slot_face_normals => _Primitive.set_face_normals values
  end.

(** A freshly allocated object of a class, before [__init__]. *)
Definition allocate (c : pycls) : obj := Obj c ∅ ∅ None None None.

(** Calling the class with keyword arguments. *)
Definition construct `{Collaborators} (c : pycls) (kwargs : gmap string value)
  : outcome unit :=
  match c with
  | Primitive_cls => _Primitive.__init__ (allocate c)
  | Cylinder_cls => Cylinder.__init__ kwargs (allocate c)
  | Sphere_cls => Sphere.__init__ kwargs (allocate c)
  | Box_cls => Box.__init__ kwargs (allocate c)
  | Extrusion_cls => Extrusion.__init__ kwargs (allocate c)
  end.

(** The uses of an object that primitives.py defines: reading and assigning
    its properties and calling its methods. *)
Inductive call : Type :=
| Read (k : slot)
| Assign (k : slot) (values : value)
| ToMesh
| GetAttribute (key : string)
| SetAttribute (key : string) (a : attr)
| SphereCenter
| SetSphereCenter (values : value)
| SphereRadius
| SetSphereRadius (v : value)
| BoxCenter
| SetBoxCenter (values : value)
| BoxExtents
| SetBoxExtents (values : value)
| BoxTransform
| SetBoxTransform (matrix : value)
| Volume
| ExtrudeTransform
| SetExtrudeTransform (matrix : value)
| ExtrudeHeight
| SetExtrudeHeight (v : value)
| ExtrudePolygon
| SetExtrudePolygon (v : value)
| ExtrudeDirection
| Slide (distance : value).

Definition ignore {A} (m : M A) : M unit := m ;;; ret tt.

(** The method a call runs on an object of the class, where primitives.py
    defines one ([GetAttribute] and [SetAttribute] are the attributes of
    [primitive_data]). *)
Definition method `{Collaborators} (c : pycls) (op : call) : option (M unit) :=
  match op, c with
  | Read k, _ => Some (ignore (read k))
  | Assign k values, _ => Some (assign k values)
  | ToMesh, _ => Some (ignore to_mesh)
  | GetAttribute key, Cylinder_cls => Some (ignore (_PrimitiveAttributes.getattr key))
  | SetAttribute key a, Cylinder_cls => Some (_PrimitiveAttributes.__setattr__ key a)
  | SphereCenter, Sphere_cls => Some (ignore Sphere.sphere_center)
  | SetSphereCenter v, Sphere_cls => Some (Sphere.set_sphere_center v)
  | SphereRadius, Sphere_cls => Some (ignore Sphere.sphere_radius)
  | SetSphereRadius v, Sphere_cls => Some (Sphere.set_sphere_radius v)
  | Volume, Sphere_cls => Some (ignore Sphere.volume)
  | BoxCenter, Box_cls => Some (ignore Box.box_center)
  | SetBoxCenter v, Box_cls => Some (Box.set_box_center v)
  | BoxExtents, Box_cls => Some (ignore Box.box_extents)
  | SetBoxExtents v, Box_cls => Some (Box.set_box_extents v)
  | BoxTransform, Box_cls => Some (ignore Box.box_transform)
  | SetBoxTransform v, Box_cls => Some (Box.set_box_transform v)
  | Volume, Box_cls => Some (ignore Box.volume)
  | ExtrudeTransform, Extrusion_cls => Some (ignore Extrusion.extrude_transform)
  | SetExtrudeTransform v, Extrusion_cls => Some (Extrusion.set_extrude_transform v)
  | ExtrudeHeight, Extrusion_cls => Some (ignore Extrusion.extrude_height)
  | SetExtrudeHeight v, Extrusion_cls => Some (Extrusion.set_extrude_height v)
  | ExtrudePolygon, Extrusion_cls => Some (ignore Extrusion.extrude_polygon)
  | SetExtrudePolygon v, Extrusion_cls => Some (Extrusion.set_extrude_polygon v)
  | ExtrudeDirection, Extrusion_cls => Some (ignore Extrusion.extrude_direction)
  | Slide d, Extrusion_cls => Some (Extrusion.slide d)
  | _, _ => None
  end.

(** The objects a program can hold: a constructor returned it, and then
    any number of calls were made on it (a call that raises leaves the
    object as it was when the exception was raised). The calls are those of
    primitives.py; what the classes inherit from [Trimesh] beyond them is
    not part of this development. *)
Inductive reachable `{Collaborators} : obj -> Prop :=
| reachable_construct (c : pycls) (kwargs : gmap string value) :
    result (construct c kwargs) = inr tt ->
    reachable (after (construct c kwargs))
| reachable_call (s : obj) (op : call) (m : M unit) :
    reachable s ->
    method (class_of s) op = Some m ->
    reachable (after (m s)).

(** The body of [volume] in the class of the object, where primitives.py
    defines one. *)
Definition volume_body_of (c : pycls) : option (M value) :=
  match c with
  | Sphere_cls => Some Sphere.volume_body
  | Box_cls => Some Box.volume_body
  | _ => None
  end.

(** The cached volume, if there is one, is what the body of [volume]
    computes from the parameters as they are now. *)
Definition volume_coherent (s : obj) : Prop :=
  forall body v,
    volume_body_of (class_of s) = Some body ->
    _cache s !! "volume" = Some v ->
    result (body s) = inr v.

(** ** The error classes of the specification *)

(** A required parameter read before it was set: a ValueError that says the
    parameter is not specified. *)
Definition MissingParameterError (e : exn) : Prop :=
  exn_class e = ValueError /\
  exists parameter, exn_msg e = (parameter ++ " not specified!")%string.

(** ** A small instance of the collaborators, for the examples *)

Module sample.
Definition convert_like (item like : value) : exn + value :=
  match like with
  | VFloat _ =>
      match float item with
      | inr x => inr (VFloat x)
      | inl e => inl e
      end
  | VInt _ =>
      match py_int item with
      | inr n => inr (VInt n)
      | inl e => inl e
      end
  | VVec _ | VMat _ | VIVec _ | VIMat _ => asanyarray_float64 item
  | VNone | VPoly _ | VObjs _ => inr item
  end.

Definition transform_points (points : list vec3) (matrix : list (list R))
  : list vec3 :=
  let t := column3 matrix in
  map (fun p =>
         add3 (rotate3 (block33 matrix) p)
              (default 0%R (t !! 0), default 0%R (t !! 1), default 0%R (t !! 2)))
      points.

Definition sub3 (p q : vec3) : vec3 :=
  let '(x, y, z) := p in let '(a, b, c) := q in (x - a, y - b, z - c)%R.

Definition cross (p q : vec3) : vec3 :=
  let '(x, y, z) := p in
  let '(a, b, c) := q in
  (y * c - z * b, z * a - x * c, x * b - y * a)%R.

Definition dot3 (p q : vec3) : R :=
  let '(x, y, z) := p in let '(a, b, c) := q in (x * a + y * b + z * c)%R.

(** The normal the winding gives points the way of the given normal. *)
Definition windings_aligned (triangles : list (vec3 * vec3 * vec3))
    (normals : list vec3) : list bool :=
  zip_with (fun t n =>
              let '(p, q, r) := t in
              if Rlt_dec 0 (dot3 (cross (sub3 q p) (sub3 r p)) n)
              then true else false)
           triangles normals.

(** The unit cube about the origin, in twelve triangles. *)
Definition box : Trimesh :=
  let h := (1 / 2)%R in
  Mesh
    [(-h, -h, -h); (-h, -h, h); (-h, h, -h); (-h, h, h);
     (h, -h, -h); (h, -h, h); (h, h, -h); (h, h, h)]%R
    [(1, 3, 0); (4, 1, 0); (0, 3, 2); (2, 4, 0); (1, 7, 3); (5, 1, 4);
     (5, 7, 1); (3, 7, 2); (6, 4, 2); (2, 7, 6); (6, 5, 4); (7, 5, 6)]%Z
    [(-1, 0, 0); (0, -1, 0); (-1, 0, 0); (0, 0, -1); (0, 0, 1); (0, -1, 0);
     (0, 0, 1); (0, 1, 0); (0, 0, -1); (0, 1, 0); (1, 0, 0); (1, 0, 0)]%R.

(** A tetrahedron inscribed in the unit cube stands for the icosphere,
    its normals not normalised. *)
Definition icosphere (subdivisions : Z) : Trimesh :=
  Mesh
    [(1, 1, 1); (1, -1, -1); (-1, 1, -1); (-1, -1, 1)]%R
    [(0, 1, 2); (0, 3, 1); (0, 2, 3); (1, 3, 2)]%Z
    [(1, 1, -1); (1, -1, 1); (-1, 1, 1); (-1, -1, -1)]%R.

(** A square prism stands for the cylinder and for the extrusion. *)
Definition prism (half_width height : R) : Trimesh :=
  Mesh
    (map (fun p => mul3 p (2 * half_width, 2 * half_width, height)%R)
         (mesh_vertices box))
    (mesh_faces box)
    (mesh_face_normals box).

Definition cylinder (radius height sections : value) : exn + Trimesh :=
  match float radius, float height with
  | inr r, inr h => inr (prism r h)
  | inl e, _ => inl e
  | _, inl e => inl e
  end.

Definition extrude_polygon (polygon height : value) : exn + Trimesh :=
  match polygon, float height with
  | VPoly _, inr h => inr (prism (1 / 2) h)
  | _, inr _ => inl (Raise ValueError "not a polygon")
  | _, inl e => inl e
  end.

Definition validate_polygon (v : value) : exn + Polygon :=
  match v with
  | VPoly p =>
      if (3 <=? length p)%nat then inr p
      else inl (Raise ValueError "polygon has too few points")
  | _ => inl (Raise ValueError "input is not a polygon")
  end.

Definition apply_transform (mesh : Trimesh) (matrix : value)
  : exn + Trimesh :=
  match as_matrix matrix with
  | inr m =>
      inr (Mesh (transform_points (mesh_vertices mesh) m)
                (mesh_faces mesh)
                (map (rotate3 (block33 m)) (mesh_face_normals mesh)))
  | inl e => inl e
  end.
End sample.

Definition sample_collaborators : Collaborators :=
  {| convert_like := sample.convert_like;
     transform_points := sample.transform_points;
     windings_aligned := sample.windings_aligned;
     creation_icosphere := sample.icosphere;
     creation_box := sample.box;
     creation_cylinder := sample.cylinder;
     creation_extrude_polygon := sample.extrude_polygon;
     creation_validate_polygon := sample.validate_polygon;
     apply_transform := sample.apply_transform |}.

(** ** Assignment to the derived arrays *)

Definition is_None (v : value) : bool :=
  match v with
  | VNone => true
  | _ => false
  end.

Definition immutable_warning (k : slot) : log_record :=
  match k with
  | slot_vertices => Log WARNING "Primitive vertices are immutable! Not setting!"
  | slot_faces => Log WARNING "Primitive faces are immutable! Not setting!"
  | slot_face_normals =>
      Log WARNING "Primitive face normals are immutable! Not setting!"
  end.

(** Whether the assignment is reported: always for faces, and for vertices
    and face normals unless None is assigned. *)
Definition reported (k : slot) (values : value) : bool :=
  match k with
  | slot_faces => true
  | slot_vertices | slot_face_normals => negb (is_None values)
  end.

(** ** Cached meshes *)

(** A mesh creation that, when it succeeds, leaves all three slots cached. *)
Definition populates (m : M unit) : Prop :=
  forall s, result (m s) = inr tt ->
            forall k, is_Some (_cache (after (m s)) !! slot_key k).

(** A method that neither reads the cache nor changes anything but the
    cache: its result, its log records and the entries it adds to the cache
    are the same whatever the cache holds. *)
Definition cache_blind {A} (m : M A) : Prop :=
  forall s, exists (r : exn + A) (added : gmap string value) (l : list log_record),
    forall c, m (with_cache c s) = Outcome r (with_cache (added ∪ c) s) l.

(** ** The cached volume *)

(** From one state of an object to a later one, the cached volume did not
    go stale: the parameters and the cached volume are as they were, or no
    volume is cached. *)
Definition volume_kept (s s' : obj) : Prop :=
  class_of s' = class_of s
  /\ ((_data s' = _data s /\ _cache s' !! "volume" = _cache s !! "volume")
      \/ _cache s' !! "volume" = None).

(** A method that never leaves a stale volume in the cache. *)
Definition keeps_volume {A} (m : M A) : Prop :=
  forall s, volume_kept s (after (m s)).

(** ** Invariants of methods *)

(** A method that keeps an invariant of the object, whether it returns or
    raises. *)
Definition preserves {A} (I : obj -> Prop) (m : M A) : Prop :=
  forall s, I s -> I (after (m s)).

(** A method that leaves the object as it was whenever it raises. *)
Definition fails_clean {A} (m : M A) : Prop :=
  forall s e, result (m s) = inl e -> after (m s) = s.

(** A method that never raises. *)
Definition never_raises {A} (m : M A) : Prop :=
  forall s, exists a, result (m s) = inr a.

(** The object is as another one was, its cache apart. *)
Definition same_but_cache (s0 s : obj) : Prop :=
  with_cache ∅ s = with_cache ∅ s0.


(** ** Calls that set a parameter *)

(** The calls that assign to a parameter of the primitive: the setters of
    the properties, [slide], and the assignment to an attribute of
    [primitive_data]. Assigning to [vertices], [faces] or [face_normals] is
    not one of them. *)
Definition sets_parameter (op : call) : bool :=
  match op with
  | SetAttribute _ _
  | SetSphereCenter _ | SetSphereRadius _
  | SetBoxCenter _ | SetBoxExtents _ | SetBoxTransform _
  | SetExtrudeTransform _ | SetExtrudeHeight _ | SetExtrudePolygon _
  | Slide _ => true
  | _ => false
  end.

(** A float array of one or of two dimensions. *)
Definition float_array (v : value) : bool :=
  match v with
  | VVec _ => true
  | VMat m => rectangular m
  | _ => false
  end.

(** Every entry of the store is as [P] says of its key and its value. *)
Definition store_holds (P : string -> value -> Prop) (s : obj) : Prop :=
  forall key v, _data s !! key = Some v -> P key v.

(** What the setters of a box write to its store: float arrays. *)
Definition box_entry (key : string) (v : value) : Prop :=
  float_array v = true.

(** What the setters of a sphere write to its store: float arrays, and
    under [radius] an array of one float. *)
Definition sphere_entry (key : string) (v : value) : Prop :=
  float_array v = true /\ (key = "radius" -> exists x, v = VVec [x]).

(** What the setters of an extrusion write to its store: a float array
    under [extrude_transform], an array of one float under [extrude_height]
    and an array of one polygon under [extrude_polygon]. *)
Definition extrusion_entry (key : string) (v : value) : Prop :=
  (key = "extrude_transform" -> float_array v = true)
  /\ (key = "extrude_height" -> exists h, v = VVec [h])
  /\ (key = "extrude_polygon" -> exists p, v = VObjs [Some p]).


(** * Properties *)

(** ** Shapes *)

Lemma is_shape_1d (v : value) (n : nat) :
  util.is_shape v [Z.of_nat n] = true <-> np_shape v = [n].
Proof.
  unfold util.is_shape. split.
  - intros Hs. apply andb_prop in Hs as [Hs Hall]. apply andb_prop in Hs as [_ Hlen].
    destruct (np_shape v) as [|i [|j rest]]; simpl in *; try discriminate.
    rewrite andb_true_r in Hall.
    apply orb_prop in Hall as [Hneg%Z.ltb_lt|Heq%Z.eqb_eq]; [lia|].
    f_equal. lia.
  - intros Hv. rewrite Hv. simpl.
    assert (has_shape v = true) as ->.
    { destruct v; simpl in *; try discriminate; reflexivity. }
    rewrite Z.eqb_refl, orb_true_r. reflexivity.
Qed.

Lemma is_shape_2d (v : value) (n k : nat) :
  util.is_shape v [Z.of_nat n; Z.of_nat k] = true <-> np_shape v = [n; k].
Proof.
  unfold util.is_shape. split.
  - intros Hs. apply andb_prop in Hs as [Hs Hall]. apply andb_prop in Hs as [_ Hlen].
    destruct (np_shape v) as [|i [|j [|l rest]]]; simpl in *; try discriminate.
    rewrite andb_true_r in Hall. apply andb_prop in Hall as [Hi Hj].
    apply orb_prop in Hi as [Hi%Z.ltb_lt|Hi%Z.eqb_eq]; [lia|].
    apply orb_prop in Hj as [Hj%Z.ltb_lt|Hj%Z.eqb_eq]; [lia|].
    f_equal; [lia|]. f_equal. lia.
  - intros Hv. rewrite Hv. simpl.
    assert (has_shape v = true) as ->.
    { destruct v; simpl in *; try discriminate; try reflexivity;
        destruct (rectangular m); discriminate. }
    rewrite !Z.eqb_refl, !orb_true_r. reflexivity.
Qed.

(** An array of shape (4,4) is a float or an integer matrix of four rows of
    four entries. *)
Lemma shape_44_matrix (v : value) :
  np_shape v = [4; 4] ->
  exists m, as_matrix v = inr m /\ length m = 4 /\ Forall (fun r => length r = 4) m.
Proof.
  destruct v; simpl; try discriminate.
  - destruct (rectangular m) eqn:Hr; [|discriminate]. intros [= Hlen Hw].
    exists m. repeat split; [exact Hlen|].
    apply Forall_forall. intros r Hin. unfold rectangular in Hr.
    rewrite forallb_forall in Hr. apply list_elem_of_In, Hr, Nat.eqb_eq in Hin. lia.
  - destruct (rectangular m) eqn:Hr; [|discriminate]. intros [= Hlen Hw].
    exists (map (map IZR) m). repeat split; [by rewrite length_map|].
    apply Forall_forall. intros r Hin. apply list_elem_of_In, in_map_iff in Hin as (r' & <- & Hin).
    unfold rectangular in Hr. rewrite forallb_forall in Hr.
    apply Hr, Nat.eqb_eq in Hin. rewrite length_map. lia.
Qed.

(** ** Running methods *)

Ltac run_store :=
  unfold DataStore.__getitem__, DataStore.__setitem__, DataStore.clear,
    DataStore.update, Cache.__getitem__, Cache.__setitem__, Cache.__contains__,
    self_unit_box, self_unit_sphere.

Ltac run_monad := unfold bind, ret, raise, lift, get, modify, log; simpl.

Ltac run := run_store; run_monad.

(** The constant at the head of an application. *)
Ltac head_of t :=
  lazymatch t with
  | ?f _ => head_of f
  | _ => t
  end.

Lemma bind_pure {A B} (m : M A) (f : A -> M B) (s : obj) (a : A) :
  m s = Outcome (inr a) s [] -> bind m f s = f a s.
Proof. intros Hm. unfold bind. rewrite Hm. simpl. by destruct (f a s). Qed.

Lemma bind_returns {A B} (m : M A) (f : A -> M B) (s s1 : obj) (a : A)
    (l : list log_record) :
  m s = Outcome (inr a) s1 l ->
  bind m f s
  = Outcome (result (f a s1)) (after (f a s1)) (l ++ emitted (f a s1)).
Proof. intros Hm. unfold bind. rewrite Hm. reflexivity. Qed.

Lemma bind_raises {A B} (m : M A) (f : A -> M B) (s s1 : obj) (e : exn)
    (l : list log_record) :
  m s = Outcome (inl e) s1 l -> bind m f s = Outcome (inl e) s1 l.
Proof. intros Hm. unfold bind. rewrite Hm. reflexivity. Qed.

Lemma bind_reads {A B} (m : M A) (f : A -> M B) (s : obj) (r : exn + A) :
  m s = Outcome r s [] ->
  bind m f s = match r with
               | inl e => Outcome (inl e) s []
               | inr a => f a s
               end.
Proof.
  intros Hm. destruct r as [e|a].
  - by apply bind_raises.
  - by apply bind_pure.
Qed.

Lemma lift_runs {A} (x : exn + A) (s : obj) : lift x s = Outcome x s [].
Proof. by destruct x. Qed.

Lemma bind_result_inr {A B} (m : M A) (f : A -> M B) (s : obj) (b : B) :
  result (bind m f s) = inr b ->
  exists a, result (m s) = inr a
            /\ result (f a (after (m s))) = inr b
            /\ after (bind m f s) = after (f a (after (m s)))
            /\ emitted (bind m f s) = emitted (m s) ++ emitted (f a (after (m s))).
Proof.
  unfold bind. destruct (result (m s)) as [e|a] eqn:Hm; simpl; [discriminate|].
  intros Hf. exists a. repeat split. exact Hf.
Qed.

Lemma cache_getitem (key : string) (s : obj) :
  Cache.__getitem__ key s = Outcome (inr (default VNone (_cache s !! key))) s [].
Proof. reflexivity. Qed.

(** ** The abstract mesh creation (C8) *)

(** C8, as amended: on every object, [_Primitive._create_mesh] raises a
    ValueError with the message "Primitive doesn't define mesh creation!",
    changes nothing and logs nothing; so does [self._create_mesh()] on an
    object of a class that does not override it. The exception is not an
    instance of NotImplementedError. *)
Theorem create_mesh_not_overridden `{Collaborators} (s : obj) :
  let e := Raise ValueError "Primitive doesn't define mesh creation!" in
  _Primitive._create_mesh s = Outcome (inl e) s []
  /\ (class_of s = Primitive_cls -> _create_mesh s = Outcome (inl e) s [])
  /\ isinstance e ValueError = true
  /\ isinstance e NotImplementedError = false.
Proof.
  simpl. repeat split.
  intros Hc. unfold _create_mesh. run. rewrite Hc. reflexivity.
Qed.

Lemma create_mesh_not_overridden_witness :
  let s := after (construct (H := sample_collaborators) Primitive_cls ∅) in
  _create_mesh (H := sample_collaborators) s
  = Outcome (inl (Raise ValueError "Primitive doesn't define mesh creation!")) s [].
Proof.
  intros s.
  apply (create_mesh_not_overridden (H := sample_collaborators) s).
  reflexivity.
Defined.

(** C8, as stated, fails: the exception that the abstract mesh creation
    raises on a newly constructed [_Primitive] is no instance of
    NotImplementedError. *)
Lemma create_mesh_raises_no_NotImplementedError :
  ~ (exists e,
       result (_create_mesh (H := sample_collaborators)
                 (after (construct (H := sample_collaborators) Primitive_cls ∅)))
       = inl e
       /\ isinstance e NotImplementedError = true).
Proof.
  intros (e & Hres & Hinst). simpl in Hres. injection Hres as <-. discriminate.
Qed.

(** ** Assignment to the derived arrays (C3) *)

(** C3, as amended: assigning any value to [vertices], [faces] or
    [face_normals] raises nothing and leaves the object as it was, so that
    every read afterwards gives what it gave before; one warning is logged
    for every assignment to [faces] and for every assignment of a value
    other than None to [vertices] or [face_normals]; assigning None to
    these two logs nothing. *)
Theorem assign_has_no_effect `{Collaborators} (k : slot) (values : value) (s : obj) :
  assign k values s
  = Outcome (inr tt) s (if reported k values then [immutable_warning k] else [])
  /\ (forall k', read k' (after (assign k values s)) = read k' s).
Proof.
  assert (assign k values s
          = Outcome (inr tt) s
              (if reported k values then [immutable_warning k] else [])) as Heq.
  { destruct k, values; reflexivity. }
  split; [exact Heq|]. intros k'. rewrite Heq. reflexivity.
Qed.

(** C3, as stated, fails: assigning None to [vertices] of a newly
    constructed box logs no warning. *)
Lemma assign_None_logs_nothing :
  ~ (exists r,
       r ∈ emitted (assign slot_vertices VNone
                      (after (construct (H := sample_collaborators) Box_cls ∅)))
       /\ log_level r = WARNING).
Proof.
  intros (r & Hin & _). simpl in Hin. by apply not_elem_of_nil in Hin.
Qed.

(** ** The required parameters of an extrusion (C7) *)

Lemma extrusion_init_keeps_height_unset `{Collaborators} (kwargs : gmap string value) :
  kwargs !! "extrude_height" = None ->
  _data (after (construct Extrusion_cls kwargs)) !! "extrude_height" = None.
Proof.
  intros Hk. unfold construct, Extrusion.__init__, _Primitive.__init__, Trimesh.__init__.
  rewrite Hk.
  unfold Extrusion.set_extrude_polygon, Extrusion.set_extrude_transform.
  run.
  destruct (kwargs !! "extrude_polygon") as [p|]; simpl;
    [destruct (creation_validate_polygon p); simpl|];
    try reflexivity;
    (destruct (kwargs !! "extrude_transform") as [t|]; simpl;
     [destruct (asanyarray_float64 t) as [|a]; simpl;
      [|destruct (bool_decide (np_shape a = [4; 4])); simpl]|]);
    reflexivity.
Qed.

(** C7: on an extrusion whose height was never set, reading
    [extrude_height] raises the ValueError "extrude height not specified!"
    (the MissingParameterError of the specification) and changes nothing;
    likewise [extrude_polygon] raises "extrude polygon not specified!"; an
    extrusion constructed without [extrude_height] is in that state; and
    after [extrude_height = x] the read returns [x], so 5.0 after 5.0 was
    set. *)
Theorem extrusion_required_parameters `{Collaborators} (s : obj) :
  (_data s !! "extrude_height" = None ->
   exists e, Extrusion.extrude_height s = Outcome (inl e) s []
             /\ MissingParameterError e)
  /\ (_data s !! "extrude_polygon" = None ->
      exists e, Extrusion.extrude_polygon s = Outcome (inl e) s []
                /\ MissingParameterError e)
  /\ (forall kwargs,
        kwargs !! "extrude_height" = None ->
        exists e, result (Extrusion.extrude_height (after (construct Extrusion_cls kwargs)))
                  = inl e /\ MissingParameterError e)
  /\ (forall x : R,
        let s' := after (Extrusion.set_extrude_height (VFloat x) s) in
        result (Extrusion.set_extrude_height (VFloat x) s) = inr tt
        /\ Extrusion.extrude_height s' = Outcome (inr (VFloat x)) s' []).
Proof.
  assert (forall s0, _data s0 !! "extrude_height" = None ->
            exists e, Extrusion.extrude_height s0 = Outcome (inl e) s0 []
                      /\ MissingParameterError e) as Hheight.
  { intros s0 Hnone. eexists. split.
    - unfold Extrusion.extrude_height. run. rewrite Hnone. reflexivity.
    - split; [reflexivity|]. by exists "extrude height". }
  repeat split.
  - apply Hheight.
  - intros Hnone. eexists. split.
    + unfold Extrusion.extrude_polygon. run. rewrite Hnone. reflexivity.
    + split; [reflexivity|]. by exists "extrude polygon".
  - intros kwargs Hk.
    destruct (Hheight _ (extrusion_init_keeps_height_unset kwargs Hk)) as (e & Hrun & He).
    exists e. rewrite Hrun. split; [reflexivity|exact He].
  - unfold Extrusion.extrude_height, Extrusion.set_extrude_height. run.
    rewrite lookup_insert_eq. reflexivity.
Qed.

Lemma extrusion_required_parameters_witness :
  let s := after (construct (H := sample_collaborators) Extrusion_cls ∅) in
  (exists e, Extrusion.extrude_height s = Outcome (inl e) s []
             /\ MissingParameterError e)
  /\ (exists e, Extrusion.extrude_polygon s = Outcome (inl e) s []
                /\ MissingParameterError e)
  /\ result (Extrusion.extrude_height
               (after (Extrusion.set_extrude_height (VFloat 5) s)))
     = inr (VFloat 5).
Proof.
  intros s.
  destruct (extrusion_required_parameters (H := sample_collaborators) s)
    as (Hheight & Hpolygon & _ & Hset).
  split; [apply Hheight; reflexivity|].
  split; [apply Hpolygon; reflexivity|].
  destruct (Hset 5%R) as [_ Hread]. rewrite Hread. reflexivity.
Defined.

(** ** Defaults at read time (C10) *)

(** C10: [box_extents], [box_transform] and [extrude_transform] never raise
    and change nothing; when the store holds nothing under the key, or a
    value whose shape is not (3,), respectively (4,4), the read returns the
    default: three ones, respectively the identity matrix. A box constructed
    without keyword arguments holds nothing in its store, so that its
    defaults come from the getters. *)
Theorem getters_default_at_read_time `{Collaborators} (s : obj) :
  let unset key shape :=
    _data s !! key = None
    \/ exists v, _data s !! key = Some v /\ np_shape v <> shape in
  let identity :=
    VMat [[1; 0; 0; 0]; [0; 1; 0; 0]; [0; 0; 1; 0]; [0; 0; 0; 1]]%R in
  ((exists v, Box.box_extents s = Outcome (inr v) s [])
   /\ (unset "box_extents" [3] ->
       Box.box_extents s = Outcome (inr (VVec [1; 1; 1]%R)) s []))
  /\ ((exists v, Box.box_transform s = Outcome (inr v) s [])
      /\ (unset "box_transform" [4; 4] ->
          Box.box_transform s = Outcome (inr identity) s []))
  /\ ((exists v, Extrusion.extrude_transform s = Outcome (inr v) s [])
      /\ (unset "extrude_transform" [4; 4] ->
          Extrusion.extrude_transform s = Outcome (inr identity) s []))
  /\ _data (after (construct Box_cls ∅)) = ∅.
Proof.
  simpl. repeat split.
  - unfold Box.box_extents. run.
    destruct (util.is_shape _ _); eexists; reflexivity.
  - intros Hunset. unfold Box.box_extents. run.
    assert (util.is_shape (default VNone (_data s !! "box_extents")) [3%Z] = false) as ->;
      [|reflexivity].
    apply not_true_is_false. intros Hs. apply (is_shape_1d _ 3) in Hs.
    destruct Hunset as [Hnone|(v & Hv & Hshape)].
    + rewrite Hnone in Hs. discriminate.
    + rewrite Hv in Hs. contradiction.
  - unfold Box.box_transform. run.
    destruct (util.is_shape _ _); eexists; reflexivity.
  - intros Hunset. unfold Box.box_transform. run.
    assert (util.is_shape (default VNone (_data s !! "box_transform")) [4; 4]%Z = false) as ->;
      [|reflexivity].
    apply not_true_is_false. intros Hs. apply (is_shape_2d _ 4 4) in Hs.
    destruct Hunset as [Hnone|(v & Hv & Hshape)].
    + rewrite Hnone in Hs. discriminate.
    + rewrite Hv in Hs. contradiction.
  - unfold Extrusion.extrude_transform. run.
    destruct (bool_decide _); eexists; reflexivity.
  - intros Hunset. unfold Extrusion.extrude_transform. run.
    rewrite bool_decide_eq_false_2; [reflexivity|].
    destruct Hunset as [Hnone|(v & Hv & Hshape)].
    + rewrite Hnone. discriminate.
    + rewrite Hv. exact Hshape.
Qed.

Lemma getters_default_at_read_time_witness :
  let s := after (Box.set_box_extents (VVec [1; 2]%R)
                    (after (construct (H := sample_collaborators) Box_cls ∅))) in
  _data s !! "box_extents" = Some (VVec [1; 2]%R)
  /\ Box.box_extents s = Outcome (inr (VVec [1; 1; 1]%R)) s []
  /\ Box.box_transform s
     = Outcome (inr (VMat [[1; 0; 0; 0]; [0; 1; 0; 0]; [0; 0; 1; 0]; [0; 0; 0; 1]]%R))
               s []
  /\ (let e := after (construct (H := sample_collaborators) Extrusion_cls ∅) in
      Extrusion.extrude_transform e
      = Outcome (inr (VMat [[1; 0; 0; 0]; [0; 1; 0; 0]; [0; 0; 1; 0]; [0; 0; 0; 1]]%R))
                e []).
Proof.
  intros s.
  destruct (getters_default_at_read_time (H := sample_collaborators) s)
    as ((_ & Hextents) & (_ & Htransform) & _).
  destruct (getters_default_at_read_time (H := sample_collaborators)
              (after (construct (H := sample_collaborators) Extrusion_cls ∅)))
    as (_ & _ & (_ & Hextrude) & _).
  split; [reflexivity|].
  split; [apply Hextents; right; exists (VVec [1; 2]%R); split;
          [reflexivity|discriminate]|].
  split; [apply Htransform; left; reflexivity|].
  apply Hextrude. left. reflexivity.
Defined.

(** ** Sliding an extrusion (C5) *)

Lemma translation_matrix (x : R) :
  Extrusion.translation x
  = [[1; 0; 0; 0]; [0; 1; 0; 0]; [0; 0; 1; x]; [0; 0; 0; 1]]%R.
Proof. reflexivity. Qed.

Lemma np_dot_translation_shape (m : list (list R)) (x : R) :
  length m = 4 ->
  rectangular (np_dot m (Extrusion.translation x)) = true
  /\ np_shape (VMat (np_dot m (Extrusion.translation x))) = [4; 4].
Proof.
  intros Hm. destruct m as [|r0 [|r1 [|r2 [|r3 [|]]]]]; try discriminate.
  split; reflexivity.
Qed.

(** What the getter returns is a matrix of four rows. *)
Lemma extrude_transform_matrix (s : obj) :
  exists t m,
    Extrusion.extrude_transform s = Outcome (inr t) s []
    /\ np_shape t = [4; 4]
    /\ as_matrix t = inr m
    /\ length m = 4.
Proof.
  unfold Extrusion.extrude_transform. run.
  destruct (bool_decide (np_shape (default VNone (_data s !! "extrude_transform")) = [4; 4]))
    eqn:Hshape.
  - apply bool_decide_eq_true_1 in Hshape.
    destruct (shape_44_matrix _ Hshape) as (m & Hm & Hlen & _).
    eexists _, m. repeat split; assumption.
  - exists (VMat (np_eye 4)), (np_eye 4). repeat split.
Qed.

Lemma slide_transform (s : obj) (x : R) :
  let s' := after (Extrusion.slide (VFloat x) s) in
  exists t m,
    Extrusion.extrude_transform s = Outcome (inr t) s []
    /\ as_matrix t = inr m
    /\ result (Extrusion.slide (VFloat x) s) = inr tt
    /\ Extrusion.extrude_transform s'
       = Outcome (inr (VMat (np_dot m (Extrusion.translation x)))) s' [].
Proof.
  destruct (extrude_transform_matrix s) as (t & m & Hget & Hshape & Hm & Hlen).
  destruct (np_dot_translation_shape m x Hlen) as [Hrect Hnew].
  assert (has_shape t = true) as Harray.
  { destruct t; simpl in Hshape; try discriminate; reflexivity. }
  exists t, m. split; [exact Hget|]. split; [exact Hm|].
  assert (Extrusion.slide (VFloat x) s
          = DataStore.__setitem__ "extrude_transform"
              (VMat (np_dot m (Extrusion.translation x))) s) as ->.
  { unfold Extrusion.slide.
    rewrite (bind_pure _ _ s x) by reflexivity.
    rewrite (bind_pure _ _ s t Hget).
    rewrite (bind_pure _ _ s t) by (unfold np_copy; rewrite Harray; reflexivity).
    rewrite (bind_pure _ _ s m) by (rewrite Hm; reflexivity).
    unfold Extrusion.set_extrude_transform.
    rewrite (bind_pure _ _ s (VMat (np_dot m (Extrusion.translation x))))
      by (unfold asanyarray_float64; rewrite Hrect; reflexivity).
    rewrite (bool_decide_eq_true_2 _ Hnew). reflexivity. }
  split; [reflexivity|].
  unfold Extrusion.extrude_transform. run.
  rewrite lookup_insert_eq. simpl.
  rewrite (bool_decide_eq_true_2 _ Hnew). reflexivity.
Qed.

(** C5: [slide(x)] succeeds on every extrusion, and the transform read
    afterwards is the product of the transform read before and the
    translation by (0,0,x), in that order. Starting from the identity,
    [slide(x)] gives the translation column (0,0,x) and a further [slide(y)]
    gives (0,0,x+y): (0,0,3) and then (0,0,5) for 3.0 and 2.0. *)
Theorem slide_composes (s : obj) (x : R) :
  let s' := after (Extrusion.slide (VFloat x) s) in
  Extrusion.translation x
  = [[1; 0; 0; 0]; [0; 1; 0; 0]; [0; 0; 1; x]; [0; 0; 0; 1]]%R
  /\ (exists t m,
        Extrusion.extrude_transform s = Outcome (inr t) s []
        /\ as_matrix t = inr m
        /\ result (Extrusion.slide (VFloat x) s) = inr tt
        /\ Extrusion.extrude_transform s'
           = Outcome (inr (VMat (np_dot m (Extrusion.translation x)))) s' [])
  /\ (Extrusion.extrude_transform s = Outcome (inr (VMat (np_eye 4))) s [] ->
      forall y : R,
        let s'' := after (Extrusion.slide (VFloat y) s') in
        (exists m1,
           Extrusion.extrude_transform s' = Outcome (inr (VMat m1)) s' []
           /\ column3 m1 = [0; 0; x]%R)
        /\ (exists m2,
              Extrusion.extrude_transform s'' = Outcome (inr (VMat m2)) s'' []
              /\ column3 m2 = [0; 0; x + y]%R)).
Proof.
  intros s'. split; [apply translation_matrix|]. split; [apply slide_transform|].
  intros Hidentity y s''.
  destruct (slide_transform s x) as (t & m & Hget & Hm & _ & Hnew).
  fold s' in Hnew. rewrite Hidentity in Hget. injection Hget as <-.
  injection Hm as <-.
  destruct (slide_transform s' y) as (t' & m' & Hget' & Hm' & _ & Hnew').
  fold s'' in Hnew'. rewrite Hnew in Hget'. injection Hget' as <-.
  injection Hm' as <-.
  split.
  - eexists. split; [exact Hnew|].
    rewrite translation_matrix. unfold column3, np_dot, dot_vec, column. simpl.
    f_equal; [ring|]. f_equal; [ring|]. f_equal. ring.
  - eexists. split; [exact Hnew'|].
    rewrite !translation_matrix. unfold column3, np_dot, dot_vec, column. simpl.
    f_equal; [ring|]. f_equal; [ring|]. f_equal. ring.
Qed.

Lemma slide_composes_witness :
  let s := after (construct (H := sample_collaborators) Extrusion_cls ∅) in
  let s1 := after (Extrusion.slide (VFloat 3) s) in
  let s2 := after (Extrusion.slide (VFloat 2) s1) in
  (exists m1,
     Extrusion.extrude_transform s1 = Outcome (inr (VMat m1)) s1 []
     /\ column3 m1 = [0; 0; 3]%R)
  /\ (exists m2,
        Extrusion.extrude_transform s2 = Outcome (inr (VMat m2)) s2 []
        /\ column3 m2 = [0; 0; 5]%R).
Proof.
  intros s s1 s2.
  destruct (slide_composes s 3) as (_ & _ & Hslides).
  destruct (Hslides eq_refl 2%R) as [Hfirst (m2 & Hread & Hcolumn)].
  split; [exact Hfirst|].
  exists m2. split; [exact Hread|].
  rewrite Hcolumn. f_equal. f_equal. f_equal. lra.
Defined.

(** ** The winding repair of the box (C1) *)

Lemma box_extents_pure (s : obj) :
  exists v, Box.box_extents s = Outcome (inr v) s [].
Proof.
  unfold Box.box_extents. run. destruct (util.is_shape _ _); eexists; reflexivity.
Qed.

Lemma box_transform_pure (s : obj) :
  exists v, Box.box_transform s = Outcome (inr v) s [].
Proof.
  unfold Box.box_transform. run. destruct (util.is_shape _ _); eexists; reflexivity.
Qed.

Lemma fliplr_rows (faces : list (Z * Z * Z)) :
  map row3 (fliplr_faces faces) = np_fliplr (map row3 faces).
Proof.
  unfold fliplr_faces, np_fliplr. rewrite !map_map. apply map_ext.
  intros [[a b] c]. reflexivity.
Qed.

Lemma box_first_face_decides `{Collaborators} (s : obj) (box : Trimesh)
    (extents transform : value) (scale : vec3) (matrix : list (list R))
    (a b c : Z) (rest : list (Z * Z * Z)) (p q r : vec3)
    (aligned : bool) (flags : list bool) :
  let vertices :=
    transform_points (map (fun v => mul3 v scale) (mesh_vertices box)) matrix in
  let normals := map (rotate3 (block33 matrix)) (mesh_face_normals box) in
  let s' := after (Box._create_mesh s) in
  _unit_box s = Some box ->
  result (Box.box_extents s) = inr extents ->
  broadcast3 extents = inr scale ->
  result (Box.box_transform s) = inr transform ->
  as_matrix transform = inr matrix ->
  mesh_faces box = (a, b, c) :: rest ->
  py_index vertices a = Some p ->
  py_index vertices b = Some q ->
  py_index vertices c = Some r ->
  windings_aligned [(p, q, r)] (take 1 normals) = aligned :: flags ->
  result (Box._create_mesh s) = inr tt
  /\ _cache s' !! "faces"
     = Some (VIMat (if aligned then map row3 (mesh_faces box)
                    else np_fliplr (map row3 (mesh_faces box))))
  /\ _cache s' !! "vertices" = Some (VMat (map row3 vertices))
  /\ _cache s' !! "face_normals" = Some (VMat (map row3 normals)).
Proof.
  intros vertices normals s' Hbox Hextents Hscale Htransform Hmatrix Hfaces Hp Hq Hr Haligned.
  destruct (box_extents_pure s) as (e & He).
  destruct (box_transform_pure s) as (t & Ht).
  rewrite He in Hextents. injection Hextents as ->.
  rewrite Ht in Htransform. injection Htransform as ->.
  assert (Box._create_mesh s
          = Outcome (inr tt)
              (after (cache_mesh (VMat (map row3 vertices))
                        (VIMat (map row3 (if negb aligned
                                          then fliplr_faces (mesh_faces box)
                                          else mesh_faces box)))
                        (VMat (map row3 normals)) s))
              [Log DEBUG "Creating mesh for box _Primitive"]) as Hrun.
  { unfold Box._create_mesh.
    rewrite (bind_returns _ _ s s tt [Log DEBUG "Creating mesh for box _Primitive"])
      by reflexivity.
    rewrite (bind_pure _ _ s box) by (unfold self_unit_box; run; rewrite Hbox; reflexivity).
    rewrite (bind_pure _ _ s extents He).
    rewrite (bind_pure _ _ s scale) by (rewrite Hscale; reflexivity).
    rewrite (bind_pure _ _ s transform Ht).
    rewrite (bind_pure _ _ s matrix) by (rewrite Hmatrix; reflexivity).
    rewrite (bind_pure _ _ s transform Ht).
    rewrite (bind_pure _ _ s matrix) by (rewrite Hmatrix; reflexivity).
    fold vertices. fold normals.
    rewrite (bind_pure _ _ s [(p, q, r)])
      by (unfold first_triangle; rewrite Hfaces; simpl; rewrite Hp, Hq, Hr; reflexivity).
    rewrite (bind_pure _ _ s aligned) by (rewrite Haligned; reflexivity).
    reflexivity. }
  subst s'. rewrite Hrun. simpl. split; [reflexivity|].
  split; [|split].
  - rewrite lookup_insert_ne by discriminate. rewrite lookup_insert_eq.
    destruct aligned; simpl; [reflexivity|]. by rewrite fliplr_rows.
  - rewrite !lookup_insert_ne by discriminate. by rewrite lookup_insert_eq.
  - by rewrite lookup_insert_eq.
Qed.

Lemma unit_box_reads (s : obj) :
  self_unit_box s
  = Outcome (match _unit_box s with
             | Some m => inr m
             | None => inl (Raise AttributeError "object has no attribute '_unit_box'")
             end) s [].
Proof. unfold self_unit_box. run. by destruct (_unit_box s). Qed.

(** Whenever the mesh of a box is created, its faces are cached all as they
    are in the unit box or all reversed. *)
Lemma box_faces_all_or_none `{Collaborators} (s : obj) (box : Trimesh) :
  _unit_box s = Some box ->
  result (Box._create_mesh s) = inr tt ->
  exists aligned : bool,
    _cache (after (Box._create_mesh s)) !! "faces"
    = Some (VIMat (if aligned then map row3 (mesh_faces box)
                   else np_fliplr (map row3 (mesh_faces box)))).
Proof.
  intros Hbox. unfold Box._create_mesh.
  rewrite (bind_returns _ _ s s tt [Log DEBUG "Creating mesh for box _Primitive"])
    by reflexivity.
  cbn [result after].
  rewrite (bind_reads _ _ s _ (unit_box_reads s)), Hbox.
  destruct (box_extents_pure s) as (extents & Hextents).
  destruct (box_transform_pure s) as (transform & Htransform).
  rewrite (bind_pure _ _ s extents Hextents).
  rewrite (bind_reads _ _ s _ (lift_runs _ s)).
  destruct (broadcast3 extents) as [e|scale]; [discriminate|].
  rewrite (bind_pure _ _ s transform Htransform).
  rewrite (bind_reads _ _ s _ (lift_runs _ s)).
  destruct (as_matrix transform) as [e|matrix] eqn:Hmatrix; [discriminate|].
  rewrite (bind_pure _ _ s transform Htransform).
  rewrite (bind_reads _ _ s _ (lift_runs _ s)), Hmatrix.
  rewrite (bind_reads _ _ s _ (lift_runs _ s)).
  destruct (first_triangle _ _) as [e|triangles]; [discriminate|].
  rewrite (bind_reads _ _ s _ (lift_runs _ s)).
  destruct (first_flag _) as [e|aligned]; [discriminate|].
  intros _. exists aligned.
  unfold cache_mesh. run.
  rewrite lookup_insert_ne by discriminate. rewrite lookup_insert_eq.
  destruct aligned; simpl; [reflexivity|]. by rewrite fliplr_rows.
Qed.

(** C1: [Box._create_mesh] decides the winding once, from the first face
    alone. Whenever it succeeds, the cached faces are the faces of the unit
    box all as they are or all with their rows reversed. With the vertices
    scaled by the extents and transformed, and the normals rotated, it asks
    [windings_aligned] about the one triangle of the first face and the
    first normal: when that face is aligned the faces are cached as they
    are, and when it is not they are cached reversed. No other face is
    looked at. *)
Theorem box_winding_repair `{Collaborators} (s : obj) (box : Trimesh) :
  let s' := after (Box._create_mesh s) in
  let rows := map row3 (mesh_faces box) in
  _unit_box s = Some box ->
  (result (Box._create_mesh s) = inr tt ->
   exists aligned : bool,
     _cache s' !! "faces" = Some (VIMat (if aligned then rows else np_fliplr rows)))
  /\ (forall (extents transform : value) (scale : vec3) (matrix : list (list R))
         (a b c : Z) (rest : list (Z * Z * Z)) (p q r : vec3)
         (aligned : bool) (flags : list bool),
        let vertices :=
          transform_points (map (fun v => mul3 v scale) (mesh_vertices box)) matrix in
        let normals := map (rotate3 (block33 matrix)) (mesh_face_normals box) in
        result (Box.box_extents s) = inr extents ->
        broadcast3 extents = inr scale ->
        result (Box.box_transform s) = inr transform ->
        as_matrix transform = inr matrix ->
        mesh_faces box = (a, b, c) :: rest ->
        py_index vertices a = Some p ->
        py_index vertices b = Some q ->
        py_index vertices c = Some r ->
        windings_aligned [(p, q, r)] (take 1 normals) = aligned :: flags ->
        result (Box._create_mesh s) = inr tt
        /\ _cache s' !! "faces"
           = Some (VIMat (if aligned then rows else np_fliplr rows))
        /\ _cache s' !! "vertices" = Some (VMat (map row3 vertices))
        /\ _cache s' !! "face_normals" = Some (VMat (map row3 normals))).
Proof.
  intros s' rows Hbox. subst s' rows. split.
  - intros Hrun. exact (box_faces_all_or_none s box Hbox Hrun).
  - intros extents transform scale matrix a b c rest p q r aligned flags
      vertices normals Hextents Hscale Htransform Hmatrix Hfaces Hp Hq Hr Haligned.
    exact (box_first_face_decides s box extents transform scale matrix
             a b c rest p q r aligned flags
             Hbox Hextents Hscale Htransform Hmatrix Hfaces Hp Hq Hr Haligned).
Qed.

Lemma box_winding_repair_witness :
  let s := after (construct (H := sample_collaborators) Box_cls
                    {["box_extents" := VVec [1; 1; -1]%R]}) in
  result (Box._create_mesh (H := sample_collaborators) s) = inr tt
  /\ _cache (after (Box._create_mesh (H := sample_collaborators) s)) !! "faces"
     = Some (VIMat (np_fliplr (map row3 (mesh_faces sample.box)))).
Proof.
  intros s.
  destruct (box_winding_repair (H := sample_collaborators) s sample.box eq_refl)
    as [_ Hdecides].
  unshelve epose proof
    (Hdecides (VVec [1; 1; -1]%R) (VMat (np_eye 4)) (1, 1, -1)%R (np_eye 4)
       1%Z 3%Z 0%Z _ _ _ _ false []
       eq_refl eq_refl eq_refl eq_refl eq_refl eq_refl eq_refl eq_refl _)
    as (Hrun & Hfaces & _).
  { simpl. destruct (Rlt_dec _ _) as [Hlt|_]; [exfalso|reflexivity].
    unfold dot_vec in Hlt. simpl in Hlt. lra. }
  split; [exact Hrun|exact Hfaces].
Defined.

(** ** Cached reads (C2) *)

Lemma populates_bind {A} (m : M A) (f : A -> M unit) :
  (forall a, populates (f a)) -> populates (bind m f).
Proof.
  intros Hf s Hres k.
  apply bind_result_inr in Hres as (a & _ & Hfa & -> & _). by apply Hf.
Qed.

Lemma populates_cache_mesh (v f n : value) : populates (cache_mesh v f n).
Proof.
  intros s _ k. unfold cache_mesh. run.
  destruct k; simpl.
  - rewrite !lookup_insert_ne by discriminate. rewrite lookup_insert_eq. by eexists.
  - rewrite lookup_insert_ne by discriminate. rewrite lookup_insert_eq. by eexists.
  - rewrite lookup_insert_eq. by eexists.
Qed.

Lemma populates_raise (e : exn) : populates (raise e).
Proof. intros s Hres. discriminate. Qed.

Lemma populates_create_mesh `{Collaborators} : populates _create_mesh.
Proof.
  unfold _create_mesh. apply populates_bind. intros s.
  destruct (class_of s);
    [apply populates_raise| | | |];
    unfold Cylinder._create_mesh, Sphere._create_mesh, Box._create_mesh,
      Extrusion._create_mesh;
    repeat first [apply populates_cache_mesh | apply populates_bind; intros ?].
Qed.

Lemma read_with_unfold (k : slot) (create : M unit) :
  read_with k create
  = (stored <- Cache.__getitem__ (slot_key k) ;;
     if util.is_shape stored [-1; 3]%Z then ret stored
     else create ;;; Cache.__getitem__ (slot_key k)).
Proof. by destruct k. Qed.

Lemma read_with_hit (k : slot) (create : M unit) (s : obj) :
  util.is_shape (default VNone (_cache s !! slot_key k)) [-1; 3]%Z = true ->
  read_with k create s
  = Outcome (inr (default VNone (_cache s !! slot_key k))) s [].
Proof.
  intros Hhit. rewrite read_with_unfold.
  rewrite (bind_pure _ _ s (default VNone (_cache s !! slot_key k))) by reflexivity.
  rewrite Hhit. reflexivity.
Qed.

Lemma read_with_miss (k : slot) (create : M unit) (s : obj) :
  util.is_shape (default VNone (_cache s !! slot_key k)) [-1; 3]%Z = false ->
  read_with k create s
  = (create ;;; Cache.__getitem__ (slot_key k)) s.
Proof.
  intros Hmiss. rewrite read_with_unfold.
  rewrite (bind_pure _ _ s (default VNone (_cache s !! slot_key k))) by reflexivity.
  rewrite Hmiss. reflexivity.
Qed.

(** *** Mesh creation does not depend on the cache *)

Lemma with_cache_same (s : obj) : with_cache (_cache s) s = s.
Proof. by destruct s. Qed.

Lemma blind_pure {A} (m : M A) :
  (forall s, exists r, forall c, m (with_cache c s) = Outcome r (with_cache c s) []) ->
  cache_blind m.
Proof.
  intros Hm s. destruct (Hm s) as (r & Hr). exists r, (∅ : gmap string value), []. intros c.
  by rewrite Hr, (left_id_L ∅ (∪)).
Qed.

Lemma blind_bind {A B} (m : M A) (f : A -> M B) :
  cache_blind m -> (forall a, cache_blind (f a)) -> cache_blind (bind m f).
Proof.
  intros Hm Hf s. destruct (Hm s) as (r & added & l & Hrun).
  destruct r as [e|a].
  - exists (inl e), added, l. intros c. by rewrite (bind_raises _ _ _ _ _ _ (Hrun c)).
  - destruct (Hf a s) as (r' & added' & l' & Hrun').
    exists r', (added' ∪ added), (l ++ l'). intros c.
    rewrite (bind_returns _ _ _ _ _ _ (Hrun c)), Hrun'. cbn [result after emitted].
    by rewrite (assoc_L (∪)).
Qed.

Lemma blind_ret {A} (a : A) : cache_blind (ret a).
Proof. apply blind_pure. intros s. by eexists. Qed.

Lemma blind_raise {A} (e : exn) : cache_blind (raise (A := A) e).
Proof. apply blind_pure. intros s. by eexists. Qed.

Lemma blind_lift {A} (x : exn + A) : cache_blind (lift x).
Proof. destruct x; [apply blind_raise|apply blind_ret]. Qed.

Lemma blind_log (lv : level) (msg : string) : cache_blind (log lv msg).
Proof.
  intros s. exists (inr tt), (∅ : gmap string value), [Log lv msg]. intros c.
  unfold log. by rewrite (left_id_L ∅ (∪)).
Qed.

Lemma blind_data_getitem (key : string) : cache_blind (DataStore.__getitem__ key).
Proof.
  apply blind_pure. intros s. by exists (inr (default VNone (_data s !! key))).
Qed.

Lemma blind_cache_setitem (key : string) (v : value) :
  cache_blind (Cache.__setitem__ key v).
Proof.
  intros s. exists (inr tt), ({[key := v]} : gmap string value), []. intros c.
  unfold Cache.__setitem__, modify. cbn. by rewrite insert_union_singleton_l.
Qed.

Lemma blind_cache_mesh (v f n : value) : cache_blind (cache_mesh v f n).
Proof.
  unfold cache_mesh.
  repeat (apply blind_bind; [apply blind_cache_setitem|intros ?]).
  apply blind_cache_setitem.
Qed.

Lemma blind_unit_sphere : cache_blind self_unit_sphere.
Proof.
  apply blind_pure. intros s.
  exists (match _unit_sphere s with
          | Some m => inr m
          | None => inl (Raise AttributeError "object has no attribute '_unit_sphere'")
          end).
  intros c. unfold self_unit_sphere. run. by destruct (_unit_sphere s).
Qed.

Lemma blind_unit_box : cache_blind self_unit_box.
Proof.
  apply blind_pure. intros s.
  exists (match _unit_box s with
          | Some m => inr m
          | None => inl (Raise AttributeError "object has no attribute '_unit_box'")
          end).
  intros c. unfold self_unit_box. run. by destruct (_unit_box s).
Qed.

Lemma blind_dict : cache_blind _PrimitiveAttributes.__dict__.
Proof.
  apply blind_pure. intros s.
  exists (match primitive_data s with
          | Some d => inr d
          | None => inl (Raise AttributeError "object has no attribute 'primitive_data'")
          end).
  intros c. unfold _PrimitiveAttributes.__dict__. run. by destruct (primitive_data s).
Qed.

Ltac blind_step :=
  lazymatch goal with
  | |- cache_blind (bind _ _) => apply blind_bind; [|intros ?]
  | |- cache_blind (ret _) => apply blind_ret
  | |- cache_blind (raise _) => apply blind_raise
  | |- cache_blind (lift _) => apply blind_lift
  | |- cache_blind (log _ _) => apply blind_log
  | |- cache_blind (DataStore.__getitem__ _) => apply blind_data_getitem
  | |- cache_blind (cache_mesh _ _ _) => apply blind_cache_mesh
  | |- cache_blind (Cache.__setitem__ _ _) => apply blind_cache_setitem
  | |- cache_blind self_unit_sphere => apply blind_unit_sphere
  | |- cache_blind self_unit_box => apply blind_unit_box
  | |- cache_blind _PrimitiveAttributes.__dict__ => apply blind_dict
  | |- cache_blind (match ?x with _ => _ end) => destruct x
  | |- cache_blind (if ?b then _ else _) => destruct b
  | |- cache_blind ?m => let h := head_of m in progress unfold h
  end.

Lemma blind_class_create_mesh `{Collaborators} (c : pycls) :
  cache_blind (match c with
               | Primitive_cls => _Primitive._create_mesh
               | Cylinder_cls => Cylinder._create_mesh
               | Sphere_cls => Sphere._create_mesh
               | Box_cls => Box._create_mesh
               | Extrusion_cls => Extrusion._create_mesh
               end).
Proof. destruct c; repeat blind_step. Qed.

Lemma blind_create_mesh `{Collaborators} : cache_blind _create_mesh.
Proof.
  intros s. destruct (blind_class_create_mesh (class_of s) s) as (r & added & l & Hrun).
  exists r, added, l. intros c. unfold _create_mesh.
  rewrite (bind_pure _ _ _ (with_cache c s)) by reflexivity. apply Hrun.
Qed.

(** Creating the mesh again changes nothing. *)
Lemma create_mesh_again `{Collaborators} (s : obj) :
  result (_create_mesh s) = inr tt ->
  let s1 := after (_create_mesh s) in
  result (_create_mesh s1) = inr tt /\ after (_create_mesh s1) = s1.
Proof.
  intros Hcreate s1. destruct (blind_create_mesh s) as (r & added & l & Hrun).
  pose proof (Hrun (_cache s)) as Hfirst. rewrite with_cache_same in Hfirst.
  subst s1. rewrite Hfirst in Hcreate |- *. cbn [result after] in Hcreate |- *.
  rewrite Hrun. cbn [result after]. split; [exact Hcreate|].
  by rewrite (assoc_L (∪)), (idemp_L (∪)).
Qed.

(** C2: when a read of [vertices], [faces] or [face_normals] returns an
    array, the next read returns the same array and leaves the object as it
    is. If the array is validly shaped, the next read takes it from the
    cache: it logs nothing and does not create the mesh (it gives the same
    whatever the mesh creation is). The first read, when the cache holds no
    validly shaped array for the slot, runs the mesh creation of the
    object's class, after which all three slots are cached; when the cache
    holds one, it returns it. *)
Theorem reads_are_cached `{Collaborators} (k : slot) (s : obj) (a : value) :
  let s1 := after (read k s) in
  let stored := default VNone (_cache s !! slot_key k) in
  result (read k s) = inr a ->
  (result (read k s1) = inr a /\ after (read k s1) = s1)
  /\ (util.is_shape a [-1; 3]%Z = true ->
      forall create : M unit, read_with k create s1 = Outcome (inr a) s1 [])
  /\ (util.is_shape stored [-1; 3]%Z = true ->
      read k s = Outcome (inr stored) s [])
  /\ (util.is_shape stored [-1; 3]%Z = false ->
      result (_create_mesh s) = inr tt
      /\ s1 = after (_create_mesh s)
      /\ emitted (read k s) = emitted (_create_mesh s)
      /\ _cache s1 !! slot_key k = Some a
      /\ forall k', is_Some (_cache s1 !! slot_key k')).
Proof.
  intros s1 stored Hread.
  assert (default VNone (_cache s1 !! slot_key k) = a
          /\ (util.is_shape stored [-1; 3]%Z = true -> util.is_shape a [-1; 3]%Z = true)
          /\ (util.is_shape stored [-1; 3]%Z = false ->
              result (_create_mesh s) = inr tt
              /\ s1 = after (_create_mesh s)
              /\ emitted (read k s) = emitted (_create_mesh s)
              /\ _cache s1 !! slot_key k = Some a
              /\ forall k', is_Some (_cache s1 !! slot_key k')))
    as (Hcached & Hhit & Hmiss).
  { subst s1. unfold read in *.
    destruct (util.is_shape stored [-1; 3]%Z) eqn:Hstored.
    - rewrite (read_with_hit _ _ _ Hstored) in *. cbn [result after] in *.
      injection Hread as <-. split; [reflexivity|]. split; [by intros _|discriminate].
    - rewrite (read_with_miss _ _ _ Hstored) in *.
      apply bind_result_inr in Hread as ([] & Hcreate & Hget & -> & ->).
      pose proof (populates_create_mesh _ Hcreate) as Hslots.
      destruct (Hslots k) as (v & Hv).
      rewrite cache_getitem in Hget |- *. cbn [result after emitted] in Hget |- *.
      rewrite Hv in Hget |- *. cbn [default] in Hget |- *. injection Hget as <-.
      split; [reflexivity|]. split; [discriminate|]. intros _.
      repeat split; try assumption. by rewrite app_nil_r. }
  assert (util.is_shape a [-1; 3]%Z = true ->
          forall create, read_with k create s1 = Outcome (inr a) s1 []) as Hagain.
  { intros Hshape create.
    rewrite read_with_hit; rewrite Hcached; [reflexivity|exact Hshape]. }
  split; [|split; [exact Hagain|split; [|exact Hmiss]]].
  - destruct (util.is_shape a [-1; 3]%Z) eqn:Hshape.
    + unfold read. by rewrite (Hagain eq_refl).
    + destruct (util.is_shape stored [-1; 3]%Z) eqn:Hstored;
        [specialize (Hhit eq_refl); discriminate|].
      destruct (Hmiss eq_refl) as (Hcreate & Hs1 & _).
      destruct (create_mesh_again s Hcreate) as [Hresult Hafter].
      rewrite <- Hs1 in Hresult, Hafter.
      unfold read. rewrite read_with_miss by (by rewrite Hcached).
      destruct (_create_mesh s1) as [r s2 l] eqn:Hrun.
      cbn [result after] in Hresult, Hafter. subst r s2.
      rewrite (bind_returns _ _ _ _ _ _ Hrun), cache_getitem.
      cbn [result after]. by rewrite Hcached.
  - intros Hstored. unfold read. by rewrite read_with_hit.
Qed.

Lemma reads_are_cached_witness :
  let s := after (construct (H := sample_collaborators) Sphere_cls
                    {["sphere_radius" := VFloat 2]}) in
  let s1 := after (read (H := sample_collaborators) slot_faces s) in
  let a := VIMat [[0; 1; 2]; [0; 3; 1]; [0; 2; 3]; [1; 3; 2]]%Z in
  result (read (H := sample_collaborators) slot_faces s) = inr a
  /\ read (H := sample_collaborators) slot_faces s1 = Outcome (inr a) s1 []
  /\ forall k, is_Some (_cache s1 !! slot_key k).
Proof.
  intros s s1 a.
  destruct (reads_are_cached (H := sample_collaborators) slot_faces s a eq_refl)
    as (_ & Hagain & _ & Hmiss).
  split; [reflexivity|]. split; [exact (Hagain eq_refl _)|].
  apply Hmiss. reflexivity.
Defined.

(** ** The volume of a sphere and of a box (C6, C9) *)

Lemma volume_kept_refl (s : obj) : volume_kept s s.
Proof. split; [reflexivity|]. left. split; reflexivity. Qed.

Lemma volume_kept_trans (s1 s2 s3 : obj) :
  volume_kept s1 s2 -> volume_kept s2 s3 -> volume_kept s1 s3.
Proof.
  intros [Hc1 H1] [Hc2 H2]. split; [congruence|].
  destruct H2 as [[Hd2 Hv2]|Hnone]; [|by right].
  destruct H1 as [[Hd1 Hv1]|Hnone]; [left; split; congruence|right; congruence].
Qed.

Lemma keeps_bind {A B} (m : M A) (f : A -> M B) :
  keeps_volume m -> (forall a, keeps_volume (f a)) -> keeps_volume (bind m f).
Proof.
  intros Hm Hf s. unfold bind. destruct (result (m s)) as [e|a]; simpl.
  - apply Hm.
  - eapply volume_kept_trans; [apply Hm|apply Hf].
Qed.

Lemma keeps_ret {A} (a : A) : keeps_volume (ret a).
Proof. intros s. apply volume_kept_refl. Qed.

Lemma keeps_raise {A} (e : exn) : keeps_volume (raise (A := A) e).
Proof. intros s. apply volume_kept_refl. Qed.

Lemma keeps_lift {A} (x : exn + A) : keeps_volume (lift x).
Proof. destruct x; [apply keeps_raise|apply keeps_ret]. Qed.

Lemma keeps_log (l : level) (msg : string) : keeps_volume (log l msg).
Proof. intros s. apply volume_kept_refl. Qed.

Lemma keeps_get : keeps_volume get.
Proof. intros s. apply volume_kept_refl. Qed.

Lemma keeps_try_except {A} (m handler : M A) :
  keeps_volume m -> keeps_volume handler -> keeps_volume (try_except m handler).
Proof.
  intros Hm Hh s. unfold try_except. destruct (result (m s)); simpl.
  - eapply volume_kept_trans; [apply Hm|apply Hh].
  - apply Hm.
Qed.

Lemma keeps_data_getitem (key : string) : keeps_volume (DataStore.__getitem__ key).
Proof. intros s. apply volume_kept_refl. Qed.

Lemma keeps_data_setitem (key : string) (v : value) :
  keeps_volume (DataStore.__setitem__ key v).
Proof. intros s. split; [reflexivity|]. right. reflexivity. Qed.

Lemma keeps_data_clear : keeps_volume DataStore.clear.
Proof. intros s. split; [reflexivity|]. right. reflexivity. Qed.

Lemma keeps_data_update (values : gmap string value) :
  keeps_volume (DataStore.update values).
Proof. intros s. split; [reflexivity|]. right. reflexivity. Qed.

Lemma keeps_trimesh_init : keeps_volume Trimesh.__init__.
Proof. intros s. split; [reflexivity|]. right. reflexivity. Qed.

Lemma keeps_cache_getitem (key : string) : keeps_volume (Cache.__getitem__ key).
Proof. intros s. apply volume_kept_refl. Qed.

Lemma keeps_cache_contains (key : string) : keeps_volume (Cache.__contains__ key).
Proof. intros s. apply volume_kept_refl. Qed.

Lemma keeps_cache_setitem (key : string) (v : value) :
  key <> "volume" -> keeps_volume (Cache.__setitem__ key v).
Proof.
  intros Hkey s. split; [reflexivity|]. left. split; [reflexivity|].
  simpl. by rewrite lookup_insert_ne.
Qed.

Lemma keeps_cache_mesh (v f n : value) : keeps_volume (cache_mesh v f n).
Proof.
  unfold cache_mesh.
  repeat (apply keeps_bind; [by apply keeps_cache_setitem|intros ?]).
  by apply keeps_cache_setitem.
Qed.

Lemma keeps_unit_sphere : keeps_volume self_unit_sphere.
Proof.
  intros s. unfold self_unit_sphere. run.
  destruct (_unit_sphere s); apply volume_kept_refl.
Qed.

Lemma keeps_unit_box : keeps_volume self_unit_box.
Proof.
  intros s. unfold self_unit_box. run.
  destruct (_unit_box s); apply volume_kept_refl.
Qed.

Lemma keeps_modify_unit_sphere (m : Trimesh) :
  keeps_volume (modify (with_unit_sphere m)).
Proof. intros s. split; [reflexivity|]. left. split; reflexivity. Qed.

Lemma keeps_modify_unit_box (m : Trimesh) :
  keeps_volume (modify (with_unit_box m)).
Proof. intros s. split; [reflexivity|]. left. split; reflexivity. Qed.

Lemma keeps_modify_primitive_data (d : gmap string attr) :
  keeps_volume (modify (with_primitive_data d)).
Proof. intros s. split; [reflexivity|]. left. split; reflexivity. Qed.

Lemma keeps_for_each {K V} (items : list (K * V)) (body : K -> V -> M unit) :
  (forall k v, keeps_volume (body k v)) -> keeps_volume (for_each items body).
Proof.
  intros Hbody. induction items as [|[k v] items IH]; simpl.
  - apply keeps_ret.
  - apply keeps_bind; [apply Hbody|intros _; exact IH].
Qed.

Ltac keeps_step :=
  lazymatch goal with
  | |- keeps_volume (bind _ _) => apply keeps_bind; [|intros ?]
  | |- keeps_volume (ret _) => apply keeps_ret
  | |- keeps_volume (raise _) => apply keeps_raise
  | |- keeps_volume (lift _) => apply keeps_lift
  | |- keeps_volume (log _ _) => apply keeps_log
  | |- keeps_volume get => apply keeps_get
  | |- keeps_volume (DataStore.__getitem__ _) => apply keeps_data_getitem
  | |- keeps_volume (DataStore.__setitem__ _ _) => apply keeps_data_setitem
  | |- keeps_volume DataStore.clear => apply keeps_data_clear
  | |- keeps_volume (DataStore.update _) => apply keeps_data_update
  | |- keeps_volume Trimesh.__init__ => apply keeps_trimesh_init
  | |- keeps_volume (Cache.__getitem__ _) => apply keeps_cache_getitem
  | |- keeps_volume (Cache.__contains__ _) => apply keeps_cache_contains
  | |- keeps_volume (Cache.__setitem__ _ _) => by apply keeps_cache_setitem
  | |- keeps_volume (cache_mesh _ _ _) => apply keeps_cache_mesh
  | |- keeps_volume self_unit_sphere => apply keeps_unit_sphere
  | |- keeps_volume self_unit_box => apply keeps_unit_box
  | |- keeps_volume (modify (with_unit_sphere _)) => apply keeps_modify_unit_sphere
  | |- keeps_volume (modify (with_unit_box _)) => apply keeps_modify_unit_box
  | |- keeps_volume (modify (with_primitive_data _)) =>
      apply keeps_modify_primitive_data
  | |- keeps_volume (try_except _ _) => apply keeps_try_except
  | |- keeps_volume (for_each _ _) => apply keeps_for_each; intros ? ?
  | |- keeps_volume (match ?x with _ => _ end) => destruct x
  | |- keeps_volume (if ?b then _ else _) => destruct b
  | |- keeps_volume ?m => let h := head_of m in progress unfold h
  end.

Ltac keeps := repeat keeps_step.

Lemma keeps_primitive_init : keeps_volume _Primitive.__init__.
Proof. unfold _Primitive.__init__. keeps. Qed.

Lemma keeps_create_mesh `{Collaborators} : keeps_volume _create_mesh.
Proof. keeps. Qed.

Lemma keeps_read `{Collaborators} (k : slot) : keeps_volume (read k).
Proof.
  destruct k; unfold read, read_with;
    repeat first [apply keeps_create_mesh | keeps_step].
Qed.

Lemma keeps_primitive_attributes_setattr (key : string) (a : attr) :
  keeps_volume (_PrimitiveAttributes.__setattr__ key a).
Proof.
  keeps.
Qed.

Lemma keeps_primitive_attributes_getattr `{Collaborators} (key : string) :
  keeps_volume (_PrimitiveAttributes.getattr key).
Proof.
  keeps.
Qed.

Lemma keeps_cylinder_init `{Collaborators} (kwargs : gmap string value) :
  keeps_volume (Cylinder.__init__ kwargs).
Proof.
  keeps.
Qed.

Lemma keeps_sphere_init `{Collaborators} (kwargs : gmap string value) :
  keeps_volume (Sphere.__init__ kwargs).
Proof.
  keeps.
Qed.

Lemma keeps_box_init `{Collaborators} (kwargs : gmap string value) :
  keeps_volume (Box.__init__ kwargs).
Proof.
  keeps.
Qed.

Lemma keeps_extrusion_init `{Collaborators} (kwargs : gmap string value) :
  keeps_volume (Extrusion.__init__ kwargs).
Proof.
  keeps.
Qed.

Lemma construct_kept `{Collaborators} (c : pycls) (kwargs : gmap string value) :
  volume_kept (allocate c) (after (construct c kwargs)).
Proof.
  destruct c; simpl.
  - apply keeps_primitive_init.
  - apply keeps_cylinder_init.
  - apply keeps_sphere_init.
  - apply keeps_box_init.
  - apply keeps_extrusion_init.
Qed.

(** Every method but [volume] keeps the cached volume. *)
Lemma keeps_method `{Collaborators} (c : pycls) (op : call) (m : M unit) :
  method c op = Some m -> op <> Volume -> keeps_volume m.
Proof.
  intros Hm Hop.
  destruct op; try contradiction;
    destruct c; simpl in Hm; try discriminate; injection Hm as <-;
    unfold ignore;
    repeat first [apply keeps_read | apply keeps_create_mesh | keeps_step].
Qed.

(** The bodies of [volume] read the parameters and change nothing. *)
Lemma sphere_radius_reads (s : obj) :
  Sphere.sphere_radius s
  = Outcome (match default VNone (_data s !! "radius") with
             | VNone => inr (VFloat 1)
             | stored => getitem0 stored
             end) s [].
Proof.
  unfold Sphere.sphere_radius.
  rewrite (bind_pure _ _ s (default VNone (_data s !! "radius"))) by reflexivity.
  destruct (default VNone (_data s !! "radius")) as [| | |l|m|l|m| |l]; try reflexivity;
    simpl; unfold lift.
  - by destruct l.
  - by destruct m.
  - by destruct l.
  - by destruct m.
  - by destruct l as [|[p|] l].
Qed.

Lemma sphere_volume_body_runs (s : obj) :
  Sphere.volume_body s
  = Outcome (match result (Sphere.sphere_radius s) with
             | inr radius => elementwise (fun r => 4 * PI * r ^ 3 / 3)%R radius
             | inl e => inl e
             end) s [].
Proof.
  unfold Sphere.volume_body.
  rewrite (bind_reads _ _ s _ (sphere_radius_reads s)).
  rewrite sphere_radius_reads. cbn [result].
  destruct (match default VNone (_data s !! "radius") with
            | VNone => inr (VFloat 1)
            | stored => getitem0 stored
            end) as [e|radius]; [reflexivity|apply lift_runs].
Qed.

Lemma sphere_volume_body_reads (s : obj) :
  exists r, Sphere.volume_body s = Outcome r s []
            /\ forall s', _data s' = _data s -> Sphere.volume_body s' = Outcome r s' [].
Proof.
  eexists. split; [apply sphere_volume_body_runs|].
  intros s' Hdata. rewrite sphere_volume_body_runs, !sphere_radius_reads.
  cbn [result]. by rewrite Hdata.
Qed.

Lemma box_extents_reads (s : obj) :
  Box.box_extents s
  = Outcome (inr (if util.is_shape (default VNone (_data s !! "box_extents")) [3%Z]
                  then default VNone (_data s !! "box_extents")
                  else VVec (np_ones 3))) s [].
Proof.
  unfold Box.box_extents.
  rewrite (bind_pure _ _ s (default VNone (_data s !! "box_extents"))) by reflexivity.
  by destruct (util.is_shape _ _).
Qed.

Lemma box_volume_body_runs (s : obj) :
  Box.volume_body s
  = Outcome (match result (Box.box_extents s) with
             | inr extents =>
                 match float_product extents with
                 | inr volume => inr (VFloat volume)
                 | inl e => inl e
                 end
             | inl e => inl e
             end) s [].
Proof.
  unfold Box.volume_body.
  rewrite (bind_reads _ _ s _ (box_extents_reads s)).
  rewrite box_extents_reads. cbn [result].
  rewrite (bind_reads _ _ s _ (lift_runs _ s)).
  by destruct (float_product _).
Qed.

Lemma box_volume_body_reads (s : obj) :
  exists r, Box.volume_body s = Outcome r s []
            /\ forall s', _data s' = _data s -> Box.volume_body s' = Outcome r s' [].
Proof.
  eexists. split; [apply box_volume_body_runs|].
  intros s' Hdata. rewrite box_volume_body_runs, !box_extents_reads.
  cbn [result]. by rewrite Hdata.
Qed.

Lemma volume_body_reads (c : pycls) (body : M value) (s : obj) :
  volume_body_of c = Some body ->
  exists r, body s = Outcome r s []
            /\ forall s', _data s' = _data s -> body s' = Outcome r s' [].
Proof.
  destruct c; simpl; try discriminate; intros [= <-].
  - apply sphere_volume_body_reads.
  - apply box_volume_body_reads.
Qed.

Lemma volume_kept_coherent (s s' : obj) :
  volume_kept s s' -> volume_coherent s -> volume_coherent s'.
Proof.
  intros [Hclass Hkept] Hs body v Hbody Hcached.
  destruct Hkept as [[Hdata Hvolume]|Hnone]; [|congruence].
  rewrite Hclass in Hbody. rewrite Hvolume in Hcached.
  destruct (volume_body_reads _ _ s Hbody) as (r & Hr & Hsame).
  rewrite (Hsame s' Hdata). simpl.
  specialize (Hs body v Hbody Hcached). rewrite Hr in Hs. exact Hs.
Qed.

(** What the decorated [volume] does, from what its body gives. *)
Lemma cache_decorator_runs (body : M value) (s : obj) (r : exn + value) :
  body s = Outcome r s [] ->
  util.cache_decorator "volume" body s
  = match _cache s !! "volume", r with
    | Some v, _ => Outcome (inr v) s []
    | None, inr v => Outcome (inr v) (with_cache (<["volume" := v]> (_cache s)) s) []
    | None, inl e => Outcome (inl e) s []
    end.
Proof.
  intros Hbody. unfold util.cache_decorator.
  rewrite (bind_pure _ _ s (bool_decide (is_Some (_cache s !! "volume")))) by reflexivity.
  destruct (_cache s !! "volume") as [v|] eqn:Hcached.
  - rewrite bool_decide_eq_true_2 by (by eexists).
    rewrite cache_getitem, Hcached. reflexivity.
  - rewrite bool_decide_eq_false_2 by (by intros [? ?]).
    unfold bind. rewrite Hbody. by destruct r.
Qed.

Lemma volume_method_coherent `{Collaborators} (s : obj) (m : M unit) :
  method (class_of s) Volume = Some m ->
  volume_coherent s -> volume_coherent (after (m s)).
Proof.
  intros Hm Hs.
  assert (exists body, volume_body_of (class_of s) = Some body
                       /\ m = ignore (util.cache_decorator "volume" body))
    as (body & Hbody & ->).
  { destruct (class_of s); simpl in Hm; try discriminate; injection Hm as <-;
      eexists; split; reflexivity. }
  destruct (volume_body_reads _ _ s Hbody) as (r & Hr & Hsame).
  unfold ignore, bind. rewrite (cache_decorator_runs _ _ _ Hr).
  destruct (_cache s !! "volume") as [v|] eqn:Hcached; simpl; [exact Hs|].
  destruct r as [e|v]; simpl; [exact Hs|].
  intros body' v' Hbody' Hcached'. simpl in *.
  rewrite lookup_insert_eq in Hcached'. injection Hcached' as <-.
  assert (body' = body) as -> by congruence.
  rewrite (Hsame (with_cache (<["volume" := v]> (_cache s)) s) eq_refl).
  reflexivity.
Qed.

(** On every object a program can hold, the cached volume is current. *)
Lemma reachable_volume_coherent `{Collaborators} (s : obj) :
  reachable s -> volume_coherent s.
Proof.
  induction 1 as [c kwargs _|s op m _ IH Hm].
  - apply (volume_kept_coherent (allocate c)); [apply construct_kept|].
    intros body v _ Hcached. discriminate.
  - assert (op = Volume \/ op <> Volume) as [->|Hop]
      by (destruct op; (by left) || (by right)).
    + by apply volume_method_coherent.
    + eapply volume_kept_coherent; [|exact IH].
      by apply (keeps_method _ _ _ Hm).
Qed.

(** C6: on every sphere a program can hold, [volume] returns 4/3 * pi *
    r^3 for the radius r that [sphere_radius] returns, whether or not a
    volume was cached before; and after [sphere_radius = x], the radius read
    is x and [volume] returns 4/3 * pi * x^3: (4/3) * pi * 8 for the radius
    2.0 and (4/3) * pi * 27 once the radius is set to 3.0. *)
Theorem sphere_volume_current `{Collaborators} (s : obj) (r : R) :
  reachable s ->
  class_of s = Sphere_cls ->
  result (Sphere.sphere_radius s) = inr (VFloat r) ->
  result (Sphere.volume s) = inr (VFloat (4 / 3 * PI * r ^ 3))
  /\ (forall (v : value) (x : R),
        float v = inr x ->
        let s' := after (Sphere.set_sphere_radius v s) in
        result (Sphere.set_sphere_radius v s) = inr tt
        /\ result (Sphere.sphere_radius s') = inr (VFloat x)
        /\ result (Sphere.volume s') = inr (VFloat (4 / 3 * PI * x ^ 3))).
Proof.
  intros Hreach Hclass Hradius.
  assert (forall x : R, VFloat (4 * PI * x ^ 3 / 3) = VFloat (4 / 3 * PI * x ^ 3))
    as Hformula by (intros x; f_equal; field).
  split.
  - pose proof (sphere_volume_body_runs s) as Hbody.
    rewrite Hradius in Hbody. cbn [elementwise] in Hbody.
    unfold Sphere.volume. rewrite (cache_decorator_runs _ _ _ Hbody).
    destruct (_cache s !! "volume") as [v|] eqn:Hcached; cbn [result].
    + pose proof (reachable_volume_coherent s Hreach Sphere.volume_body v) as Hv.
      rewrite Hclass in Hv. specialize (Hv eq_refl Hcached).
      rewrite Hbody in Hv. cbn [result] in Hv. rewrite <- Hv. f_equal. apply Hformula.
    + f_equal. apply Hformula.
  - intros v x Hx s'.
    assert (Sphere.set_sphere_radius v s
            = Outcome (inr tt)
                (with_cache ∅ (with_data (<["radius" := VVec [x]]> (_data s)) s))
                []) as Hset.
    { unfold Sphere.set_sphere_radius.
      rewrite (bind_pure _ _ s x) by (rewrite Hx; reflexivity). reflexivity. }
    subst s'. rewrite Hset. cbn [result after]. split; [reflexivity|].
    assert (result (Sphere.sphere_radius
                      (with_cache ∅ (with_data (<["radius" := VVec [x]]> (_data s)) s)))
            = inr (VFloat x)) as Hget.
    { rewrite sphere_radius_reads. cbn [result _data with_cache with_data].
      rewrite lookup_insert_eq. reflexivity. }
    split; [exact Hget|].
    pose proof (sphere_volume_body_runs
                  (with_cache ∅ (with_data (<["radius" := VVec [x]]> (_data s)) s)))
      as Hbody.
    rewrite Hget in Hbody. cbn [elementwise] in Hbody.
    unfold Sphere.volume. rewrite (cache_decorator_runs _ _ _ Hbody).
    cbn [_cache with_cache with_data]. rewrite lookup_empty. cbn [result].
    f_equal. apply Hformula.
Qed.

Lemma sphere_volume_current_witness :
  let s0 := after (construct (H := sample_collaborators) Sphere_cls
                     {["sphere_radius" := VFloat 2]}) in
  let s := after (ignore Sphere.volume s0) in
  let s' := after (Sphere.set_sphere_radius (VFloat 3) s) in
  _cache s !! "volume" = Some (VFloat (4 * PI * 2 ^ 3 / 3))
  /\ result (Sphere.volume s) = inr (VFloat (4 / 3 * PI * 8))
  /\ result (Sphere.volume s') = inr (VFloat (4 / 3 * PI * 27)).
Proof.
  intros s0 s s'.
  assert (reachable (H := sample_collaborators) s) as Hreach.
  { apply (reachable_call (H := sample_collaborators) s0 Volume (ignore Sphere.volume)).
    - apply (reachable_construct (H := sample_collaborators) Sphere_cls
               {["sphere_radius" := VFloat 2]}).
      reflexivity.
    - reflexivity. }
  destruct (sphere_volume_current (H := sample_collaborators) s 2 Hreach eq_refl eq_refl)
    as [Hvolume Hset].
  destruct (Hset (VFloat 3) 3%R eq_refl) as (_ & _ & Hvolume').
  split; [reflexivity|].
  split.
  - rewrite Hvolume. do 2 f_equal. simpl. lra.
  - fold s' in Hvolume'. rewrite Hvolume'. do 2 f_equal. simpl. lra.
Defined.

(** C9: on every box a program can hold, [volume] returns the product of
    the three extents that [box_extents] returns, whether or not a volume
    was cached before; after [box_extents = (x, y, z)] it returns x * y * z;
    and the volume of Box(box_extents=(2,3,4)) is 24. *)
Theorem box_volume_current `{Collaborators} (s : obj) (a b c : R) :
  reachable s ->
  class_of s = Box_cls ->
  result (Box.box_extents s) = inr (VVec [a; b; c]) ->
  result (Box.volume s) = inr (VFloat (a * b * c))
  /\ (forall x y z : R,
        let s' := after (Box.set_box_extents (VVec [x; y; z]) s) in
        result (Box.set_box_extents (VVec [x; y; z]) s) = inr tt
        /\ result (Box.box_extents s') = inr (VVec [x; y; z])
        /\ result (Box.volume s') = inr (VFloat (x * y * z)))
  /\ (let s0 := after (construct Box_cls {["box_extents" := VIVec [2; 3; 4]%Z]}) in
      result (Box.volume s0) = inr (VFloat 24)).
Proof.
  intros Hreach Hclass Hextents.
  assert (forall x y z : R, VFloat (np_product [x; y; z]) = VFloat (x * y * z))
    as Hproduct by (intros x y z; unfold np_product; simpl; f_equal; ring).
  assert (forall s1 x y z,
            result (Box.box_extents s1) = inr (VVec [x; y; z]) ->
            Box.volume_body s1 = Outcome (inr (VFloat (x * y * z))) s1 []) as Hbody.
  { intros s1 x y z Hs1. rewrite box_volume_body_runs, Hs1.
    cbn [float_product]. by rewrite Hproduct. }
  assert (forall s1 x y z,
            _cache s1 !! "volume" = None ->
            result (Box.box_extents s1) = inr (VVec [x; y; z]) ->
            result (Box.volume s1) = inr (VFloat (x * y * z))) as Hfresh.
  { intros s1 x y z Hnone Hs1. unfold Box.volume.
    rewrite (cache_decorator_runs _ _ _ (Hbody _ _ _ _ Hs1)), Hnone. reflexivity. }
  split; [|split].
  - unfold Box.volume. rewrite (cache_decorator_runs _ _ _ (Hbody _ _ _ _ Hextents)).
    destruct (_cache s !! "volume") as [v|] eqn:Hcached; cbn [result]; [|reflexivity].
    pose proof (reachable_volume_coherent s Hreach Box.volume_body v) as Hv.
    rewrite Hclass in Hv. specialize (Hv eq_refl Hcached).
    rewrite (Hbody _ _ _ _ Hextents) in Hv. cbn [result] in Hv. by rewrite <- Hv.
  - intros x y z s'. subst s'. split; [reflexivity|].
    assert (result (Box.box_extents (after (Box.set_box_extents (VVec [x; y; z]) s)))
            = inr (VVec [x; y; z])) as Hget.
    { rewrite box_extents_reads. cbn. rewrite lookup_insert_eq. reflexivity. }
    split; [exact Hget|]. apply Hfresh; [reflexivity|exact Hget].
  - intros s0.
    replace 24%R with (2 * 3 * 4)%R by lra.
    apply Hfresh; reflexivity.
Qed.

Lemma box_volume_current_witness :
  let s0 := after (construct (H := sample_collaborators) Box_cls
                     {["box_extents" := VIVec [2; 3; 4]%Z]}) in
  let s := after (ignore Box.volume s0) in
  let s' := after (Box.set_box_extents (VVec [1; 2; 5]%R) s) in
  _cache s !! "volume" = Some (VFloat (1 * 2 * 3 * 4))
  /\ result (Box.volume s) = inr (VFloat 24)
  /\ result (Box.volume s') = inr (VFloat 10).
Proof.
  intros s0 s s'.
  assert (reachable (H := sample_collaborators) s) as Hreach.
  { apply (reachable_call (H := sample_collaborators) s0 Volume (ignore Box.volume)).
    - apply (reachable_construct (H := sample_collaborators) Box_cls
               {["box_extents" := VIVec [2; 3; 4]%Z]}).
      reflexivity.
    - reflexivity. }
  destruct (box_volume_current (H := sample_collaborators) s 2 3 4 Hreach eq_refl eq_refl)
    as (Hvolume & Hset & _).
  destruct (Hset 1%R 2%R 5%R) as (_ & _ & Hvolume').
  split; [reflexivity|].
  split.
  - rewrite Hvolume. do 2 f_equal. lra.
  - fold s' in Hvolume'. rewrite Hvolume'. do 2 f_equal. lra.
Defined.

(** ** The attribute store (C4) *)

Lemma dict_reads (s : obj) (d : gmap string attr) :
  primitive_data s = Some d ->
  _PrimitiveAttributes.__dict__ s = Outcome (inr d) s [].
Proof. intros Hd. unfold _PrimitiveAttributes.__dict__. run. by rewrite Hd. Qed.

Lemma object_setattr_runs (s : obj) (d : gmap string attr) (key : string) (a : attr) :
  primitive_data s = Some d ->
  _PrimitiveAttributes.object_setattr key a s
  = Outcome (inr tt) (with_primitive_data (<[key := a]> d) s) [].
Proof.
  intros Hd. unfold _PrimitiveAttributes.object_setattr.
  by rewrite (bind_pure _ _ s d (dict_reads s d Hd)).
Qed.

Lemma defaults_reads (s : obj) (d : gmap string attr) (defaults : gmap string value) :
  primitive_data s = Some d ->
  d !! "_defaults" = Some (ADict defaults) ->
  _PrimitiveAttributes._defaults s = Outcome (inr defaults) s [].
Proof.
  intros Hd Hdefaults. unfold _PrimitiveAttributes._defaults.
  rewrite (bind_pure _ _ s d (dict_reads s d Hd)). by rewrite Hdefaults.
Qed.

Lemma data_setitem_runs (s : obj) (d : gmap string attr) (key : string) (v : value) :
  primitive_data s = Some d ->
  d !! "_data" = Some ADataStore ->
  _PrimitiveAttributes._data_setitem key v s = DataStore.__setitem__ key v s.
Proof.
  intros Hd Hdata. unfold _PrimitiveAttributes._data_setitem.
  rewrite (bind_pure _ _ s d (dict_reads s d Hd)). by rewrite Hdata.
Qed.

(** The loop of [__init__] over the keyword arguments. *)
Lemma init_loop `{Collaborators} (defaults : gmap string value)
    (items : list (string * value)) (s : obj) (d : gmap string attr) :
  let body := fun key value =>
    match defaults !! key with
    | Some like =>
        v <- lift (convert_like value like) ;;
        _PrimitiveAttributes._data_setitem key v
    | None => ret tt
    end in
  primitive_data s = Some d ->
  d !! "_data" = Some ADataStore ->
  NoDup items.*1 ->
  (forall key value like,
     (key, value) ∈ items -> defaults !! key = Some like ->
     exists v, convert_like value like = inr v) ->
  exists s',
    for_each items body s = Outcome (inr tt) s' []
    /\ primitive_data s' = Some d
    /\ (forall key value like,
          (key, value) ∈ items -> defaults !! key = Some like ->
          exists v, convert_like value like = inr v
                    /\ _data s' !! key = Some (tracked_array v))
    /\ (forall key,
          key ∉ items.*1 \/ defaults !! key = None ->
          _data s' !! key = _data s !! key).
Proof.
  intros body Hd Hdata. revert s Hd.
  induction items as [|[k value] items IH]; intros s Hd Hnodup Hconv.
  - exists s. split; [reflexivity|]. split; [exact Hd|]. split.
    + intros key value like Hin. by apply elem_of_nil in Hin.
    + reflexivity.
  - simpl in Hnodup. apply NoDup_cons in Hnodup as [Hfresh Hnodup].
    simpl.
    assert (exists s1,
              body k value s = Outcome (inr tt) s1 []
              /\ primitive_data s1 = Some d
              /\ (forall like, defaults !! k = Some like ->
                    exists v, convert_like value like = inr v
                              /\ _data s1 !! k = Some (tracked_array v))
              /\ (forall key, key <> k \/ defaults !! k = None ->
                    _data s1 !! key = _data s !! key)) as (s1 & Hrun & Hd1 & Hset & Hother).
    { subst body. cbn beta. destruct (defaults !! k) as [like|] eqn:Hlike.
      - destruct (Hconv k value like) as (v & Hv); [by left|exact Hlike|].
        eexists. split.
        + rewrite (bind_pure _ _ s v) by (rewrite Hv; reflexivity).
          rewrite (data_setitem_runs s d) by assumption. reflexivity.
        + split; [exact Hd|]. split.
          * intros like' [= <-]. exists v. split; [exact Hv|].
            simpl. by rewrite lookup_insert_eq.
          * intros key [Hne|Hnone]; [|discriminate].
            simpl. by rewrite lookup_insert_ne.
      - exists s. split; [reflexivity|]. split; [exact Hd|].
        split; [discriminate|reflexivity]. }
    destruct (IH s1 Hd1 Hnodup) as (s' & Hloop & Hd' & Hin' & Hout').
    { intros key value' like Hin. apply Hconv. by right. }
    exists s'. split.
    { rewrite (bind_returns _ _ s s1 tt [] Hrun). by rewrite Hloop. }
    split; [exact Hd'|]. split.
    + intros key value' like Hin Hlike.
      apply elem_of_cons in Hin as [[= -> ->]|Hin].
      * destruct (Hset like Hlike) as (v & Hv & Hstored).
        exists v. split; [exact Hv|].
        rewrite Hout'; [exact Hstored|]. by left.
      * by apply Hin'.
    + intros key Hkey.
      assert (key ∉ items.*1 \/ defaults !! key = None) as Hrest.
      { destruct Hkey as [Hnotin|Hnone]; [left|by right].
        intros Hin. apply Hnotin. simpl. by right. }
      rewrite (Hout' key Hrest). apply Hother.
      destruct Hkey as [Hnotin|Hnone].
      * left. intros ->. apply Hnotin. simpl. by left.
      * destruct (decide (key = k)) as [->|Hne]; [by right|by left].
Qed.

Lemma setattr_runs (s : obj) (d : gmap string attr)
    (defaults : gmap string value) (key : string) (a : attr) :
  primitive_data s = Some d ->
  (contains_underscore key = true ->
   _PrimitiveAttributes.__setattr__ key a s
   = Outcome (inr tt) (with_primitive_data (<[key := a]> d) s) [])
  /\ (contains_underscore key = false ->
      d !! "_defaults" = Some (ADict defaults) ->
      defaults !! key = None ->
      _PrimitiveAttributes.__setattr__ key a s
      = Outcome (inl (Raise ValueError "Only default attributes {} can be set!")) s [])
  /\ (contains_underscore key = false ->
      d !! "_defaults" = Some (ADict defaults) ->
      d !! "_data" = Some ADataStore ->
      is_Some (defaults !! key) ->
      forall v, a = AValue v ->
      _PrimitiveAttributes.__setattr__ key a s = DataStore.__setitem__ key v s).
Proof.
  intros Hd. unfold _PrimitiveAttributes.__setattr__. repeat split.
  - intros ->. by apply object_setattr_runs.
  - intros -> Hdefaults Hnone.
    rewrite (bind_pure _ _ s defaults (defaults_reads s d defaults Hd Hdefaults)).
    rewrite bool_decide_eq_false_2; [reflexivity|].
    rewrite Hnone. by intros [? ?].
  - intros -> Hdefaults Hdata Hsome v ->.
    rewrite (bind_pure _ _ s defaults (defaults_reads s d defaults Hd Hdefaults)).
    rewrite bool_decide_eq_true_2 by exact Hsome.
    by apply (data_setitem_runs s d).
Qed.

(** C4, as amended: on a [_PrimitiveAttributes] with the defaults
    [defaults], assigning to a key that has no underscore and is not one of
    the defaults raises a ValueError and changes nothing, whereas assigning
    to a key that has an underscore is accepted whatever the defaults are
    (it becomes an ordinary attribute of the instance; the store is not
    touched). At construction, when the keyword arguments under default
    keys convert, the constructor succeeds; afterwards the store holds,
    under a default key, the converted keyword argument if there is one and
    the default otherwise, and under every other key what it held before:
    keyword arguments that are not defaults are ignored. *)
Theorem attribute_store `{Collaborators} (s : obj) (defaults : gmap string value) :
  (forall (d : gmap string attr) (key : string) (a : attr),
     primitive_data s = Some d ->
     d !! "_defaults" = Some (ADict defaults) ->
     (contains_underscore key = true ->
      _PrimitiveAttributes.__setattr__ key a s
      = Outcome (inr tt) (with_primitive_data (<[key := a]> d) s) [])
     /\ (contains_underscore key = false ->
         defaults !! key = None ->
         _PrimitiveAttributes.__setattr__ key a s
         = Outcome (inl (Raise ValueError "Only default attributes {} can be set!"))
                   s []))
  /\ (forall kwargs : gmap string value,
        let s' := after (_PrimitiveAttributes.__init__ ADataStore defaults kwargs s) in
        (forall key value like,
           kwargs !! key = Some value -> defaults !! key = Some like ->
           exists v, convert_like value like = inr v) ->
        result (_PrimitiveAttributes.__init__ ADataStore defaults kwargs s) = inr tt
        /\ (forall key value like,
              kwargs !! key = Some value -> defaults !! key = Some like ->
              exists v, convert_like value like = inr v
                        /\ _data s' !! key = Some (tracked_array v))
        /\ (forall key like,
              kwargs !! key = None -> defaults !! key = Some like ->
              _data s' !! key = Some (tracked_array like))
        /\ (forall key,
              defaults !! key = None -> _data s' !! key = _data s !! key)).
Proof.
  split.
  - intros d key a Hd Hdefaults.
    destruct (setattr_runs s d defaults key a Hd) as (Hunder & Hrefused & _).
    split; [exact Hunder|]. intros Hplain Hnone. by apply Hrefused.
  - intros kwargs s' Hconv.
    set (d := <["_defaults" := ADict defaults]> (<["_data" := ADataStore]> (∅ : gmap string attr))).
    set (s4 := with_cache ∅
                 (with_data ((tracked_array <$> defaults) ∪ _data s)
                    (with_primitive_data d s))).
    assert (d !! "_data" = Some ADataStore) as Hdata by reflexivity.
    destruct (init_loop defaults (map_to_list kwargs) s4 d eq_refl Hdata)
      as (s5 & Hloop & _ & Hin & Hout).
    { apply NoDup_fst_map_to_list. }
    { intros key value like Hitem. apply Hconv. by apply elem_of_map_to_list. }
    assert (_PrimitiveAttributes.__init__ ADataStore defaults kwargs s
            = Outcome (inr tt) s5 []) as Hrun.
    { unfold _PrimitiveAttributes.__init__.
      rewrite (bind_returns _ _ s (with_primitive_data ∅ s) tt []) by reflexivity.
      rewrite (bind_returns _ _ _
                 (with_primitive_data (<["_data" := ADataStore]> ∅) s) tt [])
        by reflexivity.
      rewrite (bind_returns _ _ _ (with_primitive_data d s) tt []) by reflexivity.
      rewrite (bind_returns _ _ _ s4 tt []) by reflexivity.
      by rewrite Hloop. }
    subst s'. rewrite Hrun. cbn [result after]. split; [reflexivity|].
    split; [|split].
    + intros key value like Hk Hlike. apply (Hin key value like); [|exact Hlike].
      by apply elem_of_map_to_list.
    + intros key like Hk Hlike. rewrite Hout.
      * subst s4. cbn [_data with_cache with_data].
        apply lookup_union_Some_l. by rewrite lookup_fmap, Hlike.
      * left. intros Hmem. apply list_elem_of_fmap in Hmem as ([k v] & -> & Hitem).
        apply elem_of_map_to_list in Hitem. simpl in Hk. congruence.
    + intros key Hnone. rewrite Hout by (by right).
      subst s4. cbn [_data with_cache with_data with_primitive_data].
      apply lookup_union_r. by rewrite lookup_fmap, Hnone.
Qed.

Lemma attribute_store_witness :
  let kwargs : gmap string value :=
    <["radius" := VFloat 2]> (<["colour" := VInt 7]> ∅) in
  let owner := after (_Primitive.__init__ (allocate Cylinder_cls)) in
  let s := after (_PrimitiveAttributes.__init__ (H := sample_collaborators)
                    ADataStore Cylinder.defaults kwargs owner) in
  result (_PrimitiveAttributes.__init__ (H := sample_collaborators)
            ADataStore Cylinder.defaults kwargs owner) = inr tt
  /\ _data s !! "radius" = Some (VVec [2%R])
  /\ _data s !! "height" = Some (VVec [1%R])
  /\ _data s !! "colour" = None
  /\ result (_PrimitiveAttributes.__setattr__ "colour" (AValue (VInt 7)) s)
     = inl (Raise ValueError "Only default attributes {} can be set!")
  /\ result (_PrimitiveAttributes.__setattr__ "foo_bar" (AValue (VInt 7)) s) = inr tt.
Proof.
  intros kwargs owner s.
  destruct (attribute_store (H := sample_collaborators) owner Cylinder.defaults)
    as [_ Hinit].
  destruct (Hinit kwargs) as (Hrun & Hschema & Hdefault & Hignored).
  { intros key value like Hk Hlike.
    apply lookup_insert_Some in Hk as [[<- <-]|[_ Hk]].
    - vm_compute in Hlike. injection Hlike as <-. by exists (VFloat 2).
    - apply lookup_insert_Some in Hk as [[<- <-]|[_ Hk]].
      + vm_compute in Hlike. discriminate Hlike.
      + rewrite lookup_empty in Hk. discriminate Hk. }
  fold s in Hschema, Hdefault, Hignored.
  destruct (attribute_store (H := sample_collaborators) s Cylinder.defaults)
    as [Hset _].
  assert (primitive_data s
          = Some (<["_defaults" := ADict Cylinder.defaults]>
                    (<["_data" := ADataStore]> ∅))) as Hd
    by (vm_compute; reflexivity).
  assert ((<["_defaults" := ADict Cylinder.defaults]>
            (<["_data" := ADataStore]> (∅ : gmap string attr)))
          !! "_defaults" = Some (ADict Cylinder.defaults)) as Hdefaults
    by apply lookup_insert_eq.
  destruct (Hset _ "colour" (AValue (VInt 7)) Hd Hdefaults) as [_ Hrefused].
  destruct (Hset _ "foo_bar" (AValue (VInt 7)) Hd Hdefaults) as [Haccepted _].
  split; [exact Hrun|].
  split.
  { destruct (Hschema "radius" (VFloat 2) (VFloat 1)) as (v & Hv & Hstored);
      [vm_compute; reflexivity|vm_compute; reflexivity|].
    injection Hv as <-. exact Hstored. }
  split.
  { apply (Hdefault "height" (VFloat 1)); vm_compute; reflexivity. }
  split.
  { rewrite (Hignored "colour") by (vm_compute; reflexivity).
    vm_compute. reflexivity. }
  split.
  - rewrite Hrefused; [reflexivity|reflexivity|vm_compute; reflexivity].
  - rewrite Haccepted; reflexivity.
Defined.

(** C4, as stated, fails: not every key outside the defaults is refused;
    on a cylinder constructed without keyword arguments, assigning to
    [foo_bar] is accepted. *)
Lemma setattr_accepts_underscore_key :
  let s := after (construct (H := sample_collaborators) Cylinder_cls ∅) in
  ~ (forall (key : string) (a : attr),
       Cylinder.defaults !! key = None ->
       exists e, result (_PrimitiveAttributes.__setattr__ key a s) = inl e).
Proof.
  intros s Hfails.
  destruct (Hfails "foo_bar" (AValue (VFloat 1))) as (e & He);
    [vm_compute; reflexivity|].
  vm_compute in He. discriminate He.
Qed.

(** ** Keeping an invariant through a method *)

Section Preserves.
Context (I : obj -> Prop).

Lemma preserves_bind {A B} (m : M A) (f : A -> M B) :
  preserves I m -> (forall a, preserves I (f a)) -> preserves I (bind m f).
Proof.
  intros Hm Hf s Hs. unfold bind. destruct (result (m s)) as [e|a]; simpl.
  - by apply Hm.
  - apply Hf. by apply Hm.
Qed.

Lemma preserves_reads {A} (m : M A) :
  (forall s, after (m s) = s) -> preserves I m.
Proof. intros Hm s Hs. by rewrite Hm. Qed.

Lemma preserves_ret {A} (a : A) : preserves I (ret a).
Proof. by apply preserves_reads. Qed.

Lemma preserves_raise {A} (e : exn) : preserves I (raise (A := A) e).
Proof. by apply preserves_reads. Qed.

Lemma preserves_lift {A} (x : exn + A) : preserves I (lift x).
Proof. destruct x; [apply preserves_raise|apply preserves_ret]. Qed.

Lemma preserves_log (l : level) (msg : string) : preserves I (log l msg).
Proof. by apply preserves_reads. Qed.

Lemma preserves_get : preserves I get.
Proof. by apply preserves_reads. Qed.

Lemma preserves_try_except {A} (m handler : M A) :
  preserves I m -> preserves I handler -> preserves I (try_except m handler).
Proof.
  intros Hm Hh s Hs. unfold try_except. destruct (result (m s)); simpl.
  - apply Hh. by apply Hm.
  - by apply Hm.
Qed.

Lemma preserves_for_each {K V} (items : list (K * V)) (body : K -> V -> M unit) :
  (forall k v, preserves I (body k v)) -> preserves I (for_each items body).
Proof.
  intros Hbody. induction items as [|[k v] items IH]; simpl.
  - apply preserves_ret.
  - apply preserves_bind; [apply Hbody|intros _; exact IH].
Qed.

Lemma preserves_data_getitem (key : string) :
  preserves I (DataStore.__getitem__ key).
Proof. by apply preserves_reads. Qed.

Lemma preserves_cache_getitem (key : string) :
  preserves I (Cache.__getitem__ key).
Proof. by apply preserves_reads. Qed.

Lemma preserves_cache_contains (key : string) :
  preserves I (Cache.__contains__ key).
Proof. by apply preserves_reads. Qed.

Lemma preserves_unit_sphere : preserves I self_unit_sphere.
Proof.
  apply preserves_reads. intros s. unfold self_unit_sphere. run.
  by destruct (_unit_sphere s).
Qed.

Lemma preserves_unit_box : preserves I self_unit_box.
Proof.
  apply preserves_reads. intros s. unfold self_unit_box. run.
  by destruct (_unit_box s).
Qed.

Lemma preserves_dict : preserves I _PrimitiveAttributes.__dict__.
Proof.
  apply preserves_reads. intros s. unfold _PrimitiveAttributes.__dict__. run.
  by destruct (primitive_data s).
Qed.

(** What changes the object, from what each change does to the invariant. *)
Lemma preserves_modify (f : obj -> obj) :
  (forall s, I s -> I (f s)) -> preserves I (modify f).
Proof. intros Hf s Hs. by apply Hf. Qed.
End Preserves.

(** One step through a method: the pure steps by the lemmas above, the
    steps that change the object by the tactic [changes]. *)
Ltac preserves_step changes :=
  lazymatch goal with
  | |- preserves ?I (bind (Cache.__setitem__ "vertices" ?v)
                       (fun _ => bind (Cache.__setitem__ "faces" ?f)
                                   (fun _ => Cache.__setitem__ "face_normals" ?n))) =>
      change (preserves I (cache_mesh v f n))
  | |- preserves _ (cache_mesh _ _ _) => changes
  | |- preserves _ (bind _ _) => apply preserves_bind; [|intros ?]
  | |- preserves _ (ret _) => apply preserves_ret
  | |- preserves _ (raise _) => apply preserves_raise
  | |- preserves _ (lift _) => apply preserves_lift
  | |- preserves _ (log _ _) => apply preserves_log
  | |- preserves _ get => apply preserves_get
  | |- preserves _ (DataStore.__getitem__ _) => apply preserves_data_getitem
  | |- preserves _ (Cache.__getitem__ _) => apply preserves_cache_getitem
  | |- preserves _ (Cache.__contains__ _) => apply preserves_cache_contains
  | |- preserves _ self_unit_sphere => apply preserves_unit_sphere
  | |- preserves _ self_unit_box => apply preserves_unit_box
  | |- preserves _ _PrimitiveAttributes.__dict__ => apply preserves_dict
  | |- preserves _ (try_except _ _) => apply preserves_try_except
  | |- preserves _ (for_each _ _) => apply preserves_for_each; intros ? ?
  | |- preserves _ (modify _) => changes
  | |- preserves _ (DataStore.__setitem__ _ _) => changes
  | |- preserves _ DataStore.clear => changes
  | |- preserves _ (DataStore.update _) => changes
  | |- preserves _ Trimesh.__init__ => changes
  | |- preserves _ (Cache.__setitem__ _ _) => changes
  | |- preserves _ (match ?x with _ => _ end) => destruct x
  | |- preserves _ (if ?b then _ else _) => destruct b
  | |- preserves _ ?m => let h := head_of m in progress unfold h
  end.

Ltac preserves_by changes := repeat preserves_step changes.

(** Methods that change nothing. *)
Ltac reads_only := preserves_by ltac:(fail).

Lemma unchanged_after {A} (m : M A) (s : obj) :
  (forall s0, preserves (eq s0) m) -> after (m s) = s.
Proof. intros Hm. symmetry. by apply (Hm s s). Qed.

(** ** Matrices of four rows and four columns *)

Lemma matrix44_entries (m : list (list R)) :
  length m = 4 -> Forall (fun r => length r = 4) m ->
  exists a0 a1 a2 a3 b0 b1 b2 b3 c0 c1 c2 c3 d0 d1 d2 d3 : R,
    m = [[a0; a1; a2; a3]; [b0; b1; b2; b3]; [c0; c1; c2; c3]; [d0; d1; d2; d3]].
Proof.
  intros Hlen Hrows.
  destruct m as [|r0 [|r1 [|r2 [|r3 [|]]]]]; try discriminate.
  apply Forall_cons in Hrows as [H0 Hrows]. apply Forall_cons in Hrows as [H1 Hrows].
  apply Forall_cons in Hrows as [H2 Hrows]. apply Forall_cons in Hrows as [H3 _].
  destruct r0 as [|? [|? [|? [|? [|]]]]]; try discriminate.
  destruct r1 as [|? [|? [|? [|? [|]]]]]; try discriminate.
  destruct r2 as [|? [|? [|? [|? [|]]]]]; try discriminate.
  destruct r3 as [|? [|? [|? [|? [|]]]]]; try discriminate.
  by repeat eexists.
Qed.

Lemma float_matrix44_entries (m : list (list R)) :
  np_shape (VMat m) = [4; 4] ->
  exists a0 a1 a2 a3 b0 b1 b2 b3 c0 c1 c2 c3 d0 d1 d2 d3 : R,
    m = [[a0; a1; a2; a3]; [b0; b1; b2; b3]; [c0; c1; c2; c3]; [d0; d1; d2; d3]].
Proof.
  intros Hshape. destruct (shape_44_matrix _ Hshape) as (m' & [= <-] & Hlen & Hrows).
  by apply matrix44_entries.
Qed.

(** Equal lists of reals, and of rows of reals, entry by entry. *)
Ltac entries :=
  repeat match goal with
         | |- @eq (list _) (_ :: _) (_ :: _) => f_equal
         | |- @eq R _ _ => ring
         end.

Lemma box_transform_shape (s : obj) :
  exists t, Box.box_transform s = Outcome (inr t) s [] /\ np_shape t = [4; 4].
Proof.
  unfold Box.box_transform.
  rewrite (bind_pure _ _ s (default VNone (_data s !! "box_transform"))) by reflexivity.
  destruct (util.is_shape _ _) eqn:Hshape.
  - eexists. split; [reflexivity|]. by apply (is_shape_2d _ 4 4).
  - by exists (VMat (np_eye 4)).
Qed.

(** ** The transform setters *)

(** X1: the setters of [box_transform] and [extrude_transform] take what
    converts to a float array of shape (4,4), which the getter then returns;
    an array of another shape raises the ValueError "Matrix must be (4,4)!",
    rows of differing length raise the ValueError of the conversion, and in
    both cases the object is left as it was. *)
Theorem transform_setters_validate (s : obj) (matrix : value) :
  (forall rows, matrix = VMat rows -> rectangular rows = false ->
     let e := Raise ValueError "setting an array element with a sequence." in
     Box.set_box_transform matrix s = Outcome (inl e) s []
     /\ Extrusion.set_extrude_transform matrix s = Outcome (inl e) s [])
  /\ (forall a, asanyarray_float64 matrix = inr a -> np_shape a <> [4; 4] ->
        let e := Raise ValueError "Matrix must be (4,4)!" in
        Box.set_box_transform matrix s = Outcome (inl e) s []
        /\ Extrusion.set_extrude_transform matrix s = Outcome (inl e) s [])
  /\ (forall a, asanyarray_float64 matrix = inr a -> np_shape a = [4; 4] ->
        let b := after (Box.set_box_transform matrix s) in
        let x := after (Extrusion.set_extrude_transform matrix s) in
        result (Box.set_box_transform matrix s) = inr tt
        /\ Box.box_transform b = Outcome (inr a) b []
        /\ result (Extrusion.set_extrude_transform matrix s) = inr tt
        /\ Extrusion.extrude_transform x = Outcome (inr a) x []).
Proof.
  unfold Box.set_box_transform, Extrusion.set_extrude_transform.
  split; [|split].
  - intros rows -> Hrows. cbn zeta.
    rewrite !(bind_reads _ _ s _ (lift_runs _ s)). cbn [asanyarray_float64].
    rewrite Hrows. by split.
  - intros a Ha Hshape. cbn zeta. rewrite !(bind_reads _ _ s _ (lift_runs _ s)), Ha.
    rewrite (bool_decide_eq_false_2 _ Hshape). by split.
  - intros a Ha Hshape. rewrite !(bind_reads _ _ s _ (lift_runs _ s)), Ha.
    rewrite (bool_decide_eq_true_2 _ Hshape). cbn [negb].
    assert (tracked_array a = a) as Harray.
    { destruct a; simpl in Hshape; try discriminate; reflexivity. }
    cbn zeta. split; [reflexivity|]. split; [|split; [reflexivity|]].
    + unfold Box.box_transform.
      rewrite (bind_pure _ _ _ a)
        by (unfold DataStore.__getitem__; run; by rewrite lookup_insert_eq, Harray).
      assert (util.is_shape a [4; 4]%Z = true) as ->
        by (by apply (is_shape_2d a 4 4)).
      reflexivity.
    + unfold Extrusion.extrude_transform.
      rewrite (bind_pure _ _ _ a)
        by (unfold DataStore.__getitem__; run; by rewrite lookup_insert_eq, Harray).
      by rewrite (bool_decide_eq_true_2 _ Hshape).
Qed.

Lemma transform_setters_validate_witness :
  let s := after (construct (H := sample_collaborators) Box_cls ∅) in
  let flip := VIMat [[1; 0; 0; 0]; [0; 1; 0; 0]; [0; 0; -1; 0]; [0; 0; 0; 1]]%Z in
  Box.set_box_transform (VMat [[1; 2]; [3]]%R) s
  = Outcome (inl (Raise ValueError "setting an array element with a sequence.")) s []
  /\ Box.set_box_transform (VVec [1; 2; 3]%R) s
     = Outcome (inl (Raise ValueError "Matrix must be (4,4)!")) s []
  /\ result (Box.box_transform (after (Box.set_box_transform flip s)))
     = inr (VMat [[1; 0; 0; 0]; [0; 1; 0; 0]; [0; 0; -1; 0]; [0; 0; 0; 1]]%R).
Proof.
  intros s flip.
  destruct (transform_setters_validate s (VMat [[1; 2]; [3]]%R)) as (Hbad & _ & _).
  destruct (transform_setters_validate s (VVec [1; 2; 3]%R)) as (_ & Hshape & _).
  destruct (transform_setters_validate s flip) as (_ & _ & Hgood).
  split; [exact (proj1 (Hbad _ eq_refl eq_refl))|].
  split.
  - apply (Hshape (VVec [1; 2; 3]%R) eq_refl). discriminate.
  - destruct (Hgood _ eq_refl eq_refl) as (_ & Hread & _). by rewrite Hread.
Defined.

(** ** The centre and the orientation of a box *)

Lemma box_transform_float44 (s : obj) (m : list (list R)) :
  result (Box.box_transform s) = inr (VMat m) ->
  Box.box_transform s = Outcome (inr (VMat m)) s []
  /\ exists a0 a1 a2 a3 b0 b1 b2 b3 c0 c1 c2 c3 d0 d1 d2 d3 : R,
       m = [[a0; a1; a2; a3]; [b0; b1; b2; b3]; [c0; c1; c2; c3]; [d0; d1; d2; d3]].
Proof.
  intros Hm. destruct (box_transform_shape s) as (t & Hget & Hshape).
  rewrite Hget in Hm. injection Hm as ->. split; [exact Hget|].
  by apply float_matrix44_entries.
Qed.

Lemma set_box_center_runs (s : obj) (m : list (list R)) (x y z : R) :
  result (Box.box_transform s) = inr (VMat m) ->
  Box.set_box_center (VVec [x; y; z]) s
  = DataStore.__setitem__ "box_transform" (VMat (set_column3 [x; y; z] m)) s.
Proof.
  intros Hm. destruct (box_transform_float44 s m Hm) as [Hget _].
  unfold Box.set_box_center. rewrite (bind_pure _ _ s _ Hget).
  by rewrite (bind_pure _ _ s (x, y, z)) by reflexivity.
Qed.

Lemma set_box_center_transform (s : obj) (m : list (list R)) (x y z : R) :
  let s' := after (Box.set_box_center (VVec [x; y; z]) s) in
  result (Box.box_transform s) = inr (VMat m) ->
  result (Box.set_box_center (VVec [x; y; z]) s) = inr tt
  /\ exists m',
       Box.box_transform s' = Outcome (inr (VMat m')) s' []
       /\ column3 m' = [x; y; z]
       /\ block33 m' = block33 m
       /\ drop 3 m' = drop 3 m.
Proof.
  intros s' Hm. subst s'. rewrite (set_box_center_runs s m x y z Hm).
  destruct (box_transform_float44 s m Hm)
    as (_ & a0 & a1 & a2 & a3 & b0 & b1 & b2 & b3 & c0 & c1 & c2 & c3
          & d0 & d1 & d2 & d3 & ->).
  split; [reflexivity|].
  exists [[a0; a1; a2; x]; [b0; b1; b2; y]; [c0; c1; c2; z]; [d0; d1; d2; d3]].
  split; [|by repeat split].
  unfold Box.box_transform.
  rewrite (bind_pure _ _ _ (VMat [[a0; a1; a2; x]; [b0; b1; b2; y];
                                  [c0; c1; c2; z]; [d0; d1; d2; d3]]))
    by (unfold DataStore.__getitem__; run; by rewrite lookup_insert_eq).
  reflexivity.
Qed.

(** X2: assigning three numbers to [box_center] of a box with a float
    transform succeeds; afterwards [box_center] returns these numbers, and
    the transform has its rotation block and its last row as before. *)
Theorem box_center_round_trip (s : obj) (m : list (list R)) (x y z : R) :
  let s' := after (Box.set_box_center (VVec [x; y; z]) s) in
  result (Box.box_transform s) = inr (VMat m) ->
  result (Box.set_box_center (VVec [x; y; z]) s) = inr tt
  /\ Box.box_center s' = Outcome (inr (VVec [x; y; z])) s' []
  /\ exists m',
       Box.box_transform s' = Outcome (inr (VMat m')) s' []
       /\ block33 m' = block33 m
       /\ drop 3 m' = drop 3 m.
Proof.
  intros s' Hm.
  destruct (set_box_center_transform s m x y z Hm)
    as (Hset & m' & Hget & Hcolumn & Hblock & Hrow).
  fold s' in Hget. split; [exact Hset|]. split.
  - unfold Box.box_center. rewrite (bind_pure _ _ s' _ Hget). by rewrite Hcolumn.
  - by exists m'.
Qed.

Lemma box_center_round_trip_witness :
  let s := after (construct (H := sample_collaborators) Box_cls ∅) in
  let s' := after (Box.set_box_center (VVec [1; 2; 3]%R) s) in
  result (Box.box_center s') = inr (VVec [1; 2; 3]%R)
  /\ result (Box.box_transform s')
     = inr (VMat [[1; 0; 0; 1]; [0; 1; 0; 2]; [0; 0; 1; 3]; [0; 0; 0; 1]]%R).
Proof.
  intros s s'.
  destruct (box_center_round_trip s (np_eye 4) 1 2 3 eq_refl)
    as (_ & Hcenter & m' & Htransform & _).
  fold s' in Hcenter. rewrite Hcenter. split; [reflexivity|reflexivity].
Defined.

Lemma close_to_itself (y : R) :
  (if Rle_dec (Rabs (y - y)) (1 / 100000000 + 1 / 100000 * Rabs y)
   then true else false) = true.
Proof.
  destruct (Rle_dec _ _) as [_|Hfar]; [reflexivity|]. exfalso. apply Hfar.
  rewrite Rminus_diag, Rabs_R0. pose proof (Rabs_pos y). lra.
Qed.

Lemma is_oriented_runs (s : obj) :
  exists t m,
    result (Box.box_transform s) = inr t
    /\ as_matrix t = inr m
    /\ Box.is_oriented s
       = Outcome (inr (negb (np_allclose (block33 m) (np_eye 3)))) s [].
Proof.
  destruct (box_transform_shape s) as (t & Hget & Hshape).
  destruct (shape_44_matrix _ Hshape) as (m & Hm & _).
  exists t, m. rewrite Hget. split; [reflexivity|]. split; [exact Hm|].
  unfold Box.is_oriented. rewrite (bind_pure _ _ s _ Hget).
  assert (util.is_shape t [4; 4]%Z = true) as -> by (by apply (is_shape_2d t 4 4)).
  rewrite (bind_pure _ _ s _ Hget).
  by rewrite (bind_pure _ _ s m) by (by rewrite Hm).
Qed.

(** X3: [is_oriented] never raises and changes nothing; it is False for a
    box whose transform was never set, and assigning to [box_center] does
    not change it. *)
Theorem is_oriented_rotation_only (s : obj) :
  (exists b, Box.is_oriented s = Outcome (inr b) s [])
  /\ (_data s !! "box_transform" = None -> result (Box.is_oriented s) = inr false)
  /\ (forall (m : list (list R)) (x y z : R),
        result (Box.box_transform s) = inr (VMat m) ->
        result (Box.is_oriented (after (Box.set_box_center (VVec [x; y; z]) s)))
        = result (Box.is_oriented s)).
Proof.
  split; [|split].
  - destruct (is_oriented_runs s) as (t & m & _ & _ & Hrun). by eexists.
  - intros Hunset. destruct (is_oriented_runs s) as (t & m & Hget & Hm & ->).
    assert (Box.box_transform s = Outcome (inr (VMat (np_eye 4))) s []) as Hdefault.
    { unfold Box.box_transform.
      rewrite (bind_pure _ _ s VNone)
        by (unfold DataStore.__getitem__; run; by rewrite Hunset).
      reflexivity. }
    rewrite Hdefault in Hget. injection Hget as <-. injection Hm as <-.
    cbn [result]. do 2 f_equal. unfold np_allclose. simpl.
    by rewrite !close_to_itself.
  - intros m x y z Hm.
    destruct (set_box_center_transform s m x y z Hm)
      as (_ & m' & Hget' & _ & Hblock & _).
    destruct (is_oriented_runs s) as (t & m0 & Hget & Hm0 & ->).
    destruct (is_oriented_runs (after (Box.set_box_center (VVec [x; y; z]) s)))
      as (t' & m1 & Hget1 & Hm1 & ->).
    rewrite Hm in Hget. injection Hget as <-. injection Hm0 as <-.
    rewrite Hget' in Hget1. injection Hget1 as <-. injection Hm1 as <-.
    cbn [result]. by rewrite Hblock.
Qed.

Lemma is_oriented_rotation_only_witness :
  let s := after (construct (H := sample_collaborators) Box_cls ∅) in
  result (Box.is_oriented s) = inr false
  /\ result (Box.is_oriented (after (Box.set_box_center (VVec [1; 2; 3]%R) s)))
     = inr false.
Proof.
  intros s. destruct (is_oriented_rotation_only s) as (_ & Hunset & Hcenter).
  split; [by apply Hunset|].
  rewrite (Hcenter (np_eye 4) 1%R 2%R 3%R eq_refl). by apply Hunset.
Defined.

(** ** What every method keeps *)

Ltac unfold_changes :=
  unfold cache_mesh, DataStore.__setitem__, DataStore.clear, DataStore.update,
    Trimesh.__init__, Cache.__setitem__.

(** The class of an object never changes. *)
Lemma method_keeps_class `{Collaborators} (c c' : pycls) (op : call) (m : M unit) :
  method c op = Some m -> preserves (fun s => class_of s = c') m.
Proof.
  intros Hm.
  destruct op; destruct c; simpl in Hm; try discriminate; injection Hm as <-;
    unfold ignore, read, read_with, assign, to_mesh, _Primitive.to_mesh;
    preserves_by ltac:(intros s Hs; exact Hs).
Qed.

Lemma construct_class `{Collaborators} (c : pycls) (kwargs : gmap string value) :
  class_of (after (construct c kwargs)) = c.
Proof.
  assert (forall m : M unit,
            preserves (fun s => class_of s = c) m -> class_of (after (m (allocate c))) = c)
    as Hkeeps by (intros m Hm; by apply Hm).
  destruct c; unfold construct; apply Hkeeps;
    preserves_by ltac:(intros s Hs; exact Hs).
Qed.

(** Induction over the objects of one class that a program can hold. *)
Lemma reachable_class_invariant `{Collaborators} (c : pycls) (I : obj -> Prop) :
  (forall kwargs, result (construct c kwargs) = inr tt -> I (after (construct c kwargs))) ->
  (forall op m, method c op = Some m -> preserves I m) ->
  forall s, reachable s -> class_of s = c -> I s.
Proof.
  intros Hconstruct Hmethod s Hreach.
  induction Hreach as [c' kwargs Hrun|s op m Hreach IH Hm]; intros Hclass.
  - rewrite construct_class in Hclass. subst c'. by apply Hconstruct.
  - assert (class_of s = c) as Hs.
    { pose proof (method_keeps_class _ (class_of s) _ _ Hm s eq_refl) as Hkept.
      simpl in Hkept. congruence. }
    rewrite Hs in Hm. apply (Hmethod op m Hm). by apply IH.
Qed.

(** ** The unit meshes *)

Lemma try_except_default {A} (m : M A) (a : A) (s : obj) :
  (forall s0, after (m s0) = s0) ->
  exists b l, try_except m (ret a) s = Outcome (inr b) s l.
Proof.
  intros Hm. unfold try_except. specialize (Hm s).
  destruct (m s) as [[e|b] s1 l]; simpl in *; subst s1.
  - by exists a, (l ++ []).
  - by exists b, l.
Qed.

Lemma sphere_init_subdivisions `{Collaborators} (kwargs : gmap string value) (s : obj) :
  exists n l,
    try_except
      (match kwargs !! "subdivisions" with
       | Some v => lift (py_int v)
       | None => raise (Raise KeyError "subdivisions")
       end)
      (ret 3%Z) s = Outcome (inr n) s l.
Proof.
  apply try_except_default. intros s0.
  destruct (kwargs !! "subdivisions") as [v|]; [|reflexivity].
  by destruct (py_int v).
Qed.

(** X4: the unit meshes are those of the constructor: on every box a
    program can hold, [_unit_box] is [creation.box()], and on every sphere
    [_unit_sphere] is an icosphere of [creation.icosphere]; no method
    replaces them. *)
Theorem unit_meshes_are_fixed `{Collaborators} (s : obj) :
  reachable s ->
  (class_of s = Box_cls -> _unit_box s = Some creation_box)
  /\ (class_of s = Sphere_cls ->
      exists subdivisions, _unit_sphere s = Some (creation_icosphere subdivisions)).
Proof.
  intros Hreach. split.
  - apply (reachable_class_invariant Box_cls
             (fun s => _unit_box s = Some creation_box)); [|..|exact Hreach].
    + intros kwargs _. unfold construct, Box.__init__.
      rewrite (bind_returns _ _ _ (with_unit_box creation_box (allocate Box_cls)) tt [])
        by reflexivity.
      cbn [after].
      match goal with
      | |- _unit_box (after (?rest _)) = _ =>
          assert (preserves (fun s => _unit_box s = Some creation_box) rest) as Hrest
      end.
      { preserves_by ltac:(intros s0 Hs0; exact Hs0). }
      by apply Hrest.
    + intros op m Hm.
      destruct op; simpl in Hm; try discriminate; injection Hm as <-;
        unfold ignore, read, read_with, assign, to_mesh, _Primitive.to_mesh;
        preserves_by ltac:(intros s0 Hs0; exact Hs0).
  - apply (reachable_class_invariant Sphere_cls
             (fun s => exists n, _unit_sphere s = Some (creation_icosphere n)));
      [|..|exact Hreach].
    + intros kwargs _. unfold construct, Sphere.__init__.
      destruct (sphere_init_subdivisions kwargs (allocate Sphere_cls)) as (n & l & Htry).
      rewrite (bind_returns _ _ _ _ _ _ Htry). cbn [after].
      rewrite (bind_returns _ _ _ (with_unit_sphere (creation_icosphere n)
                                     (allocate Sphere_cls)) tt [])
        by reflexivity.
      cbn [after].
      match goal with
      | |- exists _, _unit_sphere (after (?rest _)) = _ =>
          assert (preserves (fun s => exists n, _unit_sphere s = Some (creation_icosphere n))
                    rest) as Hrest
      end.
      { preserves_by ltac:(intros s0 Hs0; exact Hs0). }
      apply Hrest. by exists n.
    + intros op m Hm.
      destruct op; simpl in Hm; try discriminate; injection Hm as <-;
        unfold ignore, read, read_with, assign, to_mesh, _Primitive.to_mesh;
        preserves_by ltac:(intros s0 Hs0; exact Hs0).
Qed.

Lemma unit_meshes_are_fixed_witness :
  let s0 := after (construct (H := sample_collaborators) Box_cls ∅) in
  let s := after (Box.set_box_extents (VVec [1; 2; 3]%R) s0) in
  _unit_box s = Some sample.box.
Proof.
  intros s0 s.
  assert (reachable (H := sample_collaborators) s) as Hreach.
  { apply (reachable_call (H := sample_collaborators) s0
             (SetBoxExtents (VVec [1; 2; 3]%R))
             (Box.set_box_extents (VVec [1; 2; 3]%R))).
    - by apply (reachable_construct (H := sample_collaborators) Box_cls ∅).
    - reflexivity. }
  destruct (unit_meshes_are_fixed (H := sample_collaborators) s Hreach) as [Hbox _].
  by apply Hbox.
Defined.

(** ** The cached arrays stay together *)









(** ** Calls that raise, calls that read, calls that set *)

Lemma never_raises_bind {A B} (m : M A) (f : A -> M B) :
  never_raises m -> (forall a, never_raises (f a)) -> never_raises (bind m f).
Proof.
  intros Hm Hf s. destruct (Hm s) as (a & Ha). destruct (Hf a (after (m s))) as (b & Hb).
  exists b. unfold bind. rewrite Ha. exact Hb.
Qed.

Lemma never_raises_ret {A} (a : A) : never_raises (ret a).
Proof. intros s. by exists a. Qed.

Lemma never_raises_modify (f : obj -> obj) : never_raises (modify f).
Proof. intros s. by exists tt. Qed.

Lemma never_raises_cache_getitem (key : string) : never_raises (Cache.__getitem__ key).
Proof. intros s. by eexists. Qed.

Ltac total_step :=
  lazymatch goal with
  | |- never_raises (bind _ _) => apply never_raises_bind; [|intros ?]
  | |- never_raises (ret _) => apply never_raises_ret
  | |- never_raises (modify _) => apply never_raises_modify
  | |- never_raises (Cache.__getitem__ _) => apply never_raises_cache_getitem
  | |- never_raises ?m => let h := head_of m in progress unfold h
  end.

Ltac total := repeat total_step.

Lemma fails_clean_reads {A} (m : M A) :
  (forall s, after (m s) = s) -> fails_clean m.
Proof. intros Hm s e _. apply Hm. Qed.

Lemma fails_clean_total {A} (m : M A) : never_raises m -> fails_clean m.
Proof. intros Hm s e He. destruct (Hm s) as (a & Ha). congruence. Qed.

Lemma fails_clean_after_reads {A B} (m : M A) (f : A -> M B) :
  (forall s, after (m s) = s) -> (forall a, fails_clean (f a)) ->
  fails_clean (bind m f).
Proof.
  intros Hm Hf s e. unfold bind. specialize (Hm s).
  destruct (m s) as [[e'|a] s1 l]; simpl in *; subst s1; [reflexivity|].
  apply Hf.
Qed.

Lemma fails_clean_then_total {A B} (m : M A) (f : A -> M B) :
  fails_clean m -> (forall a, never_raises (f a)) -> fails_clean (bind m f).
Proof.
  intros Hm Hf s e. unfold bind. specialize (Hm s).
  destruct (m s) as [[e'|a] s1 l]; simpl in *; [intros _; by apply (Hm e')|].
  destruct (Hf a s1) as (b & Hb). congruence.
Qed.

(** One step through a method that can raise only before it changes the
    object. *)
Ltac clean_step :=
  lazymatch goal with
  | |- fails_clean (bind _ _) =>
      first [ apply fails_clean_after_reads;
              [intros ?; apply unchanged_after; intros ?; solve [reads_only]|intros ?]
            | apply fails_clean_then_total; [|intros ?; solve [total]] ]
  | |- fails_clean (match ?x with _ => _ end) => destruct x
  | |- fails_clean (if ?b then _ else _) => destruct b
  | |- fails_clean ?m =>
      first [ apply fails_clean_reads; intros ?; apply unchanged_after; intros ?;
              solve [reads_only]
            | apply fails_clean_total; solve [total]
            | let h := head_of m in progress unfold h ]
  end.

Ltac clean := repeat clean_step.

Lemma create_mesh_fails_clean `{Collaborators} : fails_clean _create_mesh.
Proof. clean. Qed.

Lemma read_fails_clean `{Collaborators} (k : slot) : fails_clean (read k).
Proof.
  unfold read. rewrite read_with_unfold.
  apply fails_clean_after_reads; [reflexivity|intros stored].
  destruct (util.is_shape _ _); [by apply fails_clean_reads|].
  apply fails_clean_then_total; [apply create_mesh_fails_clean|intros _; total].
Qed.

(** A read leaves the object as it was, or it created the mesh: then the
    mesh can be created again, and creating it again changes nothing. *)
Lemma read_cases `{Collaborators} (k : slot) (s : obj) :
  let s1 := after (read k s) in
  s1 = s
  \/ ((exists a, result (read k s) = inr a)
      /\ result (_create_mesh s1) = inr tt /\ after (_create_mesh s1) = s1).
Proof.
  intros s1. subst s1. unfold read.
  destruct (util.is_shape (default VNone (_cache s !! slot_key k)) [-1; 3]%Z) eqn:Hstored.
  - left. by rewrite read_with_hit.
  - rewrite read_with_miss by exact Hstored.
    destruct (result (_create_mesh s)) as [e|[]] eqn:Hcreate.
    + left. unfold bind. rewrite Hcreate. cbn [after].
      by apply (create_mesh_fails_clean s e).
    + right. destruct (create_mesh_again s Hcreate) as [Hagain Hsame].
      unfold bind. rewrite Hcreate. cbn [result after]. split; [by eexists|].
      by split.
Qed.

Lemma read_settled `{Collaborators} (k : slot) (s : obj) :
  result (_create_mesh s) = inr tt -> after (_create_mesh s) = s ->
  (exists a, result (read k s) = inr a) /\ after (read k s) = s.
Proof.
  intros Hcreate Hsame. unfold read.
  destruct (util.is_shape (default VNone (_cache s !! slot_key k)) [-1; 3]%Z) eqn:Hstored.
  - rewrite read_with_hit by exact Hstored. split; [by eexists|reflexivity].
  - rewrite read_with_miss by exact Hstored.
    unfold bind. rewrite Hcreate. cbn [result after]. split; [by eexists|exact Hsame].
Qed.

Lemma read_then_settled `{Collaborators} {B} (k : slot) (f : value -> M B) (s : obj) :
  (forall v s0, result (_create_mesh s0) = inr tt -> after (_create_mesh s0) = s0 ->
                exists b, result (f v s0) = inr b) ->
  result (_create_mesh s) = inr tt -> after (_create_mesh s) = s ->
  exists b, result (bind (read k) f s) = inr b.
Proof.
  intros Hf Hcreate Hsame.
  destruct (read_settled k s Hcreate Hsame) as [(a & Ha) Hafter].
  unfold bind. rewrite Ha. cbn [result]. rewrite Hafter. by apply Hf.
Qed.

Lemma read_then_fails_clean `{Collaborators} {B} (k : slot) (f : value -> M B) :
  (forall v, fails_clean (f v)) ->
  (forall v s0, result (_create_mesh s0) = inr tt -> after (_create_mesh s0) = s0 ->
                exists b, result (f v s0) = inr b) ->
  fails_clean (bind (read k) f).
Proof.
  intros Hclean Htotal s e.
  destruct (read_cases k s) as [Hsame|((a & Ha) & Hcreate & Hagain)].
  - unfold bind. destruct (result (read k s)) as [e'|v]; cbn [result after].
    + by intros _.
    + rewrite Hsame. apply Hclean.
  - unfold bind. rewrite Ha. cbn [result].
    destruct (Htotal a _ Hcreate Hagain) as (b & Hb). congruence.
Qed.

Lemma to_mesh_fails_clean `{Collaborators} : fails_clean to_mesh.
Proof.
  change to_mesh
    with (v <- read slot_vertices ;; f <- read slot_faces ;;
          n <- read slot_face_normals ;; ret (v, f, n)).
  apply read_then_fails_clean.
  - intros v. apply read_then_fails_clean.
    + intros f. apply fails_clean_then_total; [apply read_fails_clean|intros n; total].
    + intros f s0 Hcreate Hsame. apply read_then_settled; [|assumption..].
      intros n s1 _ _. by eexists.
  - intros v s0 Hcreate Hsame. apply read_then_settled; [|assumption..].
    intros f s1 Hcreate1 Hsame1. apply read_then_settled; [|assumption..].
    intros n s2 _ _. by eexists.
Qed.

(** X6: a call that raises leaves the object as it was: every method
    raises, if it does, before it writes to the store or to the cache. *)
Theorem raising_call_changes_nothing `{Collaborators}
    (c : pycls) (op : call) (m : M unit) (s : obj) (e : exn) :
  method c op = Some m -> result (m s) = inl e -> after (m s) = s.
Proof.
  intros Hm. revert s e. change (fails_clean m).
  destruct op; destruct c; simpl in Hm; try discriminate; injection Hm as <-;
    unfold ignore;
    try (apply fails_clean_then_total;
         [first [apply read_fails_clean | apply to_mesh_fails_clean]
         |intros ?; total]);
    clean.
Qed.

Lemma raising_call_changes_nothing_witness :
  let s := after (Extrusion.slide (VFloat 1)
                    (after (construct (H := sample_collaborators) Extrusion_cls ∅))) in
  exists e,
    result (ignore (read (H := sample_collaborators) slot_vertices) s) = inl e
    /\ after (ignore (read (H := sample_collaborators) slot_vertices) s) = s.
Proof.
  intros s. exists (Raise ValueError "extrude polygon not specified!").
  split; [reflexivity|].
  apply (raising_call_changes_nothing (H := sample_collaborators) Extrusion_cls
           (Read slot_vertices) _ s
           (Raise ValueError "extrude polygon not specified!"));
    reflexivity.
Defined.

Lemma same_but_cache_refl (s : obj) : same_but_cache s s.
Proof. reflexivity. Qed.

(** X7: a call that sets no parameter changes nothing but the cache: the
    class, the store, the unit meshes and [primitive_data] are after the
    call as they were before it, whether it returns or raises. *)
Theorem reads_touch_only_the_cache `{Collaborators}
    (c : pycls) (op : call) (m : M unit) (s : obj) :
  method c op = Some m -> sets_parameter op = false ->
  same_but_cache s (after (m s)).
Proof.
  intros Hm Hop.
  assert (preserves (same_but_cache s) m) as Hkeeps.
  { destruct op; try discriminate Hop;
      destruct c; simpl in Hm; try discriminate; injection Hm as <-;
      unfold ignore, read, read_with, assign, to_mesh, _Primitive.to_mesh;
      preserves_by ltac:(intros s0 Hs0; exact Hs0). }
  apply Hkeeps, same_but_cache_refl.
Qed.

Lemma reads_touch_only_the_cache_witness :
  let s := after (construct (H := sample_collaborators) Sphere_cls ∅) in
  let s' := after (ignore (to_mesh (H := sample_collaborators)) s) in
  same_but_cache s s' /\ is_Some (_cache s' !! "faces").
Proof.
  intros s s'. split.
  - by apply (reads_touch_only_the_cache (H := sample_collaborators) Sphere_cls ToMesh).
  - vm_compute. by eexists.
Defined.





(** ** The parameters of the objects a program can hold *)

Lemma rectangular_map {A B} (f : A -> B) (m : list (list A)) :
  rectangular (map (map f) m) = rectangular m.
Proof.
  unfold rectangular.
  assert (width (map (map f) m) = width m) as ->
    by (destruct m; simpl; [reflexivity|apply length_map]).
  generalize (width m). intros w.
  induction m as [|r m IH]; simpl; [reflexivity|].
  by rewrite length_map, IH.
Qed.

Lemma asanyarray_float_array (v a : value) :
  asanyarray_float64 v = inr a -> float_array (tracked_array a) = true.
Proof.
  destruct v; simpl; try discriminate; try (by intros [= <-]);
    destruct (rectangular m) eqn:Hm; try discriminate; intros [= <-]; simpl.
  - exact Hm.
  - by rewrite rectangular_map.
Qed.

Section Stores.
Context (P : string -> value -> Prop).

Lemma holds_emptied (f : obj -> obj) :
  (forall s, _data (f s) = ∅) -> preserves (store_holds P) (modify f).
Proof. intros Hf s _ key v. simpl. by rewrite Hf, lookup_empty. Qed.

Lemma holds_kept (f : obj -> obj) :
  (forall s, _data (f s) = _data s) -> preserves (store_holds P) (modify f).
Proof. intros Hf s Hs key v. simpl. rewrite Hf. apply Hs. Qed.

Lemma holds_cache_mesh (v f n : value) : preserves (store_holds P) (cache_mesh v f n).
Proof. intros s Hs. exact Hs. Qed.

Lemma holds_setitem (key : string) (v : value) :
  P key (tracked_array v) -> preserves (store_holds P) (DataStore.__setitem__ key v).
Proof.
  intros Hv s Hs key' v'. simpl. intros Hk.
  apply lookup_insert_Some in Hk as [[<- <-]|[_ Hk]]; [exact Hv|by apply Hs].
Qed.

Lemma holds_lift_setitem {A} (x : exn + A) (key : string) (f : A -> value) :
  (forall a, x = inr a -> P key (tracked_array (f a))) ->
  preserves (store_holds P) (a <- lift x ;; DataStore.__setitem__ key (f a)).
Proof.
  intros Hx. destruct x as [e|a]; [by intros s Hs|].
  intros s Hs. by apply (holds_setitem key (f a) (Hx a eq_refl)).
Qed.

Lemma holds_allocate (c : pycls) (m : M unit) :
  preserves (store_holds P) m -> store_holds P (after (m (allocate c))).
Proof. intros Hm. apply Hm. intros key v. simpl. by rewrite lookup_empty. Qed.
End Stores.

Ltac holds_changes :=
  idtac;
  lazymatch goal with
  | |- preserves _ (cache_mesh _ _ _) => apply holds_cache_mesh
  | |- preserves _ (Cache.__setitem__ _ _) => apply holds_kept; reflexivity
  | |- preserves _ (modify (with_unit_sphere _)) => apply holds_kept; reflexivity
  | |- preserves _ (modify (with_unit_box _)) => apply holds_kept; reflexivity
  | |- preserves _ (modify (with_primitive_data _)) => apply holds_kept; reflexivity
  | |- preserves _ Trimesh.__init__ => apply holds_emptied; reflexivity
  | |- preserves _ DataStore.clear => apply holds_emptied; reflexivity
  end.

(** *** Boxes *)

Lemma box_store_set_extents (values : value) :
  preserves (store_holds box_entry) (Box.set_box_extents values).
Proof.
  apply (holds_lift_setitem box_entry _ _ (fun a => a)).
  intros a. apply asanyarray_float_array.
Qed.

Lemma box_store_set_transform (matrix : value) :
  preserves (store_holds box_entry) (Box.set_box_transform matrix).
Proof.
  unfold Box.set_box_transform.
  destruct (asanyarray_float64 matrix) as [e|a] eqn:Ha; [by intros s Hs|].
  intros s Hs. rewrite (bind_pure _ _ s a) by reflexivity.
  destruct (negb _); [exact Hs|].
  apply holds_setitem; [|exact Hs]. by apply (asanyarray_float_array matrix).
Qed.

Lemma box_transform_float (s : obj) :
  store_holds box_entry s ->
  exists m, Box.box_transform s = Outcome (inr (VMat m)) s []
            /\ np_shape (VMat m) = [4; 4].
Proof.
  intros Hs. destruct (box_transform_shape s) as (t & Hget & Hshape).
  assert (exists m, t = VMat m) as (m & ->); [|by exists m].
  revert Hget. unfold Box.box_transform.
  rewrite (bind_pure _ _ s (default VNone (_data s !! "box_transform"))) by reflexivity.
  destruct (_data s !! "box_transform") as [v|] eqn:Hv; simpl.
  - specialize (Hs _ _ Hv). unfold box_entry in Hs.
    destruct (util.is_shape v _); cbn; intros [= <-]; [|by eexists].
    destruct v; try discriminate; by eexists.
  - cbn. intros [= <-]. by eexists.
Qed.

Lemma box_extents_float (s : obj) :
  store_holds box_entry s ->
  exists x y z, Box.box_extents s = Outcome (inr (VVec [x; y; z])) s [].
Proof.
  intros Hs. rewrite box_extents_reads.
  destruct (util.is_shape _ _) eqn:Hshape; [|by exists 1%R, 1%R, 1%R].
  apply (is_shape_1d _ 3) in Hshape.
  destruct (_data s !! "box_extents") as [v|] eqn:Hv; simpl in *; [|discriminate].
  specialize (Hs _ _ Hv). unfold box_entry in Hs.
  destruct v as [| | |l|m| | | |]; try discriminate.
  - destruct l as [|x [|y [|z [|]]]]; try discriminate. by exists x, y, z.
  - simpl in Hshape, Hs. rewrite Hs in Hshape. discriminate.
Qed.

Lemma box_store_set_center (values : value) :
  preserves (store_holds box_entry) (Box.set_box_center values).
Proof.
  intros s Hs. destruct (box_transform_float s Hs) as (m & Hget & Hshape).
  unfold Box.set_box_center. rewrite (bind_pure _ _ s _ Hget).
  destruct (broadcast3 values) as [e|[[x y] z]]; [exact Hs|].
  rewrite (bind_pure _ _ s (x, y, z)) by reflexivity.
  apply holds_setitem; [|exact Hs].
  destruct (float_matrix44_entries m Hshape)
    as (a0 & a1 & a2 & a3 & b0 & b1 & b2 & b3 & c0 & c1 & c2 & c3
          & d0 & d1 & d2 & d3 & ->).
  reflexivity.
Qed.

Ltac box_store_step :=
  lazymatch goal with
  | |- preserves _ (Box.set_box_extents _) => apply box_store_set_extents
  | |- preserves _ (Box.set_box_transform _) => apply box_store_set_transform
  | |- preserves _ (Box.set_box_center _) => apply box_store_set_center
  | _ => preserves_step holds_changes
  end.

Ltac box_store := repeat box_store_step.

Lemma box_store_floats `{Collaborators} (s : obj) :
  reachable s -> class_of s = Box_cls -> store_holds box_entry s.
Proof.
  apply (reachable_class_invariant Box_cls (store_holds box_entry)).
  - intros kwargs _. unfold construct. apply holds_allocate.
    unfold Box.__init__. box_store.
  - intros op m Hm.
    destruct op; simpl in Hm; try discriminate; injection Hm as <-;
      unfold ignore, read, read_with, assign, to_mesh, _Primitive.to_mesh;
      box_store.
Qed.

(** X9: on every box a program can hold, the getters never raise and give
    float arrays: [box_extents] three floats, [box_transform] a float matrix
    of shape (4,4) and [box_center] its translation column; [volume] gives
    a float. *)
Theorem box_getters_give_floats `{Collaborators} (s : obj) :
  reachable s -> class_of s = Box_cls ->
  exists (x y z : R) (m : list (list R)),
    Box.box_extents s = Outcome (inr (VVec [x; y; z])) s []
    /\ Box.box_transform s = Outcome (inr (VMat m)) s []
    /\ np_shape (VMat m) = [4; 4]
    /\ Box.box_center s = Outcome (inr (VVec (column3 m))) s []
    /\ exists v, result (Box.volume s) = inr (VFloat v).
Proof.
  intros Hreach Hclass.
  pose proof (box_store_floats s Hreach Hclass) as Hs.
  destruct (box_extents_float s Hs) as (x & y & z & Hextents).
  destruct (box_transform_float s Hs) as (m & Htransform & Hshape).
  exists x, y, z, m. split; [exact Hextents|]. split; [exact Htransform|].
  split; [exact Hshape|]. split.
  - unfold Box.box_center. by rewrite (bind_pure _ _ s _ Htransform).
  - pose proof (box_volume_body_runs s) as Hbody.
    rewrite Hextents in Hbody. cbn [result float_product] in Hbody.
    unfold Box.volume. rewrite (cache_decorator_runs _ _ _ Hbody).
    destruct (_cache s !! "volume") as [v|] eqn:Hcached; cbn [result]; [|by eexists].
    pose proof (reachable_volume_coherent s Hreach Box.volume_body v) as Hv.
    rewrite Hclass in Hv. specialize (Hv eq_refl Hcached).
    rewrite Hbody in Hv. cbn [result] in Hv. injection Hv as <-. by eexists.
Qed.

Lemma box_getters_give_floats_witness :
  let s0 := after (construct (H := sample_collaborators) Box_cls
                     {["box_extents" := VIVec [2; 3; 4]%Z]}) in
  let s := after (Box.set_box_center (VIVec [1; 0; 0]%Z) s0) in
  exists (x y z : R) (m : list (list R)),
    Box.box_extents s = Outcome (inr (VVec [x; y; z])) s []
    /\ Box.box_transform s = Outcome (inr (VMat m)) s [].
Proof.
  intros s0 s.
  assert (reachable (H := sample_collaborators) s) as Hreach.
  { apply (reachable_call (H := sample_collaborators) s0
             (SetBoxCenter (VIVec [1; 0; 0]%Z))
             (Box.set_box_center (VIVec [1; 0; 0]%Z))).
    - by apply (reachable_construct (H := sample_collaborators) Box_cls
                  {["box_extents" := VIVec [2; 3; 4]%Z]}).
    - reflexivity. }
  destruct (box_getters_give_floats (H := sample_collaborators) s Hreach eq_refl)
    as (x & y & z & m & Hextents & Htransform & _).
  by exists x, y, z, m.
Defined.

(** *** Spheres *)

Lemma sphere_store_set_center (values : value) :
  preserves (store_holds sphere_entry) (Sphere.set_sphere_center values).
Proof.
  apply (holds_lift_setitem sphere_entry _ _ (fun a => a)).
  intros a Ha. split; [by apply (asanyarray_float_array values)|discriminate].
Qed.

Lemma sphere_store_set_radius (value : value) :
  preserves (store_holds sphere_entry) (Sphere.set_sphere_radius value).
Proof.
  apply (holds_lift_setitem sphere_entry _ _ VFloat).
  intros x _. split; [reflexivity|]. intros _. by exists x.
Qed.

Ltac sphere_store_step :=
  lazymatch goal with
  | |- preserves _ (Sphere.set_sphere_center _) => apply sphere_store_set_center
  | |- preserves _ (Sphere.set_sphere_radius _) => apply sphere_store_set_radius
  | _ => preserves_step holds_changes
  end.

Ltac sphere_store := repeat sphere_store_step.

Lemma sphere_store_floats `{Collaborators} (s : obj) :
  reachable s -> class_of s = Sphere_cls -> store_holds sphere_entry s.
Proof.
  apply (reachable_class_invariant Sphere_cls (store_holds sphere_entry)).
  - intros kwargs _. unfold construct. apply holds_allocate.
    unfold Sphere.__init__. sphere_store.
  - intros op m Hm.
    destruct op; simpl in Hm; try discriminate; injection Hm as <-;
      unfold ignore, read, read_with, assign, to_mesh, _Primitive.to_mesh;
      sphere_store.
Qed.

(** X10: on every sphere a program can hold, the getters never raise:
    [sphere_radius] gives a float, [sphere_center] a float array, and
    [volume] a float. *)
Theorem sphere_getters_give_floats `{Collaborators} (s : obj) :
  reachable s -> class_of s = Sphere_cls ->
  exists (r : R) (center : value),
    Sphere.sphere_radius s = Outcome (inr (VFloat r)) s []
    /\ Sphere.sphere_center s = Outcome (inr center) s []
    /\ float_array center = true
    /\ exists v, result (Sphere.volume s) = inr (VFloat v).
Proof.
  intros Hreach Hclass.
  pose proof (sphere_store_floats s Hreach Hclass) as Hs.
  assert (exists r, Sphere.sphere_radius s = Outcome (inr (VFloat r)) s [])
    as (r & Hradius).
  { rewrite sphere_radius_reads.
    destruct (_data s !! "radius") as [v|] eqn:Hv; [|by exists 1%R].
    destruct (Hs _ _ Hv) as [_ Hone]. destruct (Hone eq_refl) as (x & ->).
    by exists x. }
  assert (exists center, Sphere.sphere_center s = Outcome (inr center) s []
                         /\ float_array center = true)
    as (center & Hcenter & Hfloat).
  { unfold Sphere.sphere_center.
    rewrite (bind_pure _ _ s (default VNone (_data s !! "center"))) by reflexivity.
    destruct (_data s !! "center") as [v|] eqn:Hv; [|by eexists].
    destruct (Hs _ _ Hv) as [Hfloat _].
    exists v. by destruct v. }
  exists r, center. split; [exact Hradius|]. split; [exact Hcenter|].
  split; [exact Hfloat|].
  pose proof (sphere_volume_body_runs s) as Hbody.
  rewrite Hradius in Hbody. cbn [result elementwise] in Hbody.
  unfold Sphere.volume. rewrite (cache_decorator_runs _ _ _ Hbody).
  destruct (_cache s !! "volume") as [v|] eqn:Hcached; cbn [result]; [|by eexists].
  pose proof (reachable_volume_coherent s Hreach Sphere.volume_body v) as Hv.
  rewrite Hclass in Hv. specialize (Hv eq_refl Hcached).
  rewrite Hbody in Hv. cbn [result] in Hv. injection Hv as <-. by eexists.
Qed.

Lemma sphere_getters_give_floats_witness :
  let s0 := after (construct (H := sample_collaborators) Sphere_cls
                     {["sphere_radius" := VInt 2]}) in
  let s := after (Sphere.set_sphere_center (VIVec [1; 0; 0]%Z) s0) in
  exists (r : R) (center : value),
    Sphere.sphere_radius s = Outcome (inr (VFloat r)) s []
    /\ Sphere.sphere_center s = Outcome (inr center) s [].
Proof.
  intros s0 s.
  assert (reachable (H := sample_collaborators) s) as Hreach.
  { apply (reachable_call (H := sample_collaborators) s0
             (SetSphereCenter (VIVec [1; 0; 0]%Z))
             (Sphere.set_sphere_center (VIVec [1; 0; 0]%Z))).
    - by apply (reachable_construct (H := sample_collaborators) Sphere_cls
                  {["sphere_radius" := VInt 2]}).
    - reflexivity. }
  destruct (sphere_getters_give_floats (H := sample_collaborators) s Hreach eq_refl)
    as (r & center & Hradius & Hcenter & _).
  by exists r, center.
Defined.

(** *** Extrusions *)

Lemma extrusion_store_set_transform (matrix : value) :
  preserves (store_holds extrusion_entry) (Extrusion.set_extrude_transform matrix).
Proof.
  unfold Extrusion.set_extrude_transform.
  destruct (asanyarray_float64 matrix) as [e|a] eqn:Ha; [by intros s Hs|].
  intros s Hs. rewrite (bind_pure _ _ s a) by reflexivity.
  destruct (negb _); [exact Hs|].
  apply holds_setitem; [|exact Hs].
  split; [|split; discriminate]. intros _. by apply (asanyarray_float_array matrix).
Qed.

Lemma extrusion_store_set_height (value : value) :
  preserves (store_holds extrusion_entry) (Extrusion.set_extrude_height value).
Proof.
  apply (holds_lift_setitem extrusion_entry _ _ VFloat).
  intros x _. split; [discriminate|]. split; [|discriminate]. intros _. by exists x.
Qed.

Lemma extrusion_store_set_polygon `{Collaborators} (value : value) :
  preserves (store_holds extrusion_entry) (Extrusion.set_extrude_polygon value).
Proof.
  apply (holds_lift_setitem extrusion_entry _ _ VPoly).
  intros p _. split; [discriminate|]. split; [discriminate|]. intros _. by exists p.
Qed.

Ltac extrusion_store_step :=
  lazymatch goal with
  | |- preserves _ (Extrusion.set_extrude_transform _) =>
      apply extrusion_store_set_transform
  | |- preserves _ (Extrusion.set_extrude_height _) => apply extrusion_store_set_height
  | |- preserves _ (Extrusion.set_extrude_polygon _) =>
      apply extrusion_store_set_polygon
  | _ => preserves_step holds_changes
  end.

Ltac extrusion_store := repeat extrusion_store_step.

Lemma extrusion_store_typed `{Collaborators} (s : obj) :
  reachable s -> class_of s = Extrusion_cls -> store_holds extrusion_entry s.
Proof.
  apply (reachable_class_invariant Extrusion_cls (store_holds extrusion_entry)).
  - intros kwargs _. unfold construct. apply holds_allocate.
    unfold Extrusion.__init__. extrusion_store.
  - intros op m Hm.
    destruct op; simpl in Hm; try discriminate; injection Hm as <-;
      unfold ignore, read, read_with, assign, to_mesh, _Primitive.to_mesh;
      extrusion_store.
Qed.

(** X11: on every extrusion a program can hold, [extrude_transform] gives
    a float matrix of shape (4,4); [extrude_height] gives a float, or the
    height was never set and it raises the ValueError "extrude height not
    specified!"; [extrude_polygon] gives a polygon, or the polygon was never
    set and it raises the ValueError "extrude polygon not specified!". The
    getters raise nothing else. *)
Theorem extrusion_getters_are_typed `{Collaborators} (s : obj) :
  reachable s -> class_of s = Extrusion_cls ->
  (exists m, Extrusion.extrude_transform s = Outcome (inr (VMat m)) s []
             /\ np_shape (VMat m) = [4; 4])
  /\ ((exists h, Extrusion.extrude_height s = Outcome (inr (VFloat h)) s [])
      \/ (_data s !! "extrude_height" = None
          /\ Extrusion.extrude_height s
             = Outcome (inl (Raise ValueError "extrude height not specified!")) s []))
  /\ ((exists p, Extrusion.extrude_polygon s = Outcome (inr (VPoly p)) s [])
      \/ (_data s !! "extrude_polygon" = None
          /\ Extrusion.extrude_polygon s
             = Outcome (inl (Raise ValueError "extrude polygon not specified!")) s [])).
Proof.
  intros Hreach Hclass.
  pose proof (extrusion_store_typed s Hreach Hclass) as Hs.
  split; [|split].
  - destruct (extrude_transform_matrix s) as (t & m & Hget & Hshape & _).
    assert (exists m', t = VMat m') as (m' & ->); [|by exists m'].
    revert Hget. unfold Extrusion.extrude_transform.
    rewrite (bind_pure _ _ s (default VNone (_data s !! "extrude_transform")))
      by reflexivity.
    destruct (_data s !! "extrude_transform") as [v|] eqn:Hv; simpl.
    + destruct (Hs _ _ Hv) as [Hfloat _]. specialize (Hfloat eq_refl).
      destruct (bool_decide _); cbn; intros [= <-]; [|by eexists].
      destruct v; try discriminate; by eexists.
    + cbn. intros [= <-]. by eexists.
  - unfold Extrusion.extrude_height.
    rewrite (bind_pure _ _ s (default VNone (_data s !! "extrude_height")))
      by reflexivity.
    destruct (_data s !! "extrude_height") as [v|] eqn:Hv; [left|by right].
    destruct (Hs _ _ Hv) as (_ & Hone & _). destruct (Hone eq_refl) as (h & ->).
    by exists h.
  - unfold Extrusion.extrude_polygon.
    rewrite (bind_pure _ _ s (default VNone (_data s !! "extrude_polygon")))
      by reflexivity.
    destruct (_data s !! "extrude_polygon") as [v|] eqn:Hv; [left|by right].
    destruct (Hs _ _ Hv) as (_ & _ & Hone). destruct (Hone eq_refl) as (p & ->).
    by exists p.
Qed.

Lemma extrusion_getters_are_typed_witness :
  let s0 := after (construct (H := sample_collaborators) Extrusion_cls
                     {["extrude_height" := VInt 2]}) in
  let s := after (Extrusion.slide (VFloat 1) s0) in
  (exists h, Extrusion.extrude_height s = Outcome (inr (VFloat h)) s [])
  /\ Extrusion.extrude_polygon s
     = Outcome (inl (Raise ValueError "extrude polygon not specified!")) s [].
Proof.
  intros s0 s.
  assert (reachable (H := sample_collaborators) s) as Hreach.
  { apply (reachable_call (H := sample_collaborators) s0
             (Slide (VFloat 1)) (Extrusion.slide (VFloat 1))).
    - by apply (reachable_construct (H := sample_collaborators) Extrusion_cls
                  {["extrude_height" := VInt 2]}).
    - reflexivity. }
  destruct (extrusion_getters_are_typed (H := sample_collaborators) s Hreach eq_refl)
    as (_ & Hheight & Hpolygon).
  split.
  - destruct Hheight as [Hfloat|[Hnone _]]; [exact Hfloat|].
    vm_compute in Hnone. discriminate Hnone.
  - destruct Hpolygon as [(p & Hp)|[_ Hraises]]; [|exact Hraises].
    vm_compute in Hp. discriminate Hp.
Defined.

(** ** Spheres *)

Lemma sphere_center_reads (s : obj) :
  Sphere.sphere_center s
  = Outcome (inr (match default VNone (_data s !! "center") with
                  | VNone => VVec (np_zeros 3)
                  | stored => stored
                  end)) s [].
Proof.
  unfold Sphere.sphere_center.
  rewrite (bind_pure _ _ s (default VNone (_data s !! "center"))) by reflexivity.
  by destruct (default VNone (_data s !! "center")).
Qed.

(** X12: a sphere whose centre was never set has the centre (0,0,0), and
    one whose radius was never set the radius 1.0. Assigning an array to
    [sphere_center] stores it as a float array, which the getter then
    returns, and leaves the radius as it was; assigning a number to
    [sphere_radius] leaves the centre as it was. *)
Theorem sphere_center_and_radius (s : obj) :
  (_data s !! "center" = None ->
   Sphere.sphere_center s = Outcome (inr (VVec [0; 0; 0]%R)) s [])
  /\ (_data s !! "radius" = None ->
      Sphere.sphere_radius s = Outcome (inr (VFloat 1)) s [])
  /\ (forall values a,
        has_shape values = true ->
        asanyarray_float64 values = inr a ->
        let s' := after (Sphere.set_sphere_center values s) in
        result (Sphere.set_sphere_center values s) = inr tt
        /\ Sphere.sphere_center s' = Outcome (inr a) s' []
        /\ result (Sphere.sphere_radius s') = result (Sphere.sphere_radius s))
  /\ (forall value x,
        float value = inr x ->
        let s' := after (Sphere.set_sphere_radius value s) in
        result (Sphere.sphere_center s') = result (Sphere.sphere_center s)).
Proof.
  split; [|split; [|split]].
  - intros Hnone. by rewrite sphere_center_reads, Hnone.
  - intros Hnone. by rewrite sphere_radius_reads, Hnone.
  - intros values a Harray Ha s'. subst s'. unfold Sphere.set_sphere_center.
    rewrite (bind_pure _ _ s a) by (by rewrite Ha).
    split; [reflexivity|].
    assert (tracked_array a = a /\ a <> VNone) as [Htracked Hsome].
    { destruct values; try discriminate; simpl in Ha;
        try (destruct (rectangular m); [|discriminate]);
        injection Ha as <-; by split. }
    split.
    + rewrite sphere_center_reads. cbn [after DataStore.__setitem__ modify _data
        with_cache with_data].
      rewrite lookup_insert_eq, Htracked. cbn [default]. by destruct a.
    + rewrite !sphere_radius_reads. cbn [result after DataStore.__setitem__ modify
        _data with_cache with_data].
      by rewrite lookup_insert_ne.
  - intros value x Hx s'. subst s'. unfold Sphere.set_sphere_radius.
    rewrite (bind_pure _ _ s x) by (by rewrite Hx).
    rewrite !sphere_center_reads. cbn [result after DataStore.__setitem__ modify
      _data with_cache with_data].
    by rewrite lookup_insert_ne.
Qed.

Lemma sphere_center_and_radius_witness :
  let s := after (construct (H := sample_collaborators) Sphere_cls
                    {["sphere_radius" := VFloat 2]}) in
  let s' := after (Sphere.set_sphere_center (VIVec [1; 2; 3]%Z) s) in
  Sphere.sphere_center s = Outcome (inr (VVec [0; 0; 0]%R)) s []
  /\ Sphere.sphere_center s' = Outcome (inr (VVec [1; 2; 3]%R)) s' []
  /\ result (Sphere.sphere_radius s') = inr (VFloat 2).
Proof.
  intros s s'.
  destruct (sphere_center_and_radius s) as (Hdefault & _ & Hset & _).
  destruct (Hset (VIVec [1; 2; 3]%Z) (VVec [1; 2; 3]%R) eq_refl eq_refl)
    as (_ & Hcenter & Hradius).
  split; [by apply Hdefault|]. split; [exact Hcenter|].
  fold s' in Hradius. by rewrite Hradius.
Defined.

(** X13: the constructor of a sphere takes the number of subdivisions of
    its unit sphere from the keyword argument [subdivisions], converted by
    [int]; when the argument is absent, or [int] raises on it, the sphere is
    not refused: its unit sphere has 3 subdivisions. This holds whether the
    other keyword arguments are accepted or not. *)
Theorem sphere_subdivisions_default `{Collaborators} (kwargs : gmap string value) :
  let s := after (construct Sphere_cls kwargs) in
  (kwargs !! "subdivisions" = None ->
   _unit_sphere s = Some (creation_icosphere 3))
  /\ (forall v e,
        kwargs !! "subdivisions" = Some v -> py_int v = inl e ->
        np_shape v <> [1; 1] ->
        _unit_sphere s = Some (creation_icosphere 3))
  /\ (forall v n,
        kwargs !! "subdivisions" = Some v -> py_int v = inr n ->
        _unit_sphere s = Some (creation_icosphere n)).
Proof.
  intros s.
  assert (forall n l,
            try_except
              (match kwargs !! "subdivisions" with
               | Some v => lift (py_int v)
               | None => raise (Raise KeyError "subdivisions")
               end)
              (ret 3%Z) (allocate Sphere_cls)
            = Outcome (inr n) (allocate Sphere_cls) l ->
            _unit_sphere s = Some (creation_icosphere n)) as Hrest.
  { intros n l Htry. subst s. unfold construct, Sphere.__init__.
    rewrite (bind_returns _ _ _ _ _ _ Htry). cbn [after].
    rewrite (bind_returns _ _ _ (with_unit_sphere (creation_icosphere n)
                                   (allocate Sphere_cls)) tt [])
      by reflexivity.
    cbn [after].
    match goal with
    | |- _unit_sphere (after (?rest _)) = _ =>
        assert (preserves (fun s => _unit_sphere s = Some (creation_icosphere n)) rest)
          as Hkeeps
    end.
    { preserves_by ltac:(intros s0 Hs0; exact Hs0). }
    by apply Hkeeps. }
  split; [|split].
  - intros Hnone. apply (Hrest 3%Z []). by rewrite Hnone.
  - intros v e Hv He _. apply (Hrest 3%Z []). rewrite Hv. unfold try_except.
    by rewrite lift_runs, He.
  - intros v n Hv Hn. apply (Hrest n []). rewrite Hv. unfold try_except.
    by rewrite lift_runs, Hn.
Qed.

Lemma sphere_subdivisions_default_witness :
  _unit_sphere (after (construct (H := sample_collaborators) Sphere_cls
                         {["subdivisions" := VNone]}))
  = Some (sample.icosphere 3).
Proof.
  destruct (sphere_subdivisions_default (H := sample_collaborators)
              {["subdivisions" := VNone]}) as (_ & Hfails & _).
  apply (Hfails VNone (Raise TypeError "int() argument must be a string or a number"));
    [reflexivity|reflexivity|discriminate].
Defined.

Lemma unit_sphere_reads (s : obj) (ico : Trimesh) :
  _unit_sphere s = Some ico -> self_unit_sphere s = Outcome (inr ico) s [].
Proof. intros Hico. unfold self_unit_sphere. run. by rewrite Hico. Qed.

Lemma create_mesh_of_sphere `{Collaborators} (s : obj) :
  class_of s = Sphere_cls -> _create_mesh s = Sphere._create_mesh s.
Proof.
  intros Hclass. unfold _create_mesh.
  rewrite (bind_pure _ _ s s) by reflexivity. by rewrite Hclass.
Qed.

(** X14: the mesh of a sphere is its unit sphere, scaled by the radius and
    moved by the centre: on a sphere with nothing cached, whose radius reads
    r and whose centre reads (x,y,z), [vertices] gives the vertices of the
    unit sphere, each multiplied by r and added to (x,y,z), while [faces]
    and [face_normals] give those of the unit sphere as they are; nothing is
    logged. *)
Theorem sphere_mesh_is_the_unit_sphere_scaled `{Collaborators}
    (s : obj) (ico : Trimesh) (r x y z : R) :
  class_of s = Sphere_cls ->
  _unit_sphere s = Some ico ->
  (forall k, _cache s !! slot_key k = None) ->
  result (Sphere.sphere_radius s) = inr (VFloat r) ->
  result (Sphere.sphere_center s) = inr (VVec [x; y; z]) ->
  result (read slot_vertices s)
  = inr (VMat (map (fun p => row3 (add3 (mul3 p (r, r, r)) (x, y, z)))
                   (mesh_vertices ico)))
  /\ result (read slot_faces s) = inr (faces_array ico)
  /\ result (read slot_face_normals s) = inr (face_normals_array ico)
  /\ forall k, emitted (read k s) = [].
Proof.
  intros Hclass Hico Hcache Hradius Hcenter.
  assert (Sphere._create_mesh s
          = cache_mesh
              (VMat (map (fun p => row3 (add3 (mul3 p (r, r, r)) (x, y, z)))
                         (mesh_vertices ico)))
              (faces_array ico) (face_normals_array ico) s) as Hcreate.
  { unfold Sphere._create_mesh.
    rewrite (bind_pure _ _ s ico (unit_sphere_reads s ico Hico)).
    rewrite sphere_radius_reads in Hradius. cbn [result] in Hradius.
    rewrite (bind_pure _ _ s (VFloat r)) by (by rewrite sphere_radius_reads, Hradius).
    rewrite (bind_pure _ _ s (r, r, r)) by reflexivity.
    rewrite sphere_center_reads in Hcenter. cbn [result] in Hcenter.
    rewrite (bind_pure _ _ s (VVec [x; y; z]))
      by (rewrite sphere_center_reads; by injection Hcenter as ->).
    rewrite (bind_pure _ _ s (x, y, z)) by reflexivity.
    by rewrite map_map. }
  assert (forall k, read k s
                    = (cache_mesh
                         (VMat (map (fun p => row3 (add3 (mul3 p (r, r, r)) (x, y, z)))
                                    (mesh_vertices ico)))
                         (faces_array ico) (face_normals_array ico) ;;;
                       Cache.__getitem__ (slot_key k)) s) as Hread.
  { intros k. unfold read. rewrite read_with_miss by (by rewrite Hcache).
    unfold bind. by rewrite (create_mesh_of_sphere s Hclass), Hcreate. }
  split; [|split; [|split]].
  - rewrite Hread. unfold cache_mesh. run.
    rewrite !lookup_insert_ne by discriminate. by rewrite lookup_insert_eq.
  - rewrite Hread. unfold cache_mesh. run.
    rewrite lookup_insert_ne by discriminate. by rewrite lookup_insert_eq.
  - rewrite Hread. unfold cache_mesh. run. by rewrite lookup_insert_eq.
  - intros k. by rewrite Hread.
Qed.

Lemma sphere_mesh_is_the_unit_sphere_scaled_witness :
  let s := after (construct (H := sample_collaborators) Sphere_cls
                    (<["sphere_radius" := VFloat 2]>
                       {["sphere_center" := VVec [1; 0; 0]%R]})) in
  result (read (H := sample_collaborators) slot_vertices s)
  = inr (VMat (map (fun p => row3 (add3 (mul3 p (2, 2, 2)%R) (1, 0, 0)%R))
                   (mesh_vertices (sample.icosphere 3)))).
Proof.
  intros s.
  apply (sphere_mesh_is_the_unit_sphere_scaled (H := sample_collaborators)
           s (sample.icosphere 3) 2 1 0 0);
    reflexivity.
Defined.

(** ** Sliding an extrusion along its direction *)

(** What the getter returns is a matrix of sixteen entries. *)
Lemma extrude_transform_entries (s : obj) :
  exists t (a0 a1 a2 a3 b0 b1 b2 b3 c0 c1 c2 c3 d0 d1 d2 d3 : R),
    Extrusion.extrude_transform s = Outcome (inr t) s []
    /\ has_shape t = true
    /\ as_matrix t
       = inr [[a0; a1; a2; a3]; [b0; b1; b2; b3]; [c0; c1; c2; c3]; [d0; d1; d2; d3]].
Proof.
  destruct (extrude_transform_matrix s) as (t & m & Hget & Hshape & Hm & _).
  destruct (shape_44_matrix _ Hshape) as (m' & Hm' & Hlen & Hrows).
  rewrite Hm in Hm'. injection Hm' as <-.
  destruct (matrix44_entries m Hlen Hrows)
    as (a0 & a1 & a2 & a3 & b0 & b1 & b2 & b3 & c0 & c1 & c2 & c3
          & d0 & d1 & d2 & d3 & ->).
  exists t, a0, a1, a2, a3, b0, b1, b2, b3, c0, c1, c2, c3, d0, d1, d2, d3.
  split; [exact Hget|]. split; [|exact Hm].
  destruct t; simpl in Hshape; try discriminate; reflexivity.
Qed.

Lemma slide_runs (s : obj) (x : R) (t : value) (m : list (list R)) :
  Extrusion.extrude_transform s = Outcome (inr t) s [] ->
  has_shape t = true ->
  as_matrix t = inr m ->
  length m = 4 ->
  Extrusion.slide (VFloat x) s
  = DataStore.__setitem__ "extrude_transform"
      (VMat (np_dot m (Extrusion.translation x))) s.
Proof.
  intros Hget Harray Hm Hlen.
  destruct (np_dot_translation_shape m x Hlen) as [Hrect Hnew].
  unfold Extrusion.slide.
  rewrite (bind_pure _ _ s x) by reflexivity.
  rewrite (bind_pure _ _ s t Hget).
  rewrite (bind_pure _ _ s t) by (unfold np_copy; rewrite Harray; reflexivity).
  rewrite (bind_pure _ _ s m) by (rewrite Hm; reflexivity).
  unfold Extrusion.set_extrude_transform.
  rewrite (bind_pure _ _ s (VMat (np_dot m (Extrusion.translation x))))
    by (unfold asanyarray_float64; rewrite Hrect; reflexivity).
  rewrite (bool_decide_eq_true_2 _ Hnew). reflexivity.
Qed.

Lemma extrude_transform_stored (s : obj) (m : list (list R)) :
  np_shape (VMat m) = [4; 4] ->
  let s' := after (DataStore.__setitem__ "extrude_transform" (VMat m) s) in
  Extrusion.extrude_transform s' = Outcome (inr (VMat m)) s' [].
Proof.
  intros Hshape s'. unfold Extrusion.extrude_transform.
  rewrite (bind_pure _ _ s' (VMat m))
    by (unfold DataStore.__getitem__; run; by rewrite lookup_insert_eq).
  by rewrite (bool_decide_eq_true_2 _ Hshape).
Qed.

Lemma extrude_direction_runs (s : obj) (t : value) (m : list (list R)) :
  Extrusion.extrude_transform s = Outcome (inr t) s [] ->
  as_matrix t = inr m ->
  Extrusion.extrude_direction s
  = Outcome (inr (VVec (row3 (rotate3 (block33 m) (0, 0, 1)%R)))) s [].
Proof.
  intros Hget Hm. unfold Extrusion.extrude_direction.
  rewrite (bind_pure _ _ s t Hget).
  by rewrite (bind_pure _ _ s m) by (by rewrite Hm).
Qed.

(** X15: [slide] moves an extrusion along its direction and does not turn
    it. [extrude_direction] never raises and gives three floats; after
    [slide(x)] the rotation block of the transform and the direction are as
    before, and the translation column has moved by x times the
    direction. *)
Theorem slide_moves_along_the_direction (s : obj) (x : R) :
  let s' := after (Extrusion.slide (VFloat x) s) in
  exists (t : value) (m m' : list (list R)) (d0 d1 d2 : R),
    Extrusion.extrude_transform s = Outcome (inr t) s []
    /\ as_matrix t = inr m
    /\ Extrusion.extrude_direction s = Outcome (inr (VVec [d0; d1; d2])) s []
    /\ Extrusion.extrude_transform s' = Outcome (inr (VMat m')) s' []
    /\ block33 m' = block33 m
    /\ column3 m' = zip_with Rplus (column3 m) [x * d0; x * d1; x * d2]%R
    /\ Extrusion.extrude_direction s' = Outcome (inr (VVec [d0; d1; d2])) s' [].
Proof.
  intros s'.
  destruct (extrude_transform_entries s)
    as (t & a0 & a1 & a2 & a3 & b0 & b1 & b2 & b3 & c0 & c1 & c2 & c3
          & d0 & d1 & d2 & d3 & Hget & Harray & Hm).
  set (m := [[a0; a1; a2; a3]; [b0; b1; b2; b3]; [c0; c1; c2; c3]; [d0; d1; d2; d3]])
    in *.
  pose proof (slide_runs s x t m Hget Harray Hm eq_refl) as Hslide.
  pose proof (extrude_transform_stored s (np_dot m (Extrusion.translation x)) eq_refl)
    as Hget'.
  cbn zeta in Hget'. rewrite <- Hslide in Hget'. fold s' in Hget'.
  assert (block33 (np_dot m (Extrusion.translation x)) = block33 m) as Hblock.
  { subst m. unfold block33, np_dot, dot_vec, column. simpl. entries. }
  exists t, m, (np_dot m (Extrusion.translation x)).
  eexists _, _, _.
  split; [exact Hget|]. split; [exact Hm|].
  split; [exact (extrude_direction_runs s t m Hget Hm)|].
  split; [exact Hget'|]. split; [exact Hblock|]. split.
  - subst m. unfold column3, block33, rotate3, np_dot, dot_vec, column. simpl. entries.
  - rewrite (extrude_direction_runs s' _ _ Hget' eq_refl). by rewrite Hblock.
Qed.

(** X16: two slides add up: [slide(x)] and then [slide(y)] leave the
    extrusion as [slide(x + y)] does, and all three return. *)
Theorem slides_add_up (s : obj) (x y : R) :
  let s1 := after (Extrusion.slide (VFloat x) s) in
  result (Extrusion.slide (VFloat x) s) = inr tt
  /\ result (Extrusion.slide (VFloat y) s1) = inr tt
  /\ after (Extrusion.slide (VFloat y) s1)
     = after (Extrusion.slide (VFloat (x + y)) s).
Proof.
  intros s1.
  destruct (extrude_transform_entries s)
    as (t & a0 & a1 & a2 & a3 & b0 & b1 & b2 & b3 & c0 & c1 & c2 & c3
          & d0 & d1 & d2 & d3 & Hget & Harray & Hm).
  set (m := [[a0; a1; a2; a3]; [b0; b1; b2; b3]; [c0; c1; c2; c3]; [d0; d1; d2; d3]])
    in *.
  pose proof (slide_runs s x t m Hget Harray Hm eq_refl) as Hx.
  pose proof (slide_runs s (x + y) t m Hget Harray Hm eq_refl) as Hxy.
  pose proof (extrude_transform_stored s (np_dot m (Extrusion.translation x)) eq_refl)
    as Hget1.
  cbn zeta in Hget1. rewrite <- Hx in Hget1. fold s1 in Hget1.
  pose proof (slide_runs s1 y _ (np_dot m (Extrusion.translation x)) Hget1
                eq_refl eq_refl eq_refl) as Hy.
  assert (np_dot (np_dot m (Extrusion.translation x)) (Extrusion.translation y)
          = np_dot m (Extrusion.translation (x + y))) as Hdot.
  { subst m. unfold np_dot, dot_vec, column. simpl. entries. }
  rewrite Hy, Hxy, Hdot. subst s1. rewrite Hx.
  split; [reflexivity|]. split; [reflexivity|].
  unfold DataStore.__setitem__, modify. cbn [after _data with_data with_cache class_of
    _cache _unit_sphere _unit_box primitive_data tracked_array].
  by rewrite insert_insert_eq.
Qed.

(** ** The cached mesh is current *)























(** ** Reading the attributes of a cylinder *)






(** ** Setters that convert their argument *)

(** X20: [sphere_radius], [extrude_height] and [slide] take their argument
    through [float]: when [float] raises on it, they raise the same
    exception and leave the object as it was; an integer, or an array of one
    number, does what the float of the same value does. *)
Theorem scalar_setters_convert (s : obj) (value : value) :
  (forall e, float value = inl e ->
     Sphere.set_sphere_radius value s = Outcome (inl e) s []
     /\ Extrusion.set_extrude_height value s = Outcome (inl e) s []
     /\ Extrusion.slide value s = Outcome (inl e) s [])
  /\ (forall x, float value = inr x ->
        Sphere.set_sphere_radius value s = Sphere.set_sphere_radius (VFloat x) s
        /\ Extrusion.set_extrude_height value s
           = Extrusion.set_extrude_height (VFloat x) s
        /\ Extrusion.slide value s = Extrusion.slide (VFloat x) s).
Proof.
  unfold Sphere.set_sphere_radius, Extrusion.set_extrude_height, Extrusion.slide.
  split.
  - intros e He. rewrite !(bind_reads _ _ s _ (lift_runs _ s)), He. by repeat split.
  - intros x Hx. rewrite !(bind_reads _ _ s _ (lift_runs _ s)), Hx. by repeat split.
Qed.

Lemma scalar_setters_convert_witness :
  let s := after (construct (H := sample_collaborators) Extrusion_cls ∅) in
  Extrusion.slide VNone s
  = Outcome (inl (Raise TypeError "float() argument must be a string or a number")) s []
  /\ Extrusion.slide (VIVec [2]%Z) s = Extrusion.slide (VFloat 2) s.
Proof.
  intros s. destruct (scalar_setters_convert s VNone) as [Hfails _].
  destruct (scalar_setters_convert s (VIVec [2]%Z)) as [_ Hconverts].
  destruct (Hfails _ eq_refl) as (_ & _ & Hslide).
  destruct (Hconverts _ eq_refl) as (_ & _ & Hslide').
  split; [exact Hslide|exact Hslide'].
Defined.

Lemma extrude_height_reads (s : obj) :
  Extrusion.extrude_height s
  = Outcome (match default VNone (_data s !! "extrude_height") with
             | VNone => inl (Raise ValueError "extrude height not specified!")
             | stored =>
                 match np_copy stored with
                 | inr copy => getitem0 copy
                 | inl e => inl e
                 end
             end) s [].
Proof.
  unfold Extrusion.extrude_height.
  rewrite (bind_pure _ _ s (default VNone (_data s !! "extrude_height"))) by reflexivity.
  destruct (default VNone (_data s !! "extrude_height")) eqn:Hstored;
    try reflexivity;
    rewrite (bind_reads _ _ s _ (lift_runs _ s));
    (destruct (np_copy _); [reflexivity|apply lift_runs]).
Qed.

Lemma extrude_transform_reads (s : obj) :
  Extrusion.extrude_transform s
  = Outcome (inr (if bool_decide
                       (np_shape (default VNone (_data s !! "extrude_transform"))
                        = [4; 4])
                  then default VNone (_data s !! "extrude_transform")
                  else VMat (np_eye 4))) s [].
Proof.
  unfold Extrusion.extrude_transform.
  rewrite (bind_pure _ _ s (default VNone (_data s !! "extrude_transform")))
    by reflexivity.
  by destruct (bool_decide _).
Qed.

(** X21: [extrude_polygon] stores what [creation.validate_polygon] makes
    of the value assigned: when the validation raises, the setter raises the
    same exception and the object is left as it was; when it gives a
    polygon, the getter then returns this polygon, once and again, and the
    height and the transform read as before. *)
Theorem extrude_polygon_is_validated `{Collaborators} (s : obj) (value : value) :
  (forall e, creation_validate_polygon value = inl e ->
     Extrusion.set_extrude_polygon value s = Outcome (inl e) s [])
  /\ (forall p, creation_validate_polygon value = inr p ->
        let s' := after (Extrusion.set_extrude_polygon value s) in
        result (Extrusion.set_extrude_polygon value s) = inr tt
        /\ Extrusion.extrude_polygon s' = Outcome (inr (VPoly p)) s' []
        /\ result (Extrusion.extrude_height s') = result (Extrusion.extrude_height s)
        /\ result (Extrusion.extrude_transform s')
           = result (Extrusion.extrude_transform s)).
Proof.
  unfold Extrusion.set_extrude_polygon. split.
  - intros e He. by rewrite (bind_reads _ _ s _ (lift_runs _ s)), He.
  - intros p Hp. rewrite (bind_reads _ _ s _ (lift_runs _ s)), Hp.
    split; [reflexivity|]. split; [|split].
    + unfold Extrusion.extrude_polygon.
      rewrite (bind_pure _ _ _ (VObjs [Some p]))
        by (unfold DataStore.__getitem__; run; by rewrite lookup_insert_eq).
      reflexivity.
    + rewrite !extrude_height_reads. cbn [result after DataStore.__setitem__ modify
        _data with_cache with_data].
      by rewrite lookup_insert_ne.
    + rewrite !extrude_transform_reads. cbn [result after DataStore.__setitem__ modify
        _data with_cache with_data].
      by rewrite lookup_insert_ne.
Qed.

Lemma extrude_polygon_is_validated_witness :
  let s := after (construct (H := sample_collaborators) Extrusion_cls ∅) in
  let square := VPoly [(0, 0); (1, 0); (1, 1); (0, 1)]%R in
  let s' := after (Extrusion.set_extrude_polygon (H := sample_collaborators) square s) in
  Extrusion.set_extrude_polygon (H := sample_collaborators) (VFloat 1) s
  = Outcome (inl (Raise ValueError "input is not a polygon")) s []
  /\ Extrusion.extrude_polygon s' = Outcome (inr square) s' [].
Proof.
  intros s square s'.
  destruct (extrude_polygon_is_validated (H := sample_collaborators) s (VFloat 1))
    as [Hfails _].
  destruct (extrude_polygon_is_validated (H := sample_collaborators) s square)
    as [_ Hstores].
  split; [by apply Hfails|].
  destruct (Hstores [(0, 0); (1, 0); (1, 1); (0, 1)]%R eq_refl) as (_ & Hget & _).
  exact Hget.
Defined.

(** ** The meshes of an extrusion and of a cylinder *)

(** Reading the arrays of an object with nothing cached, from what its mesh
    creation does. *)
Lemma read_fresh `{Collaborators} (s : obj) (v f n : value) (l : list log_record) :
  (forall k, _cache s !! slot_key k = None) ->
  _create_mesh s = Outcome (inr tt) (after (cache_mesh v f n s)) l ->
  result (read slot_vertices s) = inr v
  /\ result (read slot_faces s) = inr f
  /\ result (read slot_face_normals s) = inr n
  /\ forall k, emitted (read k s) = l.
Proof.
  intros Hcache Hcreate.
  assert (forall k, read k s
                    = Outcome (inr (default VNone
                                      (_cache (after (cache_mesh v f n s)) !! slot_key k)))
                              (after (cache_mesh v f n s)) l) as Hread.
  { intros k. unfold read. rewrite read_with_miss by (by rewrite Hcache).
    rewrite (bind_returns _ _ _ _ _ _ Hcreate). rewrite cache_getitem.
    cbn [result after emitted]. by rewrite app_nil_r. }
  split; [|split; [|split]].
  - rewrite Hread. unfold cache_mesh. run.
    rewrite !lookup_insert_ne by discriminate. by rewrite lookup_insert_eq.
  - rewrite Hread. unfold cache_mesh. run.
    rewrite lookup_insert_ne by discriminate. by rewrite lookup_insert_eq.
  - rewrite Hread. unfold cache_mesh. run. by rewrite lookup_insert_eq.
  - intros k. by rewrite Hread.
Qed.

Lemma create_mesh_of_class `{Collaborators} (s : obj) :
  _create_mesh s
  = match class_of s with
    | Primitive_cls => _Primitive._create_mesh s
    | Cylinder_cls => Cylinder._create_mesh s
    | Sphere_cls => Sphere._create_mesh s
    | Box_cls => Box._create_mesh s
    | Extrusion_cls => Extrusion._create_mesh s
    end.
Proof.
  unfold _create_mesh. rewrite (bind_pure _ _ s s) by reflexivity.
  by destruct (class_of s).
Qed.

Lemma extrude_polygon_reads (s : obj) :
  Extrusion.extrude_polygon s
  = Outcome (match default VNone (_data s !! "extrude_polygon") with
             | VNone => inl (Raise ValueError "extrude polygon not specified!")
             | stored => getitem0 stored
             end) s [].
Proof.
  unfold Extrusion.extrude_polygon.
  rewrite (bind_pure _ _ s (default VNone (_data s !! "extrude_polygon"))) by reflexivity.
  destruct (default VNone (_data s !! "extrude_polygon")); try reflexivity;
    apply lift_runs.
Qed.

(** X22: the mesh of an extrusion is the polygon extruded by the height,
    then transformed. On an extrusion with nothing cached, whose polygon,
    height and transform read [polygon], [height] and [transform], a read
    of [vertices], [faces] or [face_normals] gives the array of the mesh
    that [apply_transform] makes of [creation.extrude_polygon(polygon,
    height)], and logs one DEBUG record. The polygon is asked for first:
    when it was never set, the read raises the ValueError "extrude polygon
    not specified!", whether or not the height is set. *)
Theorem extrusion_mesh_is_the_polygon_extruded `{Collaborators} (s : obj) :
  let creating := Log DEBUG "Creating mesh for extrude _Primitive" in
  class_of s = Extrusion_cls ->
  (forall k, _cache s !! slot_key k = None) ->
  (forall (polygon height transform : value) (mesh mesh' : Trimesh),
     result (Extrusion.extrude_polygon s) = inr polygon ->
     result (Extrusion.extrude_height s) = inr height ->
     result (Extrusion.extrude_transform s) = inr transform ->
     creation_extrude_polygon polygon height = inr mesh ->
     apply_transform mesh transform = inr mesh' ->
     result (read slot_vertices s) = inr (vertices_array mesh')
     /\ result (read slot_faces s) = inr (faces_array mesh')
     /\ result (read slot_face_normals s) = inr (face_normals_array mesh')
     /\ forall k, emitted (read k s) = [creating])
  /\ (_data s !! "extrude_polygon" = None ->
      forall k,
        read k s
        = Outcome (inl (Raise ValueError "extrude polygon not specified!")) s [creating]).
Proof.
  intros creating Hclass Hcache. split.
  - intros polygon height transform mesh mesh' Hpolygon Hheight Htransform Hmesh Hmesh'.
    apply read_fresh; [exact Hcache|].
    rewrite create_mesh_of_class, Hclass. unfold Extrusion._create_mesh.
    rewrite (bind_returns _ _ s s tt [creating]) by reflexivity.
    rewrite extrude_polygon_reads in Hpolygon. cbn [result] in Hpolygon.
    rewrite extrude_height_reads in Hheight. cbn [result] in Hheight.
    rewrite extrude_transform_reads in Htransform. cbn [result] in Htransform.
    rewrite (bind_pure _ _ s polygon) by (by rewrite extrude_polygon_reads, Hpolygon).
    rewrite (bind_pure _ _ s height) by (by rewrite extrude_height_reads, Hheight).
    rewrite (bind_pure _ _ s mesh) by (by rewrite Hmesh).
    rewrite (bind_pure _ _ s transform)
      by (rewrite extrude_transform_reads; by injection Htransform as ->).
    rewrite (bind_pure _ _ s mesh') by (by rewrite Hmesh').
    reflexivity.
  - intros Hnone k. unfold read. rewrite read_with_miss by (by rewrite Hcache).
    assert (_create_mesh s
            = Outcome (inl (Raise ValueError "extrude polygon not specified!")) s
                      [creating]) as Hcreate.
    { rewrite create_mesh_of_class, Hclass. unfold Extrusion._create_mesh.
      rewrite (bind_returns _ _ s s tt [creating]) by reflexivity.
      rewrite (bind_reads _ _ s _ (extrude_polygon_reads s)), Hnone. reflexivity. }
    by rewrite (bind_raises _ _ _ _ _ _ Hcreate).
Qed.

Lemma extrusion_mesh_is_the_polygon_extruded_witness :
  let square := VPoly [(0, 0); (1, 0); (1, 1); (0, 1)]%R in
  let s0 := after (construct (H := sample_collaborators) Extrusion_cls
                     {["extrude_height" := VFloat 2]}) in
  let s := after (Extrusion.set_extrude_polygon (H := sample_collaborators) square s0) in
  result (read (H := sample_collaborators) slot_faces s)
  = inr (faces_array sample.box)
  /\ result (read (H := sample_collaborators) slot_faces s0)
     = inl (Raise ValueError "extrude polygon not specified!").
Proof.
  intros square s0 s.
  destruct (extrusion_mesh_is_the_polygon_extruded (H := sample_collaborators) s)
    as [Hmesh _]; [reflexivity|reflexivity|].
  destruct (extrusion_mesh_is_the_polygon_extruded (H := sample_collaborators) s0)
    as [_ Hmissing]; [reflexivity|reflexivity|].
  split.
  - destruct (Hmesh square (VFloat 2) (VMat (np_eye 4)) (sample.prism (1 / 2) 2)
                (Mesh (sample.transform_points
                         (mesh_vertices (sample.prism (1 / 2) 2)) (np_eye 4))
                      (mesh_faces sample.box)
                      (map (rotate3 (block33 (np_eye 4))) (mesh_face_normals sample.box))))
      as (_ & Hfaces & _); [reflexivity..|].
    exact Hfaces.
  - by rewrite Hmissing.
Defined.

(** Reads that change nothing and log nothing. *)
Lemma quiet_bind {A B} (m : M A) (f : A -> M B) :
  (forall s, exists r, m s = Outcome r s []) ->
  (forall a s, exists r, f a s = Outcome r s []) ->
  forall s, exists r, bind m f s = Outcome r s [].
Proof.
  intros Hm Hf s. destruct (Hm s) as ([e|a] & Hr).
  - exists (inl e). by apply bind_raises.
  - destruct (Hf a s) as (r & Hfa). exists r. by rewrite (bind_pure _ _ s a Hr).
Qed.

Lemma quiet_lift {A} (x : exn + A) (s : obj) : exists r, lift x s = Outcome r s [].
Proof. exists x. apply lift_runs. Qed.

Lemma quiet_dict (s : obj) :
  exists r, _PrimitiveAttributes.__dict__ s = Outcome r s [].
Proof.
  unfold _PrimitiveAttributes.__dict__. run. destruct (primitive_data s); by eexists.
Qed.

Lemma quiet_defaults (s : obj) :
  exists r, _PrimitiveAttributes._defaults s = Outcome r s [].
Proof.
  apply quiet_bind; [apply quiet_dict|]. intros d s0.
  destruct (d !! "_defaults") as [[]|]; by eexists.
Qed.

Lemma quiet_data_getitem (key : string) (s : obj) :
  exists r, _PrimitiveAttributes._data_getitem key s = Outcome r s [].
Proof.
  apply quiet_bind; [apply quiet_dict|]. intros d s0.
  destruct (d !! "_data") as [[|m|]|]; try (by eexists).
  destruct (m !! key); by eexists.
Qed.

Lemma quiet_dunder_getattr `{Collaborators} (key : string) (s : obj) :
  exists r, _PrimitiveAttributes.__getattr__ key s = Outcome r s [].
Proof.
  unfold _PrimitiveAttributes.__getattr__.
  destruct (contains_underscore key); [by eexists|].
  apply quiet_bind; [apply quiet_defaults|]. intros defaults s0.
  destruct (defaults !! key) as [like|]; [|by eexists].
  apply quiet_bind; [apply quiet_data_getitem|]. intros stored s1. apply quiet_lift.
Qed.

Lemma primitive_data_get_reads `{Collaborators} (key : string) (s : obj) :
  exists r, Cylinder.primitive_data_get key s = Outcome r s [].
Proof.
  apply quiet_bind.
  - apply quiet_bind; [apply quiet_dict|]. intros d s0.
    destruct (d !! key); [by eexists|].
    apply quiet_bind; [apply quiet_dunder_getattr|]. intros v s1. by eexists.
  - intros [] s0; by eexists.
Qed.

Lemma primitive_data_get_runs `{Collaborators} (key : string) (s : obj) (v : value) :
  result (Cylinder.primitive_data_get key s) = inr v ->
  Cylinder.primitive_data_get key s = Outcome (inr v) s [].
Proof.
  destruct (primitive_data_get_reads key s) as (r & ->). cbn [result]. by intros ->.
Qed.

(** X23: the mesh of a cylinder is [creation.cylinder] of the attributes
    [radius], [height] and [sections] of [primitive_data], transformed by
    the attribute [transform]. On a cylinder with nothing cached whose
    attributes read so, a read of [vertices], [faces] or [face_normals]
    gives the array of that mesh and logs one INFO record. The attributes
    are read before anything is logged: when [radius] cannot be read, the
    read raises what the attribute raises, logs nothing and changes
    nothing. *)
Theorem cylinder_mesh_is_made_of_the_attributes `{Collaborators} (s : obj) :
  let creating :=
    Log INFO "Creating cylinder mesh with r=%f, h=%f and %d sections" in
  class_of s = Cylinder_cls ->
  (forall k, _cache s !! slot_key k = None) ->
  (forall (radius height sections transform : value) (mesh mesh' : Trimesh),
     result (Cylinder.primitive_data_get "radius" s) = inr radius ->
     result (Cylinder.primitive_data_get "height" s) = inr height ->
     result (Cylinder.primitive_data_get "sections" s) = inr sections ->
     result (Cylinder.primitive_data_get "transform" s) = inr transform ->
     creation_cylinder radius height sections = inr mesh ->
     apply_transform mesh transform = inr mesh' ->
     result (read slot_vertices s) = inr (vertices_array mesh')
     /\ result (read slot_faces s) = inr (faces_array mesh')
     /\ result (read slot_face_normals s) = inr (face_normals_array mesh')
     /\ forall k, emitted (read k s) = [creating])
  /\ (forall e,
        result (Cylinder.primitive_data_get "radius" s) = inl e ->
        forall k, read k s = Outcome (inl e) s []).
Proof.
  intros creating Hclass Hcache. split.
  - intros radius height sections transform mesh mesh'
      Hradius Hheight Hsections Htransform Hmesh Hmesh'.
    apply read_fresh; [exact Hcache|].
    apply primitive_data_get_runs in Hradius, Hheight, Hsections, Htransform.
    rewrite create_mesh_of_class, Hclass. unfold Cylinder._create_mesh.
    rewrite (bind_pure _ _ s radius Hradius).
    rewrite (bind_pure _ _ s height Hheight).
    rewrite (bind_pure _ _ s sections Hsections).
    rewrite (bind_returns _ _ s s tt [creating]) by reflexivity.
    rewrite (bind_pure _ _ s radius Hradius).
    rewrite (bind_pure _ _ s height Hheight).
    rewrite (bind_pure _ _ s sections Hsections).
    rewrite (bind_pure _ _ s mesh) by (by rewrite Hmesh).
    rewrite (bind_pure _ _ s transform Htransform).
    rewrite (bind_pure _ _ s mesh') by (by rewrite Hmesh').
    reflexivity.
  - intros e Hradius k. unfold read. rewrite read_with_miss by (by rewrite Hcache).
    assert (_create_mesh s = Outcome (inl e) s []) as Hcreate.
    { rewrite create_mesh_of_class, Hclass. unfold Cylinder._create_mesh.
      destruct (primitive_data_get_reads "radius" s) as (r & Hr).
      rewrite Hr in Hradius. cbn [result] in Hradius. subst r.
      by rewrite (bind_raises _ _ _ _ _ _ Hr). }
    by rewrite (bind_raises _ _ _ _ _ _ Hcreate).
Qed.

Lemma cylinder_mesh_is_made_of_the_attributes_witness :
  let s := after (construct (H := sample_collaborators) Cylinder_cls
                    {["radius" := VFloat 2]}) in
  result (read (H := sample_collaborators) slot_faces s)
  = inr (faces_array sample.box)
  /\ emitted (read (H := sample_collaborators) slot_faces s)
     = [Log INFO "Creating cylinder mesh with r=%f, h=%f and %d sections"].
Proof.
  intros s.
  destruct (cylinder_mesh_is_made_of_the_attributes (H := sample_collaborators) s)
    as [Hmesh _]; [reflexivity|reflexivity|].
  destruct (Hmesh (VFloat 2) (VFloat 1) (VInt 32) (VMat (np_eye 4))
              (sample.prism 2 1)
              (Mesh (sample.transform_points
                       (mesh_vertices (sample.prism 2 1)) (np_eye 4))
                    (mesh_faces sample.box)
                    (map (rotate3 (block33 (np_eye 4))) (mesh_face_normals sample.box))))
    as (_ & Hfaces & _ & Hlog); [vm_compute; reflexivity..|].
  split; [exact Hfaces|exact (Hlog slot_faces)].
Defined.

(** ** Construction *)

